(** * BadmintonHub: session lifecycle and match recording

    A shallow embedding of [services/mockDb.ts] (the in-memory store and its
    [joinSession], [leaveSession], [createSession] and [recordMatch]
    operations) and of [MatchRecorder.submitMatch] from the UI, together with
    the part of the JavaScript [Date] API those functions call.

    Conventions of the embedding:
    - a JavaScript [number] that the program uses as a counter, a score, a
      capacity or a time value is an unbounded integer ([Z]);
    - the module-level arrays [SESSIONS], [MEMBERS] and [MATCHES] are the
      fields of a [Store] record that every operation takes and returns;
    - [throw new Error(msg)] is the [Throw msg] result, and the store that
      comes with it is the store at the moment of the throw;
    - [await delay(ms)] is the first statement of every operation, before any
      read of the store, so an operation is one atomic step;
    - [Math.random()] and [new Date()] / [Date.now()] are inputs of the
      operation that reads them, and so is the host's time zone [tz] for the
      operations that read or write a local date. *)

From Stdlib Require Import ZArith List String Ascii Bool Lia Permutation.
Import ListNotations.

#[local] Open Scope string_scope.
#[local] Open Scope Z_scope.

(** ** The JavaScript [Date] functions used by the program

    Time values are milliseconds since the epoch.  The host time zone is a
    parameter: in [getDate], [setDate] and [parse] it is [tz], one offset of
    local time from UTC in milliseconds ([LocalTZA]) for every instant, which
    is a host without daylight saving; in [getDate_in], [setDate_in] and
    [parse_in], at the end of the module, it is a [Zone], whose offset
    depends on the instant.  The day/civil-date conversions are the usual
    closed formulas for the proleptic Gregorian calendar, which is what
    ECMAScript prescribes. *)
Module JSDate.

Definition msPerDay : Z := 86400000.
Definition msPerHour : Z := 3600000.
Definition msPerMinute : Z := 60000.

(** [Day(t)] and [TimeWithinDay(t)] of ECMAScript. *)
Definition Day (t : Z) : Z := t / msPerDay.
Definition TimeWithinDay (t : Z) : Z := t mod msPerDay.

(** [LocalTime(t)] and [UTC(t)] in the host time zone. *)
Definition LocalTime (tz t : Z) : Z := t + tz.
Definition UTC (tz t : Z) : Z := t - tz.

(** Day number (days since 1970-01-01) of the civil date [y]-[m]-[d], with
    [m] counted from 1.  A day of the month outside the month's range rolls
    over into the neighbouring months, as [MakeDay] does. *)
Definition days_from_civil (y m d : Z) : Z :=
  let y' := if m <=? 2 then y - 1 else y in
  let era := y' / 400 in
  let yoe := y' - era * 400 in
  let mp := if 2 <? m then m - 3 else m + 9 in
  let doy := (153 * mp + 2) / 5 + d - 1 in
  let doe := yoe * 365 + yoe / 4 - yoe / 100 + doy in
  era * 146097 + doe - 719468.

(** Civil date (year, month from 1, day of month) of a day number. *)
Definition civil_from_days (z : Z) : Z * Z * Z :=
  let z' := z + 719468 in
  let era := z' / 146097 in
  let doe := z' - era * 146097 in
  let yoe := (doe - doe / 1460 + doe / 36524 - doe / 146096) / 365 in
  let doy := doe - (365 * yoe + yoe / 4 - yoe / 100) in
  let mp := (5 * doy + 2) / 153 in
  let d := doy - (153 * mp + 2) / 5 + 1 in
  let m := if mp <? 10 then mp + 3 else mp - 9 in
  let y := yoe + era * 400 in
  ((if m <=? 2 then y + 1 else y), m, d).

(** [MakeDay(year, month, date)] with the month counted from 1, and
    [MakeDate(day, time)]. *)
Definition MakeDay (y m dt : Z) : Z := days_from_civil y m 1 + dt - 1.
Definition MakeDate (day time : Z) : Z := day * msPerDay + time.

(** [Date.prototype.getDate] and [Date.prototype.setDate] on a valid time
    value; both work on the local date. *)
Definition getDate (tz t : Z) : Z :=
  let '(_, _, d) := civil_from_days (Day (LocalTime tz t)) in d.

Definition setDate (tz t : Z) (dt : Z) : Z :=
  let '(y, m, _) := civil_from_days (Day (LocalTime tz t)) in
  UTC tz (MakeDate (MakeDay y m dt) (TimeWithinDay (LocalTime tz t))).

(** *** Parsing the two ISO forms the program builds

    ["YYYY-MM-DD"] (read as UTC midnight) and ["YYYY-MM-DDTHH:mm"] (read as
    local time).  [None] stands for an invalid date, whose time value is
    [NaN].  Only these two forms are read: [Date] also accepts other strings
    (a time with seconds, a full ISO timestamp, the formats of the host's
    fallback parser), for which [parse] gives [None] all the same.  The
    properties below therefore draw on a [None] only where the string is
    invalid for [Date] too: a missing field, which is printed as
    "undefined". *)
Definition digit (c : ascii) : option Z :=
  let n := nat_of_ascii c in
  if ((48 <=? n) && (n <=? 57))%nat then Some (Z.of_nat n - 48) else None.

Fixpoint number (cs : list ascii) (acc : Z) : option Z :=
  match cs with
  | [] => Some acc
  | c :: cs' =>
      match digit c with
      | Some v => number cs' (10 * acc + v)
      | None => None
      end
  end.

Definition parse_ymd (y1 y2 y3 y4 m1 m2 d1 d2 : ascii) : option Z :=
  match number [y1; y2; y3; y4] 0, number [m1; m2] 0, number [d1; d2] 0 with
  | Some y, Some m, Some d =>
      if (1 <=? m) && (m <=? 12) && (1 <=? d) && (d <=? 31)
      then Some (days_from_civil y m d)
      else None
  | _, _, _ => None
  end.

Definition parse_hm (h1 h2 n1 n2 : ascii) : option Z :=
  match number [h1; h2] 0, number [n1; n2] 0 with
  | Some h, Some n =>
      if ((h <=? 23) && (n <=? 59)) || ((h =? 24) && (n =? 0))
      then Some (h * msPerHour + n * msPerMinute)
      else None
  | _, _ => None
  end.

Definition parse (tz : Z) (s : string) : option Z :=
  match list_ascii_of_string s with
  | [y1; y2; y3; y4; "-"; m1; m2; "-"; d1; d2]%char =>
      match parse_ymd y1 y2 y3 y4 m1 m2 d1 d2 with
      | Some day => Some (MakeDate day 0)
      | None => None
      end
  | [y1; y2; y3; y4; "-"; m1; m2; "-"; d1; d2; "T"; h1; h2; ":"; n1; n2]%char =>
      match parse_ymd y1 y2 y3 y4 m1 m2 d1 d2, parse_hm h1 h2 n1 n2 with
      | Some day, Some time => Some (UTC tz (MakeDate day time))
      | _, _ => None
      end
  | _ => None
  end.

(** *** Formatting: the date part of [toISOString()] *)
Fixpoint pad_digits (w : nat) (n : Z) (acc : string) : string :=
  match w with
  | O => acc
  | S w' =>
      pad_digits w' (n / 10)
        (String (ascii_of_nat (48 + Z.to_nat (n mod 10))) acc)
  end.

Definition pad (w : nat) (n : Z) : string := pad_digits w n "".

(** [t.toISOString().split('T')[0]] for a valid time value, which is the UTC
    date: four digits for the years 0..9999, the signed six-digit form
    otherwise. *)
Definition isoDate (t : Z) : string :=
  let '(y, m, d) := civil_from_days (Day t) in
  let ys := if (0 <=? y) && (y <=? 9999) then pad 4 y
            else (if y <? 0 then "-" else "+") ++ pad 6 (Z.abs y) in
  ys ++ "-" ++ pad 2 m ++ "-" ++ pad 2 d.

(** [t.toISOString()] for a valid time value. *)
Definition isoTime (t : Z) : string :=
  let w := TimeWithinDay t in
  pad 2 (w / msPerHour) ++ ":" ++ pad 2 (w mod msPerHour / msPerMinute)
  ++ ":" ++ pad 2 (w mod msPerMinute / 1000) ++ "." ++ pad 3 (w mod 1000).

Definition toISOString (t : Z) : string := isoDate t ++ "T" ++ isoTime t ++ "Z".

(** *** Hosts whose offset from UTC changes

    On a host with daylight saving the offset depends on the instant:
    [offset_at_utc z t] is the offset in force at the time value [t]
    ([LocalTZA(t, true)]), and [offset_at_local z t] the offset with which a
    local time [t] is read ([LocalTZA(t, false)]).  [getDate_in],
    [setDate_in] and [parse_in] are [getDate], [setDate] and [parse] on such
    a host. *)
Record Zone : Type := mkZone {
  offset_at_utc : Z -> Z;
  offset_at_local : Z -> Z
}.

Definition fixed_zone (tz : Z) : Zone := mkZone (fun _ => tz) (fun _ => tz).

Definition LocalTime_in (z : Zone) (t : Z) : Z := t + offset_at_utc z t.
Definition UTC_in (z : Zone) (t : Z) : Z := t - offset_at_local z t.

Definition getDate_in (z : Zone) (t : Z) : Z :=
  let '(_, _, d) := civil_from_days (Day (LocalTime_in z t)) in d.

Definition setDate_in (z : Zone) (t : Z) (dt : Z) : Z :=
  let '(y, m, _) := civil_from_days (Day (LocalTime_in z t)) in
  UTC_in z (MakeDate (MakeDay y m dt) (TimeWithinDay (LocalTime_in z t))).

Definition parse_in (z : Zone) (s : string) : option Z :=
  match list_ascii_of_string s with
  | [y1; y2; y3; y4; "-"; m1; m2; "-"; d1; d2]%char =>
      match parse_ymd y1 y2 y3 y4 m1 m2 d1 d2 with
      | Some day => Some (MakeDate day 0)
      | None => None
      end
  | [y1; y2; y3; y4; "-"; m1; m2; "-"; d1; d2; "T"; h1; h2; ":"; n1; n2]%char =>
      match parse_ymd y1 y2 y3 y4 m1 m2 d1 d2, parse_hm h1 h2 n1 n2 with
      | Some day, Some time => Some (UTC_in z (MakeDate day time))
      | _, _ => None
      end
  | _ => None
  end.

End JSDate.


(** ** Data model ([types.ts]) *)

Inductive SessionStatus : Type := OPEN | FULL | COMPLETED.
Inductive Winner : Type := WinnerA | WinnerB.
Inductive ClubRole : Type := admin | member.

(** [Session].  [startTime] and [endTime] are declared [string], but
    [createSession] stores [data.startTime!] and [data.endTime!] unchecked, so
    at run time either can be [undefined]: that is [None] here. *)
Module Session.
Record t : Type := Build {
  id : string;
  clubId : string;
  date : string;
  startTime : option string;
  endTime : option string;
  courtNumber : string;
  maxPlayers : Z;
  registeredPlayerIds : list string;
  status : SessionStatus;
  price : option Z
}.

Definition with_registeredPlayerIds (l : list string) (s : t) : t :=
  Build (id s) (clubId s) (date s) (startTime s) (endTime s) (courtNumber s)
        (maxPlayers s) l (status s) (price s).

Definition with_status (st : SessionStatus) (s : t) : t :=
  Build (id s) (clubId s) (date s) (startTime s) (endTime s) (courtNumber s)
        (maxPlayers s) (registeredPlayerIds s) st (price s).
End Session.

(** [Partial<Session>], restricted to the fields [createSession] reads.
    [None] is a field that is absent ([undefined]); for [maxPlayers] it also
    stands for [NaN], which is what [parseInt] gives the caller on an empty
    input and which [||] treats like [undefined]. *)
Module PartialSession.
Record t : Type := Build {
  date : option string;
  startTime : option string;
  endTime : option string;
  courtNumber : option string;
  maxPlayers : option Z
}.
End PartialSession.

Module ClubMember.
Record t : Type := Build {
  clubId : string;
  userId : string;
  role : ClubRole;
  joinedAt : string;
  matchesPlayed : Z;
  matchesWon : Z
}.

Definition with_matchesPlayed (n : Z) (m : t) : t :=
  Build (clubId m) (userId m) (role m) (joinedAt m) n (matchesWon m).

Definition with_matchesWon (n : Z) (m : t) : t :=
  Build (clubId m) (userId m) (role m) (joinedAt m) (matchesPlayed m) n.
End ClubMember.

Module Match.
Record t : Type := Build {
  id : string;
  sessionId : string;
  teamA : list string;
  teamB : list string;
  scoreA : Z;
  scoreB : Z;
  winner : Winner;
  timestamp : string
}.
End Match.

(** [Omit<Match, 'id' | 'timestamp'>], the argument of [recordMatch]. *)
Module MatchData.
Record t : Type := Build {
  sessionId : string;
  teamA : list string;
  teamB : list string;
  scoreA : Z;
  scoreB : Z;
  winner : Winner
}.
End MatchData.

(** ** The store: the module-level arrays of [mockDb.ts] *)
Record Store : Type := mkStore {
  SESSIONS : list Session.t;
  MEMBERS : list ClubMember.t;
  MATCHES : list Match.t
}.

(** The outcome of an [async] operation: the promise resolves with a value or
    rejects with [new Error(msg)]. *)
Inductive Result (T : Type) : Type :=
| Return (v : T)
| Throw (msg : string).
Arguments Return {T} v.
Arguments Throw {T} msg.

(** [l.includes(x)] on an array of strings. *)
Definition includes (x : string) (l : list string) : bool :=
  existsb (String.eqb x) l.

(** [SESSIONS.find(s => s.id === sessionId)]: the first session with the id. *)
Definition find_session (sessionId : string) (l : list Session.t) : option Session.t :=
  find (fun s => String.eqb (Session.id s) sessionId) l.

(** The object that [find] returned is an element of the array; a mutation of
    it is a mutation of that element, the first one with the id. *)
Fixpoint assign_session (sessionId : string) (s' : Session.t) (l : list Session.t)
  : list Session.t :=
  match l with
  | [] => []
  | s :: rest =>
      if String.eqb (Session.id s) sessionId then s' :: rest
      else s :: assign_session sessionId s' rest
  end.

Definition with_SESSIONS (l : list Session.t) (db : Store) : Store :=
  mkStore l (MEMBERS db) (MATCHES db).

(** [session.registeredPlayerIds.length >= session.maxPlayers] *)
Definition at_capacity (s : Session.t) : bool :=
  Session.maxPlayers s <=? Z.of_nat (List.length (Session.registeredPlayerIds s)).

(** ** [joinSession] (mockDb.ts, lines 288-298) *)
Definition joinSession (db : Store) (sessionId userId : string)
  : Store * Result Session.t :=
  match find_session sessionId (SESSIONS db) with
  | None => (db, Throw "Session not found")
  | Some session =>
      if includes userId (Session.registeredPlayerIds session) then (db, Return session)
      else if at_capacity session then (db, Throw "Session full")
      else
        let session :=
          Session.with_registeredPlayerIds
            (Session.registeredPlayerIds session ++ [userId]) session in
        let session :=
          if at_capacity session then Session.with_status FULL session else session in
        (with_SESSIONS (assign_session sessionId session (SESSIONS db)) db, Return session)
  end.

(** String concatenation with a value that may be [undefined]. *)
Definition js_string (o : option string) : string :=
  match o with Some s => s | None => "undefined" end.

(** [new Date(session.date + 'T' + session.startTime)], a local date and
    time: [None] is an invalid date, whose [getTime()] is [NaN]. *)
Definition sessionDate (tz : Z) (s : Session.t) : option Z :=
  JSDate.parse tz (Session.date s ++ "T" ++ js_string (Session.startTime s)).

(** [sessionDate.getTime() < Date.now()]; a comparison with [NaN] is false. *)
Definition is_past (d : option Z) (now : Z) : bool :=
  match d with Some t => t <? now | None => false end.

Definition status_eqb (a b : SessionStatus) : bool :=
  match a, b with
  | OPEN, OPEN | FULL, FULL | COMPLETED, COMPLETED => true
  | _, _ => false
  end.

(** ** [leaveSession] (mockDb.ts, lines 300-312)

    [now] is [Date.now()] and [tz] the host's time zone. *)
Definition leaveSession (tz : Z) (db : Store) (sessionId userId : string) (now : Z)
  : Store * Result Session.t :=
  match find_session sessionId (SESSIONS db) with
  | None => (db, Throw "Session not found")
  | Some session =>
      if is_past (sessionDate tz session) now then (db, Throw "Cannot leave past session")
      else
        let session :=
          Session.with_registeredPlayerIds
            (filter (fun id => negb (String.eqb id userId))
                    (Session.registeredPlayerIds session)) session in
        let session :=
          if status_eqb (Session.status session) FULL
          then Session.with_status OPEN session else session in
        (with_SESSIONS (assign_session sessionId session (SESSIONS db)) db, Return session)
  end.

(** ** [createSession] (mockDb.ts, lines 314-340)

    Here on a host whose offset from UTC, [tz], is the same at every instant;
    [createSession_in], further down, is the same function on a host whose
    offset changes, and agrees with this one when it does not. *)

(** [new Date(data.date!)]: the non-null assertion is erased at run time, and
    [new Date(undefined)] is an invalid date. *)
Definition new_Date (tz : Z) (o : option string) : option Z :=
  match o with Some s => JSDate.parse tz s | None => None end.

(** [d.toISOString().split('T')[0]]; on an invalid date [toISOString] throws
    a [RangeError]. *)
Definition dateString_of (d : option Z) : Result string :=
  match d with
  | Some t => Return (JSDate.isoDate t)
  | None => Throw "Invalid time value"
  end.

(** [data.courtNumber || 'TBD'] and [data.maxPlayers || 8]: the right operand
    replaces every falsy left operand, the empty string and 0 included. *)
Definition or_string (o : option string) (d : string) : string :=
  match o with
  | Some s => if String.eqb s "" then d else s
  | None => d
  end.

Definition or_number (o : option Z) (d : Z) : Z :=
  match o with
  | Some n => if n =? 0 then d else n
  | None => d
  end.

(** The object literal [newSession]; [suffix] is
    [Math.random().toString(36).substr(2, 9)]. *)
Definition newSession (clubId : string) (data : PartialSession.t)
    (suffix dateString : string) : Session.t :=
  Session.Build ("s" ++ suffix) clubId dateString
    (PartialSession.startTime data) (PartialSession.endTime data)
    (or_string (PartialSession.courtNumber data) "TBD")
    (or_number (PartialSession.maxPlayers data) 8)
    [] OPEN None.

(** The [for] loop with [n] iterations left, at index [i].  [rnd k] is the
    random suffix drawn in iteration [k]. *)
Fixpoint createSession_loop (tz : Z) (rnd : nat -> string) (clubId : string)
    (data : PartialSession.t) (baseDate : option Z) (n i : nat)
    (db : Store) (createdSessions : list Session.t)
  : Store * Result (list Session.t) :=
  match n with
  | O => (db, Return createdSessions)
  | S n' =>
      let currentDate :=
        match baseDate with
        | Some t => Some (JSDate.setDate tz t (JSDate.getDate tz t + Z.of_nat i * 7))
        | None => None
        end in
      match dateString_of currentDate with
      | Throw msg => (db, Throw msg)
      | Return dateString =>
          let s := newSession clubId data (rnd i) dateString in
          createSession_loop tz rnd clubId data baseDate n' (S i)
            (with_SESSIONS (SESSIONS db ++ [s])%list db) (createdSessions ++ [s])%list
      end
  end.

(** [recurrenceWeeks] is [None] when the caller leaves the argument out (the
    parameter's default is 1). *)
Definition createSession (tz : Z) (db : Store) (rnd : nat -> string) (clubId : string)
    (data : PartialSession.t) (recurrenceWeeks : option Z)
  : Store * Result (list Session.t) :=
  let recurrenceWeeks := match recurrenceWeeks with Some w => w | None => 1 end in
  let baseDate := new_Date tz (PartialSession.date data) in
  createSession_loop tz rnd clubId data baseDate (Z.to_nat recurrenceWeeks) 0 db [].

(** *** [createSession] on a host whose offset from UTC changes
    (mockDb.ts, lines 314-340)

    The same function with the time zone as a [JSDate.Zone]: [setDate] and
    [getDate] work on the local date, [toISOString] on UTC, and the offset
    between the two is the one in force at each instant. *)
Definition new_Date_in (z : JSDate.Zone) (o : option string) : option Z :=
  match o with Some s => JSDate.parse_in z s | None => None end.

Fixpoint createSession_loop_in (z : JSDate.Zone) (rnd : nat -> string) (clubId : string)
    (data : PartialSession.t) (baseDate : option Z) (n i : nat)
    (db : Store) (createdSessions : list Session.t)
  : Store * Result (list Session.t) :=
  match n with
  | O => (db, Return createdSessions)
  | S n' =>
      let currentDate :=
        match baseDate with
        | Some t => Some (JSDate.setDate_in z t (JSDate.getDate_in z t + Z.of_nat i * 7))
        | None => None
        end in
      match dateString_of currentDate with
      | Throw msg => (db, Throw msg)
      | Return dateString =>
          let s := newSession clubId data (rnd i) dateString in
          createSession_loop_in z rnd clubId data baseDate n' (S i)
            (with_SESSIONS (SESSIONS db ++ [s])%list db) (createdSessions ++ [s])%list
      end
  end.

Definition createSession_in (z : JSDate.Zone) (db : Store) (rnd : nat -> string)
    (clubId : string) (data : PartialSession.t) (recurrenceWeeks : option Z)
  : Store * Result (list Session.t) :=
  let recurrenceWeeks := match recurrenceWeeks with Some w => w | None => 1 end in
  let baseDate := new_Date_in z (PartialSession.date data) in
  createSession_loop_in z rnd clubId data baseDate (Z.to_nat recurrenceWeeks) 0 db [].

(** ** [recordMatch] (mockDb.ts, lines 348-374)

    [suffix] is the random part of the id and [now] the time value of
    [new Date()]. *)
Definition newMatch (matchData : MatchData.t) (suffix : string) (now : Z) : Match.t :=
  Match.Build ("m" ++ suffix) (MatchData.sessionId matchData)
    (MatchData.teamA matchData) (MatchData.teamB matchData)
    (MatchData.scoreA matchData) (MatchData.scoreB matchData)
    (MatchData.winner matchData) (JSDate.toISOString now).

Definition allPlayers (matchData : MatchData.t) : list string :=
  (MatchData.teamA matchData ++ MatchData.teamB matchData)%list.

Definition winningTeam (matchData : MatchData.t) : list string :=
  match MatchData.winner matchData with
  | WinnerA => MatchData.teamA matchData
  | WinnerB => MatchData.teamB matchData
  end.

(** The body of [MEMBERS.forEach(m => ...)] for one row. *)
Definition update_stats (session : Session.t) (matchData : MatchData.t)
    (m : ClubMember.t) : ClubMember.t :=
  if String.eqb (ClubMember.clubId m) (Session.clubId session)
     && includes (ClubMember.userId m) (allPlayers matchData)
  then
    let m := ClubMember.with_matchesPlayed (ClubMember.matchesPlayed m + 1) m in
    if includes (ClubMember.userId m) (winningTeam matchData)
    then ClubMember.with_matchesWon (ClubMember.matchesWon m + 1) m
    else m
  else m.

Definition recordMatch (db : Store) (suffix : string) (now : Z)
    (matchData : MatchData.t) : Store * Result Match.t :=
  let m := newMatch matchData suffix now in
  let matches := (MATCHES db ++ [m])%list in
  let members :=
    match find_session (MatchData.sessionId matchData) (SESSIONS db) with
    | Some session => map (update_stats session matchData) (MEMBERS db)
    | None => MEMBERS db
    end in
  (mkStore (SESSIONS db) members matches, Return m).

(** ** [MatchRecorder.submitMatch] (the UI's entry point to [recordMatch])

    The component state is [teamA], [teamB], [scoreA], [scoreB]; [session] is
    the component's prop.  [return alert(msg)] ends the handler without a call
    to the store. *)
Inductive SubmitOutcome : Type :=
| Alert (msg : string)
| Submitted (r : Result Match.t).

Definition submitMatch (db : Store) (session : Session.t)
    (teamA teamB : list string) (scoreA scoreB : Z) (suffix : string) (now : Z)
  : Store * SubmitOutcome :=
  if scoreA =? scoreB then (db, Alert "Matches cannot end in a draw")
  else
    let '(db', r) :=
      recordMatch db suffix now
        (MatchData.Build (Session.id session) teamA teamB scoreA scoreB
           (if scoreB <? scoreA then WinnerA else WinnerB)) in
    (db', Submitted r).

(** ** The initial data of [mockDb.ts]

    [loadTime] is [Date.now()] when the module is evaluated. *)
Definition MEMBERS_init : list ClubMember.t :=
  [ ClubMember.Build "c1" "u1" admin "2023-01-01" 45 30;
    ClubMember.Build "c1" "u2" member "2023-02-15" 20 8;
    ClubMember.Build "c1" "u3" member "2023-03-10" 40 35;
    ClubMember.Build "c1" "u4" member "2023-04-05" 10 2;
    ClubMember.Build "c1" "u5" member "2023-05-20" 15 7;
    ClubMember.Build "c2" "u1" member "2023-06-01" 5 5 ].

Definition SESSIONS_init (loadTime : Z) : list Session.t :=
  [ Session.Build "s1" "c1" (JSDate.isoDate (loadTime + 86400000))
      (Some "19:00") (Some "21:00") "1 & 2" 8 ["u1"; "u2"; "u3"; "u4"; "u5"] OPEN None;
    Session.Build "s2" "c1" (JSDate.isoDate (loadTime - 86400000))
      (Some "18:00") (Some "20:00") "4" 6 ["u1"; "u3"; "u5"; "u2"] COMPLETED None ].

Definition MATCHES_init (loadTime : Z) : list Match.t :=
  [ Match.Build "m1" "s2" ["u1"; "u3"] ["u5"; "u2"] 21 15 WinnerA
      (JSDate.toISOString (loadTime - 86400000));
    Match.Build "m2" "s2" ["u1"; "u2"] ["u3"; "u5"] 18 21 WinnerB
      (JSDate.toISOString (loadTime - 86000000)) ].

Definition initial_store (loadTime : Z) : Store :=
  mkStore (SESSIONS_init loadTime) MEMBERS_init (MATCHES_init loadTime).

(** ** Sequences of calls *)

(** A call of [joinSession] or of [leaveSession]; a leave carries the clock
    reading [Date.now()] it observes. *)
Inductive RosterCall : Type :=
| Join (sessionId userId : string)
| Leave (sessionId userId : string) (now : Z).

Definition roster_call (tz : Z) (db : Store) (c : RosterCall) : Store :=
  match c with
  | Join sessionId userId => fst (joinSession db sessionId userId)
  | Leave sessionId userId now => fst (leaveSession tz db sessionId userId now)
  end.

Definition roster_calls (tz : Z) (db : Store) (cs : list RosterCall) : Store :=
  fold_left (roster_call tz) cs db.

(** A call of [recordMatch] with the random suffix and the clock reading it
    draws. *)
Record RecordCall : Type := mkRecordCall {
  rc_suffix : string;
  rc_now : Z;
  rc_data : MatchData.t
}.

Definition record_call (db : Store) (c : RecordCall) : Store :=
  fst (recordMatch db (rc_suffix c) (rc_now c) (rc_data c)).

Definition record_calls (db : Store) (cs : list RecordCall) : Store :=
  fold_left record_call cs db.

(** ** The rest of [mockDb.ts]: users, clubs, memberships, read views

    The arrays [USERS] and [CLUBS] are not part of [Store]; the operations
    that read or write them take them as arguments and return the new array.
    [String.prototype.toLowerCase] is a function of the host, the parameter
    [toLowerCase] of the operations that compare e-mail addresses. *)

Module User.
Record t : Type := Build {
  id : string;
  email : string;
  name : string;
  skillLevel : Z;
  avatarUrl : option string
}.
End User.

Inductive AnnouncementType : Type := info | alert | success.

Module Announcement.
Record t : Type := Build {
  id : string;
  type : AnnouncementType;
  content : string;
  date : string
}.
End Announcement.

(** [Club].  [createClub] stores [data.name!], [data.description!] and
    [data.location!] unchecked, so each can be [undefined] ([None]). *)
Module Club.
Record t : Type := Build {
  id : string;
  name : option string;
  description : option string;
  location : option string;
  memberCount : Z;
  bannerUrl : option string;
  announcements : list Announcement.t
}.
End Club.

(** [Partial<Club>], restricted to the fields [createClub] reads. *)
Module PartialClub.
Record t : Type := Build {
  name : option string;
  description : option string;
  location : option string;
  bannerUrl : option string
}.
End PartialClub.

Definition with_MEMBERS (l : list ClubMember.t) (db : Store) : Store :=
  mkStore (SESSIONS db) l (MATCHES db).

(** [l.findIndex(f)]: [None] stands for -1. *)
Fixpoint findIndex {T : Type} (f : T -> bool) (l : list T) : option nat :=
  match l with
  | [] => None
  | x :: rest =>
      if f x then Some O
      else match findIndex f rest with Some i => Some (S i) | None => None end
  end.

(** [l.splice(index, 1)], for the array it leaves. *)
Definition splice1 {T : Type} (index : nat) (l : list T) : list T :=
  (firstn index l ++ skipn (S index) l)%list.

Section Accounts.

Variable toLowerCase : string -> string.

(** [u => u.email.toLowerCase() === email.toLowerCase()] *)
Definition same_email (email : string) (u : User.t) : bool :=
  String.eqb (toLowerCase (User.email u)) (toLowerCase email).

(** [login] (mockDb.ts, lines 112-117) *)
Definition login (users : list User.t) (email : string) : Result User.t :=
  match find (same_email email) users with
  | None => Throw "User not found"
  | Some user => Return user
  end.

(** [createUser] (mockDb.ts, lines 119-133); [suffix] is the random part of
    the id. *)
Definition createUser (users : list User.t) (suffix : string)
    (name email : string) (skillLevel : Z) : list User.t * Result User.t :=
  match find (same_email email) users with
  | Some existing => (users, Throw "Email already registered")
  | None =>
      let newUser :=
        User.Build ("u" ++ suffix) email name skillLevel
          (Some ("https://ui-avatars.com/api/?name=" ++ name ++ "&background=random")) in
      ((users ++ [newUser])%list, Return newUser)
  end.

(** The object that [inviteMember] resolves with. *)
Record InviteResult : Type := mkInviteResult {
  invite_success : bool;
  invite_message : string;
  invite_user : option User.t
}.

(** [m => m.clubId === clubId && m.userId === userId] *)
Definition is_membership (clubId userId : string) (m : ClubMember.t) : bool :=
  String.eqb (ClubMember.clubId m) clubId && String.eqb (ClubMember.userId m) userId.

(** [inviteMember] (mockDb.ts, lines 196-221); [now] is the time value of
    [new Date()]. *)
Definition inviteMember (users : list User.t) (db : Store) (clubId email : string)
    (now : Z) : Store * Result InviteResult :=
  match find (same_email email) users with
  | None => (db, Return (mkInviteResult true ("Invitation sent to " ++ email) None))
  | Some user =>
      if existsb (is_membership clubId (User.id user)) (MEMBERS db)
      then (db, Throw "User is already a member of this club")
      else
        (with_MEMBERS
           (MEMBERS db
            ++ [ClubMember.Build clubId (User.id user) member (JSDate.toISOString now) 0 0])%list
           db,
         Return (mkInviteResult true (User.name user ++ " added to club") (Some user)))
  end.

End Accounts.

(** [kickMember] (mockDb.ts, lines 223-229) *)
Definition kickMember (db : Store) (clubId userId : string) : Store :=
  match findIndex (is_membership clubId userId) (MEMBERS db) with
  | Some index => with_MEMBERS (splice1 index (MEMBERS db)) db
  | None => db
  end.

(** [createClub] (mockDb.ts, lines 157-181); [suffix] is the random part of
    the id and [now] the time value of [new Date()]. *)
Definition createClub (clubs : list Club.t) (db : Store) (suffix : string) (now : Z)
    (data : PartialClub.t) (userId : string) : list Club.t * Store * Result Club.t :=
  let newClub :=
    Club.Build ("c" ++ suffix) (PartialClub.name data) (PartialClub.description data)
      (PartialClub.location data) 1
      (Some (or_string (PartialClub.bannerUrl data)
               "https://picsum.photos/seed/badminton/800/400"))
      [] in
  ((clubs ++ [newClub])%list,
   with_MEMBERS
     (MEMBERS db
      ++ [ClubMember.Build (Club.id newClub) userId admin (JSDate.toISOString now) 0 0])%list
     db,
   Return newClub).

(** [getUserClubs] (mockDb.ts, lines 146-150) *)
Definition getUserClubs (clubs : list Club.t) (db : Store) (userId : string)
  : list Club.t :=
  let membershipIds :=
    map ClubMember.clubId
      (filter (fun m => String.eqb (ClubMember.userId m) userId) (MEMBERS db)) in
  filter (fun c => includes (Club.id c) membershipIds) clubs.

(** [getSessionDetails] (mockDb.ts, lines 276-279): [None] is [undefined]. *)
Definition getSessionDetails (db : Store) (sessionId : string) : option Session.t :=
  find_session sessionId (SESSIONS db).

(** [getUserMatches] (mockDb.ts, lines 376-379) *)
Definition getUserMatches (db : Store) (userId : string) : list Match.t :=
  filter (fun m => includes userId (Match.teamA m) || includes userId (Match.teamB m))
         (MATCHES db).

(** [getSessionPlayers] (mockDb.ts, lines 281-286): the users, in the
    order of [USERS], whose id is on the roster. *)
Definition getSessionPlayers (users : list User.t) (db : Store) (sessionId : string)
  : list User.t :=
  match find_session sessionId (SESSIONS db) with
  | None => []
  | Some session =>
      filter (fun u => includes (User.id u) (Session.registeredPlayerIds session)) users
  end.

(** *** Announcements (mockDb.ts, lines 232-263) *)

Definition with_announcements (l : list Announcement.t) (c : Club.t) : Club.t :=
  Club.Build (Club.id c) (Club.name c) (Club.description c) (Club.location c)
    (Club.memberCount c) (Club.bannerUrl c) l.

(** [CLUBS.find(c => c.id === clubId)] and the write to the club found. *)
Definition find_club (clubId : string) (clubs : list Club.t) : option Club.t :=
  find (fun c => String.eqb (Club.id c) clubId) clubs.

Fixpoint assign_club (clubId : string) (c' : Club.t) (clubs : list Club.t)
  : list Club.t :=
  match clubs with
  | [] => []
  | c :: rest =>
      if String.eqb (Club.id c) clubId then c' :: rest
      else c :: assign_club clubId c' rest
  end.

(** [addAnnouncement]; [suffix] is the random part of the id and [now] the
    time value of [new Date()]. *)
Definition addAnnouncement (clubs : list Club.t) (suffix : string) (now : Z)
    (clubId : string) (type : AnnouncementType) (content : string) : list Club.t :=
  match find_club clubId clubs with
  | Some club =>
      assign_club clubId
        (with_announcements
           (Announcement.Build ("a" ++ suffix) type content (JSDate.isoDate now)
            :: Club.announcements club) club)
        clubs
  | None => clubs
  end.

(** [deleteAnnouncement] *)
Definition deleteAnnouncement (clubs : list Club.t) (clubId announcementId : string)
  : list Club.t :=
  match find_club clubId clubs with
  | Some club =>
      assign_club clubId
        (with_announcements
           (filter (fun a => negb (String.eqb (Announcement.id a) announcementId))
                   (Club.announcements club)) club)
        clubs
  | None => clubs
  end.

(** ** The match recorder of the UI ([MatchRecorder], lines 157-197 and the
    buttons of lines 246-264)

    The component state; [isSubmitting] is only read by the submit button. *)
Record RecorderState : Type := mkRecorderState {
  rs_teamA : list string;
  rs_teamB : list string;
  rs_scoreA : Z;
  rs_scoreB : Z
}.

(** [useState([])], [useState(0)] *)
Definition recorder_init : RecorderState := mkRecorderState [] [] 0 0.

(** [togglePlayer(id, team)] *)
Definition togglePlayer (st : RecorderState) (id : string) (team : Winner)
  : RecorderState :=
  match team with
  | WinnerA =>
      if includes id (rs_teamA st)
      then mkRecorderState (filter (fun p => negb (String.eqb p id)) (rs_teamA st))
             (rs_teamB st) (rs_scoreA st) (rs_scoreB st)
      else if (Nat.ltb (List.length (rs_teamA st)) 2) && negb (includes id (rs_teamB st))
      then mkRecorderState (rs_teamA st ++ [id]) (rs_teamB st) (rs_scoreA st) (rs_scoreB st)
      else st
  | WinnerB =>
      if includes id (rs_teamB st)
      then mkRecorderState (rs_teamA st)
             (filter (fun p => negb (String.eqb p id)) (rs_teamB st))
             (rs_scoreA st) (rs_scoreB st)
      else if (Nat.ltb (List.length (rs_teamB st)) 2) && negb (includes id (rs_teamA st))
      then mkRecorderState (rs_teamA st) (rs_teamB st ++ [id]) (rs_scoreA st) (rs_scoreB st)
      else st
  end.

(** [swapSides()] *)
Definition swapSides (st : RecorderState) : RecorderState :=
  mkRecorderState (rs_teamB st) (rs_teamA st) (rs_scoreB st) (rs_scoreA st).

(** What the user can do to the state: the player buttons, the swap button
    and the four score buttons ([s => s + 1], [s => Math.max(0, s - 1)]). *)
Inductive RecorderEvent : Type :=
| Toggle (id : string) (team : Winner)
| Swap
| PlusA | MinusA | PlusB | MinusB.

Definition recorder_step (st : RecorderState) (e : RecorderEvent) : RecorderState :=
  match e with
  | Toggle id team => togglePlayer st id team
  | Swap => swapSides st
  | PlusA => mkRecorderState (rs_teamA st) (rs_teamB st) (rs_scoreA st + 1) (rs_scoreB st)
  | MinusA =>
      mkRecorderState (rs_teamA st) (rs_teamB st) (Z.max 0 (rs_scoreA st - 1)) (rs_scoreB st)
  | PlusB => mkRecorderState (rs_teamA st) (rs_teamB st) (rs_scoreA st) (rs_scoreB st + 1)
  | MinusB =>
      mkRecorderState (rs_teamA st) (rs_teamB st) (rs_scoreA st) (Z.max 0 (rs_scoreB st - 1))
  end.

Definition recorder_steps (st : RecorderState) (es : list RecorderEvent) : RecorderState :=
  fold_left recorder_step es st.

(** The [disabled] attribute of the "Record Result" button. *)
Definition record_disabled (st : RecorderState) (isSubmitting : bool) : bool :=
  Nat.eqb (List.length (rs_teamA st)) 0 || Nat.eqb (List.length (rs_teamB st)) 0
  || isSubmitting.

(** A click on "Record Result": nothing happens on a disabled button,
    otherwise [submitMatch] runs on the current state. *)
Definition click_record (db : Store) (session : Session.t) (st : RecorderState)
    (isSubmitting : bool) (suffix : string) (now : Z) : option (Store * SubmitOutcome) :=
  if record_disabled st isSubmitting then None
  else Some (submitMatch db session (rs_teamA st) (rs_teamB st)
               (rs_scoreA st) (rs_scoreB st) suffix now).

(** ** The profile statistics of the UI ([stats], lines 1414-1431) *)

(** [isWinner] of the loop body. *)
Definition isWinner (userId : string) (m : Match.t) : bool :=
  let isTeamA := includes userId (Match.teamA m) in
  (isTeamA && match Match.winner m with WinnerA => true | WinnerB => false end)
  || (negb isTeamA && match Match.winner m with WinnerB => true | WinnerA => false end).

Record ProfileStats : Type := mkProfileStats {
  stats_won : Z;
  stats_played : Z;
  stats_form : list string
}.

(** The body of [sorted.forEach(m => ...)] on the pair ([won], [form]). *)
Definition stats_step (userId : string) (acc : Z * list string) (m : Match.t)
  : Z * list string :=
  let '(won, form) := acc in
  let w := isWinner userId m in
  (if w then won + 1 else won,
   if Nat.ltb (List.length form) 5 then (form ++ [if w then "W" else "L"])%list else form).

(** [sort] is [l => [...l].sort((a, b) => new Date(b.timestamp).getTime() -
    new Date(a.timestamp).getTime())], a function of the host. *)
Definition profile_stats (sort : list Match.t -> list Match.t)
    (user : option User.t) (matches : list Match.t) : ProfileStats :=
  match user with
  | None => mkProfileStats 0 0 []
  | Some user =>
      let played := Z.of_nat (List.length matches) in
      let sorted := sort matches in
      let '(won, form) := fold_left (stats_step (User.id user)) sorted (0, []) in
      mkProfileStats won played (rev form)
  end.

(** ** The upcoming/past split of a club's sessions (UI, lines 875-884)

    [now] is the time value of [new Date()]; a comparison with an invalid
    date is false. *)
Definition session_end (tz : Z) (s : Session.t) : option Z :=
  JSDate.parse tz (Session.date s ++ "T" ++ js_string (Session.endTime s)).

Definition upcomingSessions (tz : Z) (sessions : list Session.t) (now : Z)
  : list Session.t :=
  filter (fun s => match session_end tz s with Some t => now <? t | None => false end)
         sessions.

Definition pastSessions (tz : Z) (sessions : list Session.t) (now : Z)
  : list Session.t :=
  rev (filter (fun s => match session_end tz s with Some t => t <=? now | None => false end)
              sessions).

(** ** Sequences of membership calls *)

(** A call of [inviteMember], [kickMember] or [recordMatch]. *)
Inductive MemberCall : Type :=
| Invite (clubId email : string) (now : Z)
| Kick (clubId userId : string)
| Record_ (c : RecordCall).

Definition member_call (toLowerCase : string -> string) (users : list User.t)
    (db : Store) (c : MemberCall) : Store :=
  match c with
  | Invite clubId email now => fst (inviteMember toLowerCase users db clubId email now)
  | Kick clubId userId => kickMember db clubId userId
  | Record_ c => record_call db c
  end.

Definition member_calls (toLowerCase : string -> string) (users : list User.t)
    (db : Store) (cs : list MemberCall) : Store :=
  fold_left (member_call toLowerCase users) cs db.

(** The key of a Membership row. *)
Definition member_key (m : ClubMember.t) : string * string :=
  (ClubMember.clubId m, ClubMember.userId m).

(** ** Derived notions used in the statements *)

(** The session that [joinSession] stores when it registers [userId]. *)
Definition joined (userId : string) (session : Session.t) : Session.t :=
  let session :=
    Session.with_registeredPlayerIds
      (Session.registeredPlayerIds session ++ [userId]) session in
  if at_capacity session then Session.with_status FULL session else session.

(** The session that [leaveSession] stores when the lock does not apply. *)
Definition departed (userId : string) (session : Session.t) : Session.t :=
  let session :=
    Session.with_registeredPlayerIds
      (filter (fun id => negb (String.eqb id userId))
              (Session.registeredPlayerIds session)) session in
  if status_eqb (Session.status session) FULL
  then Session.with_status OPEN session else session.

(** The status is the one derived from the roster: the roster fits the
    capacity, and the session is FULL exactly when the roster has
    [maxPlayers] entries and OPEN otherwise. *)
Definition status_derived (s : Session.t) : Prop :=
  Z.of_nat (List.length (Session.registeredPlayerIds s)) <= Session.maxPlayers s
  /\ (Session.status s = FULL
      <-> Z.of_nat (List.length (Session.registeredPlayerIds s)) = Session.maxPlayers s)
  /\ (Session.status s = OPEN \/ Session.status s = FULL).

(** A well-formed state of the match recorder: two duplicate-free teams of at
    most two players that share no player, and scores that are not
    negative. *)
Definition recorder_ok (st : RecorderState) : Prop :=
  NoDup (rs_teamA st) /\ NoDup (rs_teamB st)
  /\ (forall p, In p (rs_teamA st) -> ~ In p (rs_teamB st))
  /\ (List.length (rs_teamA st) <= 2)%nat /\ (List.length (rs_teamB st) <= 2)%nat
  /\ 0 <= rs_scoreA st /\ 0 <= rs_scoreB st.

(** The letter that the profile page shows for a match. *)
Definition form_letter (userId : string) (m : Match.t) : string :=
  if isWinner userId m then "W" else "L".

(** The year of a time value ([YearFromTime] of ECMAScript). *)
Definition YearFromTime (t : Z) : Z :=
  let '(y, _, _) := JSDate.civil_from_days (JSDate.Day t) in y.

(** The sessions that iterations [i], [i+1], ..., [i+n-1] of the loop of
    [createSession] build from a template whose date reads as [t0]. *)
Definition weekly_sessions (rnd : nat -> string) (clubId : string)
    (data : PartialSession.t) (t0 : Z) (i n : nat) : list Session.t :=
  map (fun k => newSession clubId data (rnd k)
                  (JSDate.isoDate (t0 + 7 * Z.of_nat k * JSDate.msPerDay)))
      (seq i n).

(** ** Sample data for the worked examples *)

(** A session for two players on 2024-01-08 at 19:00, as [createSession]
    would store it. *)
Definition demo_session : Session.t :=
  Session.Build "s" "c1" "2024-01-08" (Some "19:00") (Some "21:00") "TBD" 2
    [] OPEN None.

(** Two members of the club [c1], and a membership of [u1] in another club. *)
Definition demo_members : list ClubMember.t :=
  [ ClubMember.Build "c1" "u1" member "2024-01-01" 0 0;
    ClubMember.Build "c1" "u2" member "2024-01-01" 0 0;
    ClubMember.Build "c2" "u1" member "2024-01-01" 4 3 ].

Definition demo_db : Store := mkStore [demo_session] demo_members [].

(** A host eight hours ahead of UTC.  Then 2024-01-01T12:00Z, and the start
    instant of [demo_session] on that host (2024-01-08T11:00Z). *)
Definition demo_tz : Z := 28800000.
Definition demo_now : Z := 1704110400000.
Definition demo_start : Z := 1704711600000.

(** [u1] beats [u2] 21-10 in [demo_session]; [u2] beats [u1] 21-10; and a
    match data with equal scores, as a caller other than the recorder can
    pass it. *)
Definition demo_match : MatchData.t :=
  MatchData.Build "s" ["u1"] ["u2"] 21 10 WinnerA.

Definition demo_match_B : MatchData.t :=
  MatchData.Build "s" ["u1"] ["u2"] 10 21 WinnerB.

Definition demo_tie : MatchData.t :=
  MatchData.Build "s" ["u1"] ["u2"] 15 15 WinnerA.

(** [demo_session] marked COMPLETED, with [u1] on its roster. *)
Definition demo_completed_session : Session.t :=
  Session.Build "s" "c1" "2024-01-08" (Some "19:00") (Some "21:00") "TBD" 2
    ["u1"] COMPLETED None.

Definition demo_completed_db : Store :=
  mkStore [demo_completed_session] demo_members [].

(** The time zone America/New_York in 2024: five hours behind UTC, and four
    hours behind from 2024-03-10 07:00Z (02:00 local, which becomes 03:00)
    to 2024-11-03 06:00Z (02:00 local, which becomes 01:00).  A local time
    that the change skips is read with the offset before the change, one
    that it repeats with the earlier of its two instants. *)
Definition new_york_2024 : JSDate.Zone :=
  JSDate.mkZone
    (fun t => if (1710054000000 <=? t) && (t <? 1730613600000)
              then -14400000 else -18000000)
    (fun t => if (1710039600000 <=? t) && (t <? 1730599200000)
              then -14400000 else -18000000).

(** A template for Monday 2024-03-04, six days before that change. *)
Definition demo_template_march : PartialSession.t :=
  PartialSession.Build (Some "2024-03-04") (Some "19:00") (Some "21:00") None None.

(** A template without a start time, and one with an explicit capacity 0. *)
Definition demo_template_no_start : PartialSession.t :=
  PartialSession.Build (Some "2024-01-01") None (Some "21:00") None None.

Definition demo_template_zero : PartialSession.t :=
  PartialSession.Build (Some "2024-01-01") (Some "19:00") (Some "21:00") (Some "4") (Some 0).

Definition demo_template : PartialSession.t :=
  PartialSession.Build (Some "2024-01-01") (Some "19:00") (Some "21:00") None None.

Definition empty_db : Store := mkStore [] [] [].

(** [demo_db] after [u1] and [u2] have joined: the session is FULL. *)
Definition demo_full_db : Store :=
  roster_calls demo_tz demo_db [Join "s" "u1"; Join "s" "u2"].

(** The initial [USERS] and [CLUBS] of [mockDb.ts]. *)
Definition USERS_init : list User.t :=
  [ User.Build "u1" "alex@demo.com" "Alex Chen" 7 (Some "https://picsum.photos/id/64/150/150");
    User.Build "u2" "sarah@demo.com" "Sarah Jones" 5 (Some "https://picsum.photos/id/65/150/150");
    User.Build "u3" "mike@demo.com" "Mike Ross" 8 (Some "https://picsum.photos/id/91/150/150");
    User.Build "u4" "jenny@demo.com" "Jenny Kim" 4 (Some "https://picsum.photos/id/103/150/150");
    User.Build "u5" "david@demo.com" "David Lee" 6 (Some "https://picsum.photos/id/177/150/150") ].

Definition CLUBS_init : list Club.t :=
  [ Club.Build "c1" (Some "Smash City Badminton")
      (Some "Premier club for intermediate to advanced players.")
      (Some "Downtown Sportsplex") 5 (Some "https://picsum.photos/id/192/800/400")
      [ Announcement.Build "a1" alert "Court 3 is closed for maintenance this week." "2023-10-25";
        Announcement.Build "a2" success "Tournament winners announced!" "2023-10-20" ];
    Club.Build "c2" (Some "Sunday Shuttlers") (Some "Casual sunday games for everyone.")
      (Some "Community Center") 12 (Some "https://picsum.photos/id/158/800/400") [] ].

(** [toLowerCase] on strings of ASCII characters, for the worked examples. *)
Definition lower_char (c : ascii) : ascii :=
  let n := nat_of_ascii c in
  if ((65 <=? n) && (n <=? 90))%nat then ascii_of_nat (n + 32) else c.

Fixpoint lower_ascii (s : string) : string :=
  match s with
  | EmptyString => EmptyString
  | String c rest => String (lower_char c) (lower_ascii rest)
  end.

(** The identity stands for the host's sort on a list that is already in
    the order of the comparator. *)
Definition sort_sorted (l : list Match.t) : list Match.t := l.

(** * Properties *)

(** ** The calendar functions *)

(** A date-only string is read as UTC, a date-time string as local time. *)
Example parse_2024_01_01 :
  JSDate.parse demo_tz "2024-01-01" = Some 1704067200000
  /\ JSDate.toISOString 1704067200000 = "2024-01-01T00:00:00.000Z".
Proof. split; reflexivity. Qed.

Example parse_2024_01_01_1900 :
  JSDate.parse demo_tz "2024-01-01T19:00" = Some (1704067200000 + 11 * 3600000)
  /\ JSDate.parse 0 "2024-01-01T19:00" = Some (1704067200000 + 19 * 3600000)
  /\ JSDate.parse demo_tz "2024-01-01Tundefined" = None
  /\ JSDate.parse demo_tz "2024-13-01" = None.
Proof. repeat split; reflexivity. Qed.

Example isoDate_roundtrip_sample :
  JSDate.isoDate 1704067200000 = "2024-01-01"
  /\ JSDate.isoDate (JSDate.setDate demo_tz 1704067200000
                        (JSDate.getDate demo_tz 1704067200000 + 14)) = "2024-01-15"
  /\ JSDate.isoDate (JSDate.setDate (-18000000) 1704067200000
                        (JSDate.getDate (-18000000) 1704067200000 + 7)) = "2024-01-08"
  /\ JSDate.getDate (-18000000) 1704067200000 = 31
  /\ JSDate.isoDate (JSDate.setDate demo_tz 951782400000
                        (JSDate.getDate demo_tz 951782400000 + 7)) = "2000-03-07"
  /\ JSDate.isoDate (-1) = "1969-12-31".
Proof. repeat split; reflexivity. Qed.

Lemma civil_roundtrip z :
  let '(y, m, d) := JSDate.civil_from_days z in JSDate.days_from_civil y m d = z.
Proof.
  unfold JSDate.civil_from_days, JSDate.days_from_civil.
  set (z' := z + 719468).
  set (era := z' / 146097).
  set (doe := z' - era * 146097).
  assert (Hdoe : 0 <= doe < 146097).
  { subst doe era. pose proof (Z.div_mod z' 146097 ltac:(lia)).
    pose proof (Z.mod_pos_bound z' 146097 ltac:(lia)). lia. }
  assert (Hz : z = era * 146097 + doe - 719468) by (subst doe z'; lia).
  clearbody doe.
  set (yoe := (doe - doe / 1460 + doe / 36524 - doe / 146096) / 365).
  set (doy := doe - (365 * yoe + yoe / 4 - yoe / 100)).
  set (mp := (5 * doy + 2) / 153).
  assert (Hyoe : 0 <= yoe < 400) by (subst yoe; Z.div_mod_to_equations; lia).
  assert (Hdoy : 0 <= doy <= 366).
  { subst doy yoe. Z.div_mod_to_equations. lia. }
  assert (Hmp : 0 <= mp <= 11) by (subst mp; Z.div_mod_to_equations; lia).
  clearbody mp. clearbody yoe.
  set (m := if mp <? 10 then mp + 3 else mp - 9).
  assert (Hm : (m <=? 2) = negb (mp <? 10)).
  { subst m. destruct (Z.ltb_spec mp 10); simpl; [apply Z.leb_gt | apply Z.leb_le]; lia. }
  assert (Hback : (if 2 <? m then m - 3 else m + 9) = mp).
  { subst m. destruct (Z.ltb_spec mp 10).
    - destruct (Z.ltb_spec 2 (mp + 3)); lia.
    - destruct (Z.ltb_spec 2 (mp - 9)); lia. }
  cbv zeta. fold m. rewrite Hm, Hback.
  assert (Hy : (if negb (mp <? 10)
                then (if negb (mp <? 10) then yoe + era * 400 + 1 else yoe + era * 400) - 1
                else (if negb (mp <? 10) then yoe + era * 400 + 1 else yoe + era * 400))
               = yoe + era * 400).
  { destruct (mp <? 10); simpl; lia. }
  rewrite Hy.
  assert (Hera : (yoe + era * 400) / 400 = era).
  { rewrite Z.div_add by lia. rewrite Z.div_small by lia. lia. }
  rewrite Hera. subst doy.
  replace (yoe + era * 400 - era * 400) with yoe by lia. lia.
Qed.

Lemma days_from_civil_day y m d :
  JSDate.days_from_civil y m d = JSDate.days_from_civil y m 1 + d - 1.
Proof. unfold JSDate.days_from_civil. lia. Qed.

Lemma MakeDay_civil z k :
  let '(y, m, d) := JSDate.civil_from_days z in JSDate.MakeDay y m (d + k) = z + k.
Proof.
  pose proof (civil_roundtrip z) as H.
  destruct (JSDate.civil_from_days z) as [[y m] d].
  unfold JSDate.MakeDay. rewrite days_from_civil_day in H. lia.
Qed.

(** [d.setDate(d.getDate() + k)] moves a date by [k] days. *)
Lemma setDate_getDate tz t k :
  JSDate.setDate tz t (JSDate.getDate tz t + k) = t + k * JSDate.msPerDay.
Proof.
  unfold JSDate.setDate, JSDate.getDate.
  set (lt := JSDate.LocalTime tz t).
  pose proof (MakeDay_civil (JSDate.Day lt) k) as H.
  destruct (JSDate.civil_from_days (JSDate.Day lt)) as [[y m] d].
  rewrite H. subst lt.
  unfold JSDate.UTC, JSDate.LocalTime, JSDate.MakeDate, JSDate.Day,
    JSDate.TimeWithinDay, JSDate.msPerDay.
  pose proof (Z.div_mod (t + tz) 86400000 ltac:(lia)). lia.
Qed.

Lemma Day_add_days t k :
  JSDate.Day (t + k * JSDate.msPerDay) = JSDate.Day t + k.
Proof. unfold JSDate.Day, JSDate.msPerDay. rewrite Z.div_add by lia. reflexivity. Qed.

Lemma civil_from_days_range z :
  let '(_, m, d) := JSDate.civil_from_days z in 1 <= m <= 12 /\ 1 <= d <= 31.
Proof.
  unfold JSDate.civil_from_days.
  set (z' := z + 719468).
  set (era := z' / 146097).
  set (doe := z' - era * 146097).
  assert (Hdoe : 0 <= doe < 146097).
  { subst doe era. pose proof (Z.div_mod z' 146097 ltac:(lia)).
    pose proof (Z.mod_pos_bound z' 146097 ltac:(lia)). lia. }
  clearbody doe.
  set (yoe := (doe - doe / 1460 + doe / 36524 - doe / 146096) / 365).
  set (doy := doe - (365 * yoe + yoe / 4 - yoe / 100)).
  assert (Hdoy : 0 <= doy <= 366) by (subst doy yoe; Z.div_mod_to_equations; lia).
  clearbody doy.
  set (mp := (5 * doy + 2) / 153).
  assert (Hmp : 0 <= mp <= 11) by (subst mp; Z.div_mod_to_equations; lia).
  cbv zeta. split.
  - destruct (Z.ltb_spec mp 10); lia.
  - subst mp. Z.div_mod_to_equations. lia.
Qed.

Lemma digit_char r :
  0 <= r <= 9 -> JSDate.digit (ascii_of_nat (48 + Z.to_nat r)) = Some r.
Proof.
  intros H.
  assert (C : r = 0 \/ r = 1 \/ r = 2 \/ r = 3 \/ r = 4 \/ r = 5 \/ r = 6
              \/ r = 7 \/ r = 8 \/ r = 9) by lia.
  repeat (destruct C as [-> | C]; [reflexivity |]). subst r. reflexivity.
Qed.

(** Reading back the digits that [pad_digits] wrote. *)
Lemma number_pad_digits w : forall n acc a,
  0 <= n < 10 ^ Z.of_nat w ->
  JSDate.number (list_ascii_of_string (JSDate.pad_digits w n acc)) a
  = JSDate.number (list_ascii_of_string acc) (a * 10 ^ Z.of_nat w + n).
Proof.
  induction w as [| w IH]; intros n acc a Hn.
  - simpl in *. f_equal. lia.
  - rewrite Nat2Z.inj_succ, Z.pow_succ_r in * by lia.
    cbn [JSDate.pad_digits].
    rewrite IH by (Z.div_mod_to_equations; lia).
    cbn [list_ascii_of_string JSDate.number].
    rewrite digit_char by (Z.div_mod_to_equations; lia).
    f_equal. Z.div_mod_to_equations. lia.
Qed.

Lemma number_pad w n :
  0 <= n < 10 ^ Z.of_nat w ->
  JSDate.number (list_ascii_of_string (JSDate.pad w n)) 0 = Some n.
Proof.
  intros H. unfold JSDate.pad. rewrite number_pad_digits by exact H.
  reflexivity.
Qed.

Lemma pad4_shape n :
  exists c1 c2 c3 c4,
    JSDate.pad 4 n = String c1 (String c2 (String c3 (String c4 EmptyString))).
Proof. do 4 eexists. reflexivity. Qed.

Lemma pad2_shape n :
  exists c1 c2, JSDate.pad 2 n = String c1 (String c2 EmptyString).
Proof. do 2 eexists. reflexivity. Qed.

(** The date string written by [toISOString] reads back, with [new Date], as
    midnight of the same day (for the years that print with four digits). *)
Lemma parse_isoDate tz t :
  0 <= YearFromTime t <= 9999 ->
  JSDate.parse tz (JSDate.isoDate t) = Some (JSDate.Day t * JSDate.msPerDay).
Proof.
  unfold YearFromTime, JSDate.isoDate. intros Hy.
  pose proof (civil_roundtrip (JSDate.Day t)) as Hrt.
  pose proof (civil_from_days_range (JSDate.Day t)) as Hrg.
  destruct (JSDate.civil_from_days (JSDate.Day t)) as [[y m] d].
  destruct Hrg as [Hm Hd].
  replace ((0 <=? y) && (y <=? 9999)) with true
    by (symmetry; apply andb_true_iff; split; apply Z.leb_le; lia).
  pose proof (number_pad 4 y ltac:(simpl; lia)) as Ny.
  pose proof (number_pad 2 m ltac:(simpl; lia)) as Nm.
  pose proof (number_pad 2 d ltac:(simpl; lia)) as Nd.
  destruct (pad4_shape y) as (y1 & y2 & y3 & y4 & Ey).
  destruct (pad2_shape m) as (m1 & m2 & Em).
  destruct (pad2_shape d) as (d1 & d2 & Ed).
  rewrite Ey in *. rewrite Em in *. rewrite Ed in *.
  cbn [list_ascii_of_string] in Ny, Nm, Nd.
  unfold JSDate.parse. cbn [append list_ascii_of_string].
  unfold JSDate.parse_ymd. rewrite Ny, Nm, Nd.
  replace ((1 <=? m) && (m <=? 12) && (1 <=? d) && (d <=? 31)) with true
    by (symmetry; repeat (apply andb_true_iff; split); apply Z.leb_le; lia).
  rewrite Hrt. unfold JSDate.MakeDate. f_equal. lia.
Qed.

(** ** The store *)

Lemma includes_In x l : includes x l = true <-> In x l.
Proof.
  unfold includes. rewrite existsb_exists. split.
  - intros (y & Hy & E). apply String.eqb_eq in E. now subst.
  - intros H. exists x. split; [exact H | apply String.eqb_refl].
Qed.

Lemma includes_false x l : includes x l = false <-> ~ In x l.
Proof.
  rewrite <- includes_In. destruct (includes x l); split; congruence.
Qed.

Lemma find_session_id sessionId l s :
  find_session sessionId l = Some s -> Session.id s = sessionId.
Proof.
  unfold find_session. intros H. apply find_some in H.
  now apply String.eqb_eq.
Qed.

Lemma find_session_In sessionId l s :
  find_session sessionId l = Some s -> In s l.
Proof. unfold find_session. intros H. now apply find_some in H. Qed.

Lemma assign_session_length sessionId s' l :
  List.length (assign_session sessionId s' l) = List.length l.
Proof.
  induction l as [| s l IH]; simpl; [reflexivity |].
  destruct (String.eqb (Session.id s) sessionId); simpl; congruence.
Qed.

(** Writing to the found session changes that element of the array and no
    other. *)
Lemma assign_session_nth sessionId s' l s0 : forall i s,
  find_session sessionId l = Some s0 ->
  nth_error l i = Some s ->
  nth_error (assign_session sessionId s' l) i = Some s
  \/ (s = s0 /\ nth_error (assign_session sessionId s' l) i = Some s').
Proof.
  unfold find_session.
  induction l as [| x l IH]; intros i s Hf Hn; [discriminate |].
  simpl in *. destruct (String.eqb (Session.id x) sessionId).
  - destruct i as [| i]; simpl in *.
    + right. split; congruence.
    + left. exact Hn.
  - destruct i as [| i]; simpl in *.
    + left. exact Hn.
    + now apply IH.
Qed.

Lemma find_assign_session sessionId s' l s0 :
  find_session sessionId l = Some s0 ->
  Session.id s' = sessionId ->
  find_session sessionId (assign_session sessionId s' l) = Some s'.
Proof.
  unfold find_session. intros Hf Hid.
  induction l as [| x l IH]; [discriminate |].
  simpl in *. destruct (String.eqb (Session.id x) sessionId) eqn:E; simpl.
  - rewrite Hid, String.eqb_refl. reflexivity.
  - rewrite E. now apply IH.
Qed.

Lemma joined_id u s : Session.id (joined u s) = Session.id s.
Proof. unfold joined. destruct (at_capacity _); reflexivity. Qed.

Lemma joined_maxPlayers u s : Session.maxPlayers (joined u s) = Session.maxPlayers s.
Proof. unfold joined. destruct (at_capacity _); reflexivity. Qed.

Lemma joined_roster u s :
  Session.registeredPlayerIds (joined u s) = (Session.registeredPlayerIds s ++ [u])%list.
Proof. unfold joined. destruct (at_capacity _); reflexivity. Qed.

Lemma departed_id u s : Session.id (departed u s) = Session.id s.
Proof. unfold departed. destruct (status_eqb _ _); reflexivity. Qed.

Lemma departed_maxPlayers u s :
  Session.maxPlayers (departed u s) = Session.maxPlayers s.
Proof. unfold departed. destruct (status_eqb _ _); reflexivity. Qed.

Lemma departed_roster u s :
  Session.registeredPlayerIds (departed u s)
  = filter (fun id => negb (String.eqb id u)) (Session.registeredPlayerIds s).
Proof. unfold departed. destruct (status_eqb _ _); reflexivity. Qed.

(** The four outcomes of [joinSession]. *)
Lemma joinSession_not_found db sessionId userId :
  find_session sessionId (SESSIONS db) = None ->
  joinSession db sessionId userId = (db, Throw "Session not found").
Proof. unfold joinSession. now intros ->. Qed.

Lemma joinSession_registered db sessionId userId s :
  find_session sessionId (SESSIONS db) = Some s ->
  includes userId (Session.registeredPlayerIds s) = true ->
  joinSession db sessionId userId = (db, Return s).
Proof. unfold joinSession. now intros -> ->. Qed.

Lemma joinSession_full db sessionId userId s :
  find_session sessionId (SESSIONS db) = Some s ->
  includes userId (Session.registeredPlayerIds s) = false ->
  at_capacity s = true ->
  joinSession db sessionId userId = (db, Throw "Session full").
Proof. unfold joinSession. now intros -> -> ->. Qed.

Lemma joinSession_joins db sessionId userId s :
  find_session sessionId (SESSIONS db) = Some s ->
  includes userId (Session.registeredPlayerIds s) = false ->
  at_capacity s = false ->
  joinSession db sessionId userId
  = (with_SESSIONS (assign_session sessionId (joined userId s) (SESSIONS db)) db,
     Return (joined userId s)).
Proof. unfold joinSession. now intros -> -> ->. Qed.

(** The three outcomes of [leaveSession]. *)
Lemma leaveSession_not_found tz db sessionId userId now :
  find_session sessionId (SESSIONS db) = None ->
  leaveSession tz db sessionId userId now = (db, Throw "Session not found").
Proof. unfold leaveSession. now intros ->. Qed.

Lemma leaveSession_locked tz db sessionId userId now s :
  find_session sessionId (SESSIONS db) = Some s ->
  is_past (sessionDate tz s) now = true ->
  leaveSession tz db sessionId userId now = (db, Throw "Cannot leave past session").
Proof. unfold leaveSession. now intros -> ->. Qed.

Lemma leaveSession_leaves tz db sessionId userId now s :
  find_session sessionId (SESSIONS db) = Some s ->
  is_past (sessionDate tz s) now = false ->
  leaveSession tz db sessionId userId now
  = (with_SESSIONS (assign_session sessionId (departed userId s) (SESSIONS db)) db,
     Return (departed userId s)).
Proof. unfold leaveSession. now intros -> ->. Qed.

(** *** A property of single sessions that joining and leaving keep is kept,
    session by session, by every sequence of calls. *)
Section RosterInvariant.

Variable P : Session.t -> Prop.
Hypothesis P_joined : forall u s,
  P s -> includes u (Session.registeredPlayerIds s) = false ->
  at_capacity s = false -> P (joined u s).
Hypothesis P_departed : forall u s, P s -> P (departed u s).

Lemma roster_call_keeps tz db c i s :
  nth_error (SESSIONS db) i = Some s -> P s ->
  exists s', nth_error (SESSIONS (roster_call tz db c)) i = Some s' /\ P s'.
Proof.
  intros Hn HP. destruct c as [sid u | sid u now]; simpl.
  - destruct (find_session sid (SESSIONS db)) as [s0 |] eqn:Hf.
    2: { rewrite joinSession_not_found by exact Hf. eauto. }
    destruct (includes u (Session.registeredPlayerIds s0)) eqn:Hi.
    { rewrite (joinSession_registered _ _ _ _ Hf Hi). eauto. }
    destruct (at_capacity s0) eqn:Hc.
    { rewrite (joinSession_full _ _ _ _ Hf Hi Hc). eauto. }
    rewrite (joinSession_joins _ _ _ _ Hf Hi Hc). simpl.
    destruct (assign_session_nth sid (joined u s0) _ _ _ _ Hf Hn) as [H | [-> H]];
      eauto.
  - destruct (find_session sid (SESSIONS db)) as [s0 |] eqn:Hf.
    2: { rewrite leaveSession_not_found by exact Hf. eauto. }
    destruct (is_past (sessionDate tz s0) now) eqn:Hp.
    { rewrite (leaveSession_locked _ _ _ _ _ _ Hf Hp). eauto. }
    rewrite (leaveSession_leaves _ _ _ _ _ _ Hf Hp). simpl.
    destruct (assign_session_nth sid (departed u s0) _ _ _ _ Hf Hn) as [H | [-> H]];
      eauto.
Qed.

Lemma roster_calls_keep tz cs : forall db i s,
  nth_error (SESSIONS db) i = Some s -> P s ->
  exists s', nth_error (SESSIONS (roster_calls tz db cs)) i = Some s' /\ P s'.
Proof.
  induction cs as [| c cs IH]; intros db i s Hn HP; simpl.
  - eauto.
  - destruct (roster_call_keeps tz db c i s Hn HP) as (s1 & Hn1 & HP1).
    exact (IH _ _ _ Hn1 HP1).
Qed.

End RosterInvariant.

(** ** Capacity and status of a session *)

Example demo_full_db_session :
  find_session "s" (SESSIONS demo_full_db)
  = Some (Session.Build "s" "c1" "2024-01-08" (Some "19:00") (Some "21:00") "TBD" 2
            ["u1"; "u2"] FULL None)
  /\ sessionDate demo_tz demo_session = Some demo_start.
Proof. split; reflexivity. Qed.

(** The scenario of the specification: capacity 2; [u1] joins (OPEN), [u2]
    joins (FULL), [u3] is refused, [u1] leaves before the start (OPEN). *)
Example scenario_capacity_two :
  (exists s, snd (joinSession demo_db "s" "u1") = Return s
             /\ Session.status s = OPEN /\ Session.registeredPlayerIds s = ["u1"])
  /\ (exists s, snd (joinSession (roster_calls demo_tz demo_db [Join "s" "u1"]) "s" "u2") = Return s
             /\ Session.status s = FULL /\ Session.registeredPlayerIds s = ["u1"; "u2"])
  /\ joinSession demo_full_db "s" "u3" = (demo_full_db, Throw "Session full")
  /\ (exists s, snd (leaveSession demo_tz demo_full_db "s" "u1" demo_now) = Return s
             /\ Session.status s = OPEN /\ Session.registeredPlayerIds s = ["u2"]).
Proof. repeat split; try reflexivity; eexists; repeat split; reflexivity. Qed.

Lemma at_capacity_false s :
  at_capacity s = false
  <-> Z.of_nat (List.length (Session.registeredPlayerIds s)) < Session.maxPlayers s.
Proof. unfold at_capacity. rewrite Z.leb_gt. reflexivity. Qed.

Lemma at_capacity_true s :
  at_capacity s = true
  <-> Session.maxPlayers s <= Z.of_nat (List.length (Session.registeredPlayerIds s)).
Proof. unfold at_capacity. rewrite Z.leb_le. reflexivity. Qed.

Lemma filter_length_le {T : Type} (f : T -> bool) l :
  (List.length (filter f l) <= List.length l)%nat.
Proof.
  induction l as [| x l IH]; simpl; [lia |]. destruct (f x); simpl; lia.
Qed.

Lemma filter_length_lt u l :
  In u l ->
  (List.length (filter (fun id => negb (String.eqb id u)) l) < List.length l)%nat.
Proof.
  induction l as [| x l IH]; simpl; [tauto |].
  intros [-> | H].
  - rewrite String.eqb_refl. simpl.
    pose proof (filter_length_le (fun id => negb (String.eqb id u)) l). lia.
  - specialize (IH H). destruct (negb (String.eqb x u)); simpl; lia.
Qed.

(** A join that registers a player keeps the derived status. *)
Lemma joined_status_derived u s :
  status_derived s -> at_capacity s = false -> status_derived (joined u s).
Proof.
  unfold status_derived, joined. intros (Hle & Hfull & Hst) Hc.
  apply at_capacity_false in Hc.
  assert (Ho : Session.status s = OPEN).
  { destruct Hst as [H | H]; [exact H |]. apply Hfull in H. lia. }
  unfold at_capacity. simpl. rewrite length_app. simpl.
  destruct (Z.leb_spec (Session.maxPlayers s)
              (Z.of_nat (List.length (Session.registeredPlayerIds s) + 1))) as [H | H];
    simpl; rewrite ?length_app; simpl.
  - repeat split; auto; lia.
  - rewrite Ho. repeat split; auto; try lia. discriminate.
Qed.

(** A leave keeps the derived status when the leaving user is on the roster,
    or when the session is OPEN: the one case left is the leave by an absent
    user on a FULL session. *)
Lemma departed_status_derived u s :
  status_derived s ->
  In u (Session.registeredPlayerIds s) \/ Session.status s = OPEN ->
  status_derived (departed u s).
Proof.
  unfold status_derived, departed. intros (Hle & Hfull & Hst) Hu.
  pose proof (filter_length_le (fun id => negb (String.eqb id u))
                (Session.registeredPlayerIds s)) as Hl.
  destruct Hst as [Ho | Hf].
  - simpl. rewrite Ho. simpl. rewrite Ho.
    assert (Z.of_nat (List.length (Session.registeredPlayerIds s)) <> Session.maxPlayers s).
    { intros E. apply Hfull in E. congruence. }
    repeat split; auto; try lia. discriminate.
  - destruct Hu as [Hin | Ho]; [| congruence].
    pose proof (filter_length_lt u _ Hin).
    simpl. rewrite Hf. simpl. repeat split; auto; try lia. discriminate.
Qed.

(** C1 (the code departs from the claim).  [leaveSession] resets a FULL
    session to OPEN without looking at the roster.  After [u1] and [u2] have
    filled the two places of the session, a leave by [u3], who is not on the
    roster, removes nobody: the roster still has [maxPlayers] entries, and
    the stored status is OPEN, where the claim has it stay FULL. *)
Theorem leave_by_absent_user_reopens_full_session :
  exists s s',
    find_session "s" (SESSIONS demo_full_db) = Some s
    /\ Session.status s = FULL
    /\ Z.of_nat (List.length (Session.registeredPlayerIds s)) = Session.maxPlayers s
    /\ leaveSession demo_tz demo_full_db "s" "u3" demo_now
       = (with_SESSIONS [s'] demo_full_db, Return s')
    /\ Session.registeredPlayerIds s' = Session.registeredPlayerIds s
    /\ Z.of_nat (List.length (Session.registeredPlayerIds s')) = Session.maxPlayers s'
    /\ Session.status s' = OPEN.
Proof. do 2 eexists. repeat split; reflexivity. Qed.

(** C2.  A session that starts with at most [maxPlayers] registered players
    has at most [maxPlayers] of them after every sequence of [joinSession] and
    [leaveSession] calls (on this or on any other session of the store; the
    session keeps its place in [SESSIONS], its id and its capacity).  And a
    join by a user who is not registered, on a roster that holds [maxPlayers]
    players, is rejected with "Session full" and changes nothing in the
    store. *)
Theorem capacity_bound_kept tz cs db i s sessionId userId :
  nth_error (SESSIONS db) i = Some s ->
  Z.of_nat (List.length (Session.registeredPlayerIds s)) <= Session.maxPlayers s ->
  (exists s',
      nth_error (SESSIONS (roster_calls tz db cs)) i = Some s'
      /\ Session.id s' = Session.id s
      /\ Session.maxPlayers s' = Session.maxPlayers s
      /\ Z.of_nat (List.length (Session.registeredPlayerIds s')) <= Session.maxPlayers s')
  /\ (find_session sessionId (SESSIONS db) = Some s ->
      ~ In userId (Session.registeredPlayerIds s) ->
      Z.of_nat (List.length (Session.registeredPlayerIds s)) = Session.maxPlayers s ->
      joinSession db sessionId userId = (db, Throw "Session full")).
Proof.
  intros Hn Hb. split.
  - apply (roster_calls_keep
             (fun s' => Session.id s' = Session.id s
                        /\ Session.maxPlayers s' = Session.maxPlayers s
                        /\ Z.of_nat (List.length (Session.registeredPlayerIds s'))
                           <= Session.maxPlayers s')) with (s := s); auto.
    + intros u x (Hid & Hm & Hl) _ Hc. apply at_capacity_false in Hc.
      rewrite joined_id, joined_maxPlayers, joined_roster.
      rewrite length_app. simpl. repeat split; auto. lia.
    + intros u x (Hid & Hm & Hl).
      rewrite departed_id, departed_maxPlayers, departed_roster.
      repeat split; auto.
      pose proof (filter_length_le (fun id => negb (String.eqb id u))
                    (Session.registeredPlayerIds x)). lia.
  - intros Hf Hni Hfull. apply joinSession_full with (s := s); auto.
    + now apply includes_false.
    + apply at_capacity_true. lia.
Qed.

Lemma capacity_bound_kept_witness :
  (exists s',
      nth_error (SESSIONS (roster_calls demo_tz demo_full_db
                             [Join "s" "u3"; Leave "s" "u1" demo_now; Join "s" "u3";
                              Join "s" "u4"])) 0 = Some s'
      /\ Session.id s' = "s"
      /\ Session.maxPlayers s' = 2
      /\ Z.of_nat (List.length (Session.registeredPlayerIds s')) <= Session.maxPlayers s')
  /\ joinSession demo_full_db "s" "u3" = (demo_full_db, Throw "Session full").
Proof.
  destruct (capacity_bound_kept demo_tz
              [Join "s" "u3"; Leave "s" "u1" demo_now; Join "s" "u3"; Join "s" "u4"]
              demo_full_db 0
              (Session.Build "s" "c1" "2024-01-08" (Some "19:00") (Some "21:00") "TBD" 2
                 ["u1"; "u2"] FULL None)
              "s" "u3" eq_refl ltac:(simpl; lia)) as [H1 H2].
  split.
  - exact H1.
  - apply H2; [reflexivity | | reflexivity].
    simpl. intros [H | [H | []]]; discriminate.
Defined.

(** ** Leaving, the time lock and COMPLETED sessions *)

Lemma is_past_lt start now : is_past (Some start) now = true <-> start < now.
Proof. simpl. apply Z.ltb_lt. Qed.

Lemma is_past_ge start now : is_past (Some start) now = false <-> now <= start.
Proof. simpl. apply Z.ltb_ge. Qed.

Lemma filter_other_In u l :
  ~ In u (filter (fun id => negb (String.eqb id u)) l)
  /\ (forall v, v <> u -> (In v (filter (fun id => negb (String.eqb id u)) l) <-> In v l)).
Proof.
  split.
  - rewrite filter_In. intros [_ H]. rewrite String.eqb_refl in H. discriminate.
  - intros v Hv. rewrite filter_In. split; [tauto |]. intros H. split; [exact H |].
    apply negb_true_iff. now apply String.eqb_neq.
Qed.

Lemma filter_absent u l :
  ~ In u l -> filter (fun id => negb (String.eqb id u)) l = l.
Proof.
  induction l as [| x l IH]; simpl; intros H; [reflexivity |].
  destruct (String.eqb_spec x u) as [-> | Hne]; simpl.
  - tauto.
  - f_equal. apply IH. tauto.
Qed.

(** What a successful [leaveSession] does to the store and to the roster. *)
Lemma leaveSession_unlocked tz db sessionId userId now s :
  find_session sessionId (SESSIONS db) = Some s ->
  is_past (sessionDate tz s) now = false ->
  exists db' s',
    leaveSession tz db sessionId userId now = (db', Return s')
    /\ find_session sessionId (SESSIONS db') = Some s'
    /\ MEMBERS db' = MEMBERS db /\ MATCHES db' = MATCHES db
    /\ Session.registeredPlayerIds s'
       = filter (fun id => negb (String.eqb id userId)) (Session.registeredPlayerIds s).
Proof.
  intros Hf Hp. rewrite (leaveSession_leaves _ _ _ _ _ _ Hf Hp).
  do 2 eexists. split; [reflexivity |]. simpl. repeat split.
  - apply find_assign_session with (s0 := s); [exact Hf |].
    rewrite departed_id. now apply find_session_id with (l := SESSIONS db).
  - apply departed_roster.
Qed.

(** C6 as stated fails on the boundary: [demo_session] starts at
    [demo_start]; a leave by [u1] at exactly that instant is accepted and
    removes [u1] from the roster, because the lock tests
    [sessionDate.getTime() < Date.now()]. *)
Lemma leave_at_start_instant_is_accepted :
  exists s s',
    find_session "s" (SESSIONS demo_full_db) = Some s
    /\ sessionDate demo_tz s = Some demo_start
    /\ Session.registeredPlayerIds s = ["u1"; "u2"]
    /\ leaveSession demo_tz demo_full_db "s" "u1" demo_start
       = (with_SESSIONS [s'] demo_full_db, Return s')
    /\ Session.registeredPlayerIds s' = ["u2"].
Proof. do 2 eexists. repeat split; reflexivity. Qed.

(** C6, amended.  For a session whose start instant ([date] + 'T' +
    [startTime]) is strictly before the current instant, [leaveSession] fails
    with "Cannot leave past session" and the store, so the roster, is
    unchanged.  For a session whose start instant is the current instant or
    later, [leaveSession] succeeds: the stored roster is the old one without
    [userId], in the old order, and it is the old roster itself when [userId]
    was not on it. *)
Theorem leave_lock tz db sessionId userId now s start :
  find_session sessionId (SESSIONS db) = Some s ->
  sessionDate tz s = Some start ->
  (start < now ->
   leaveSession tz db sessionId userId now = (db, Throw "Cannot leave past session"))
  /\ (now <= start ->
      exists db' s',
        leaveSession tz db sessionId userId now = (db', Return s')
        /\ find_session sessionId (SESSIONS db') = Some s'
        /\ Session.registeredPlayerIds s'
           = filter (fun id => negb (String.eqb id userId)) (Session.registeredPlayerIds s)
        /\ ~ In userId (Session.registeredPlayerIds s')
        /\ (forall v, v <> userId ->
              (In v (Session.registeredPlayerIds s') <-> In v (Session.registeredPlayerIds s)))
        /\ (~ In userId (Session.registeredPlayerIds s) ->
            Session.registeredPlayerIds s' = Session.registeredPlayerIds s)).
Proof.
  intros Hf Hd. split; intros Ht.
  - apply leaveSession_locked with (s := s); [exact Hf |].
    rewrite Hd. now apply is_past_lt.
  - assert (Hp : is_past (sessionDate tz s) now = false)
      by (rewrite Hd; now apply is_past_ge).
    destruct (leaveSession_unlocked tz db sessionId userId now s Hf Hp)
      as (db' & s' & E & Hf' & _ & _ & Hr).
    exists db', s'. rewrite Hr.
    destruct (filter_other_In userId (Session.registeredPlayerIds s)) as [H1 H2].
    repeat split; auto.
    + apply H2; assumption.
    + apply H2; assumption.
    + apply filter_absent.
Qed.

Lemma leave_lock_witness :
  leaveSession demo_tz demo_full_db "s" "u1" (demo_start + 1)
  = (demo_full_db, Throw "Cannot leave past session")
  /\ exists db' s',
       leaveSession demo_tz demo_full_db "s" "u1" demo_now = (db', Return s')
       /\ find_session "s" (SESSIONS db') = Some s'
       /\ Session.registeredPlayerIds s'
          = filter (fun id => negb (String.eqb id "u1")) ["u1"; "u2"]
       /\ ~ In "u1" (Session.registeredPlayerIds s')
       /\ (forall v, v <> "u1" ->
             (In v (Session.registeredPlayerIds s') <-> In v ["u1"; "u2"]))
       /\ (~ In "u1" ["u1"; "u2"] -> Session.registeredPlayerIds s' = ["u1"; "u2"]).
Proof.
  split.
  - apply (leave_lock demo_tz demo_full_db "s" "u1" (demo_start + 1)
             (Session.Build "s" "c1" "2024-01-08" (Some "19:00") (Some "21:00") "TBD" 2
                ["u1"; "u2"] FULL None) demo_start eq_refl eq_refl).
    unfold demo_start. lia.
  - apply (leave_lock demo_tz demo_full_db "s" "u1" demo_now
             (Session.Build "s" "c1" "2024-01-08" (Some "19:00") (Some "21:00") "TBD" 2
                ["u1"; "u2"] FULL None) demo_start eq_refl eq_refl).
    unfold demo_start, demo_now. lia.
Defined.

(** C5 as stated fails: the session [s2] of the initial data is COMPLETED
    and has four of its six places taken; [joinSession] accepts [u4] and
    appends it to the stored roster. *)
Lemma completed_session_accepts_join :
  exists s db' s',
    find_session "s2" (SESSIONS (initial_store demo_now)) = Some s
    /\ Session.status s = COMPLETED
    /\ Session.registeredPlayerIds s = ["u1"; "u3"; "u5"; "u2"]
    /\ joinSession (initial_store demo_now) "s2" "u4" = (db', Return s')
    /\ find_session "s2" (SESSIONS db') = Some s'
    /\ Session.registeredPlayerIds s' = ["u1"; "u3"; "u5"; "u2"; "u4"].
Proof. do 3 eexists. repeat split; reflexivity. Qed.

(** C5, amended.  Neither [joinSession] nor [leaveSession] tests for
    COMPLETED ([leaveSession] reads the status only to turn FULL into OPEN),
    so a COMPLETED session is guarded by the same two checks as any other
    session.  For a session whose start instant is readable, a leave fails
    with "Cannot leave past session" when that instant is before the current
    one, and otherwise succeeds: the stored roster is the old one without
    [userId], and the status stays COMPLETED.  A join by an unregistered user
    fails with "Session full" when the roster is at capacity, and otherwise
    succeeds and appends [userId] to the stored roster.  On the two failures,
    and on a join by a user who is already registered, the store is
    unchanged. *)
Theorem completed_session_guards tz db sessionId userId now s :
  find_session sessionId (SESSIONS db) = Some s ->
  Session.status s = COMPLETED ->
  (forall start, sessionDate tz s = Some start -> start < now ->
   leaveSession tz db sessionId userId now = (db, Throw "Cannot leave past session"))
  /\ (forall start, sessionDate tz s = Some start -> now <= start ->
      exists db' s',
        leaveSession tz db sessionId userId now = (db', Return s')
        /\ find_session sessionId (SESSIONS db') = Some s'
        /\ Session.status s' = COMPLETED
        /\ Session.registeredPlayerIds s'
           = filter (fun id => negb (String.eqb id userId)) (Session.registeredPlayerIds s))
  /\ (In userId (Session.registeredPlayerIds s) ->
      joinSession db sessionId userId = (db, Return s))
  /\ (~ In userId (Session.registeredPlayerIds s) ->
      Session.maxPlayers s <= Z.of_nat (List.length (Session.registeredPlayerIds s)) ->
      joinSession db sessionId userId = (db, Throw "Session full"))
  /\ (~ In userId (Session.registeredPlayerIds s) ->
      Z.of_nat (List.length (Session.registeredPlayerIds s)) < Session.maxPlayers s ->
      exists db' s',
        joinSession db sessionId userId = (db', Return s')
        /\ find_session sessionId (SESSIONS db') = Some s'
        /\ Session.registeredPlayerIds s'
           = (Session.registeredPlayerIds s ++ [userId])%list).
Proof.
  intros Hf Hs. repeat split.
  - intros start Hd Hlt. apply leaveSession_locked with (s := s); [exact Hf |].
    rewrite Hd. now apply is_past_lt.
  - intros start Hd Hle.
    assert (Hp : is_past (sessionDate tz s) now = false)
      by (rewrite Hd; now apply is_past_ge).
    rewrite (leaveSession_leaves _ _ _ _ _ _ Hf Hp).
    do 2 eexists. split; [reflexivity |]. simpl. repeat split.
    + apply find_assign_session with (s0 := s); [exact Hf |].
      rewrite departed_id. now apply find_session_id with (l := SESSIONS db).
    + unfold departed. simpl. rewrite Hs. simpl. exact Hs.
    + apply departed_roster.
  - intros Hi. apply joinSession_registered; [exact Hf | now apply includes_In].
  - intros Hi Hc. apply joinSession_full with (s := s);
      [exact Hf | now apply includes_false | now apply at_capacity_true].
  - intros Hi Hc. apply includes_false in Hi. apply at_capacity_false in Hc.
    rewrite (joinSession_joins _ _ _ _ Hf Hi Hc).
    do 2 eexists. split; [reflexivity |]. simpl. split.
    + apply find_assign_session with (s0 := s); [exact Hf |].
      rewrite joined_id. now apply find_session_id with (l := SESSIONS db).
    + apply joined_roster.
Qed.

(** On the COMPLETED session [s2] of the initial data, which started the day
    before: a leave fails, a join by [u1] returns the session, a join by [u4]
    appends [u4].  On a COMPLETED session that starts a week later, [u1]
    leaves: the roster becomes empty and the status stays COMPLETED. *)
Lemma completed_session_guards_witness :
  leaveSession demo_tz (initial_store demo_now) "s2" "u1" demo_now
  = (initial_store demo_now, Throw "Cannot leave past session")
  /\ joinSession (initial_store demo_now) "s2" "u1"
     = (initial_store demo_now,
        Return (Session.Build "s2" "c1" "2023-12-31" (Some "18:00") (Some "20:00") "4" 6
                  ["u1"; "u3"; "u5"; "u2"] COMPLETED None))
  /\ (exists db' s',
        joinSession (initial_store demo_now) "s2" "u4" = (db', Return s')
        /\ find_session "s2" (SESSIONS db') = Some s'
        /\ Session.registeredPlayerIds s' = ["u1"; "u3"; "u5"; "u2"; "u4"])
  /\ (exists db' s',
        leaveSession demo_tz demo_completed_db "s" "u1" demo_now = (db', Return s')
        /\ find_session "s" (SESSIONS db') = Some s'
        /\ Session.status s' = COMPLETED
        /\ Session.registeredPlayerIds s' = []).
Proof.
  destruct (completed_session_guards demo_tz (initial_store demo_now) "s2" "u1" demo_now
              (Session.Build "s2" "c1" "2023-12-31" (Some "18:00") (Some "20:00") "4" 6
                 ["u1"; "u3"; "u5"; "u2"] COMPLETED None) eq_refl eq_refl)
    as (H1 & _ & H3 & _ & _).
  destruct (completed_session_guards demo_tz (initial_store demo_now) "s2" "u4" demo_now
              (Session.Build "s2" "c1" "2023-12-31" (Some "18:00") (Some "20:00") "4" 6
                 ["u1"; "u3"; "u5"; "u2"] COMPLETED None) eq_refl eq_refl)
    as (_ & _ & _ & _ & H5).
  destruct (completed_session_guards demo_tz demo_completed_db "s" "u1" demo_now
              demo_completed_session eq_refl eq_refl)
    as (_ & H2 & _ & _ & _).
  split; [| split; [| split]].
  - apply (H1 1704016800000); [reflexivity |].
    unfold demo_now. lia.
  - apply H3. simpl. auto.
  - apply H5.
    + simpl. intros [H | [H | [H | [H | []]]]]; discriminate.
    + simpl. lia.
  - destruct (H2 demo_start eq_refl ltac:(unfold demo_start, demo_now; lia))
      as (db' & s' & E & Hf & Hst & Hr).
    exists db', s'. split; [exact E |]. split; [exact Hf |]. split; [exact Hst |].
    rewrite Hr. reflexivity.
Defined.

(** ** Recording a match *)

Lemma update_stats_cases session matchData m :
  (ClubMember.clubId m = Session.clubId session ->
   In (ClubMember.userId m) (allPlayers matchData) ->
   In (ClubMember.userId m) (winningTeam matchData) ->
   update_stats session matchData m
   = ClubMember.Build (ClubMember.clubId m) (ClubMember.userId m) (ClubMember.role m)
       (ClubMember.joinedAt m) (ClubMember.matchesPlayed m + 1)
       (ClubMember.matchesWon m + 1))
  /\ (ClubMember.clubId m = Session.clubId session ->
      In (ClubMember.userId m) (allPlayers matchData) ->
      ~ In (ClubMember.userId m) (winningTeam matchData) ->
      update_stats session matchData m
      = ClubMember.Build (ClubMember.clubId m) (ClubMember.userId m) (ClubMember.role m)
          (ClubMember.joinedAt m) (ClubMember.matchesPlayed m + 1)
          (ClubMember.matchesWon m))
  /\ (ClubMember.clubId m <> Session.clubId session
      \/ ~ In (ClubMember.userId m) (allPlayers matchData) ->
      update_stats session matchData m = m).
Proof.
  unfold update_stats. repeat split.
  - intros Hc Hp Hw. apply String.eqb_eq in Hc. apply includes_In in Hp, Hw.
    rewrite Hc, Hp. simpl. rewrite Hw. reflexivity.
  - intros Hc Hp Hw. apply String.eqb_eq in Hc. apply includes_In in Hp.
    apply includes_false in Hw. rewrite Hc, Hp. simpl. rewrite Hw. reflexivity.
  - intros [Hc | Hp].
    + apply String.eqb_neq in Hc. rewrite Hc. reflexivity.
    + apply includes_false in Hp. rewrite Hp, andb_false_r. reflexivity.
Qed.

Lemma recordMatch_found db suffix now matchData session :
  find_session (MatchData.sessionId matchData) (SESSIONS db) = Some session ->
  recordMatch db suffix now matchData
  = (mkStore (SESSIONS db) (map (update_stats session matchData) (MEMBERS db))
       (MATCHES db ++ [newMatch matchData suffix now]),
     Return (newMatch matchData suffix now)).
Proof. unfold recordMatch. now intros ->. Qed.

Lemma recordMatch_not_found db suffix now matchData :
  find_session (MatchData.sessionId matchData) (SESSIONS db) = None ->
  recordMatch db suffix now matchData
  = (mkStore (SESSIONS db) (MEMBERS db) (MATCHES db ++ [newMatch matchData suffix now]),
     Return (newMatch matchData suffix now)).
Proof. unfold recordMatch. now intros ->. Qed.

(** The winning team is [teamA] when the winner is A and [teamB] when it is
    B. *)
Lemma winningTeam_In matchData u :
  In u (winningTeam matchData)
  <-> (MatchData.winner matchData = WinnerA /\ In u (MatchData.teamA matchData))
      \/ (MatchData.winner matchData = WinnerB /\ In u (MatchData.teamB matchData)).
Proof.
  unfold winningTeam. destruct (MatchData.winner matchData); split.
  - intros H. left. auto.
  - intros [[_ H] | [H _]]; [exact H | discriminate].
  - intros H. right. auto.
  - intros [[H _] | [_ H]]; [discriminate | exact H].
Qed.

(** C3.  A [recordMatch] call on an existing session always succeeds, and it
    keeps every Membership row in its place in [MEMBERS].  A row of the
    session's club whose [userId] is in [teamA] or [teamB] gets
    [matchesPlayed + 1], and [matchesWon + 1] exactly when the [userId] is on
    the winning team, which is [teamA] when the winner is A and [teamB] when
    the winner is B; its other fields are unchanged.  Every other row, among
    them the rows that a participant has in other clubs, is unchanged, and no
    row is added for a participant who is not a member. *)
Theorem recordMatch_updates_ledger db suffix now matchData session i m :
  find_session (MatchData.sessionId matchData) (SESSIONS db) = Some session ->
  nth_error (MEMBERS db) i = Some m ->
  exists db' m',
    recordMatch db suffix now matchData = (db', Return (newMatch matchData suffix now))
    /\ List.length (MEMBERS db') = List.length (MEMBERS db)
    /\ nth_error (MEMBERS db') i = Some m'
    /\ (ClubMember.clubId m = Session.clubId session ->
        In (ClubMember.userId m) (MatchData.teamA matchData ++ MatchData.teamB matchData) ->
        (MatchData.winner matchData = WinnerA
         /\ In (ClubMember.userId m) (MatchData.teamA matchData))
        \/ (MatchData.winner matchData = WinnerB
            /\ In (ClubMember.userId m) (MatchData.teamB matchData)) ->
        m' = ClubMember.Build (ClubMember.clubId m) (ClubMember.userId m)
               (ClubMember.role m) (ClubMember.joinedAt m)
               (ClubMember.matchesPlayed m + 1) (ClubMember.matchesWon m + 1))
    /\ (ClubMember.clubId m = Session.clubId session ->
        In (ClubMember.userId m) (MatchData.teamA matchData ++ MatchData.teamB matchData) ->
        ~ ((MatchData.winner matchData = WinnerA
            /\ In (ClubMember.userId m) (MatchData.teamA matchData))
           \/ (MatchData.winner matchData = WinnerB
               /\ In (ClubMember.userId m) (MatchData.teamB matchData))) ->
        m' = ClubMember.Build (ClubMember.clubId m) (ClubMember.userId m)
               (ClubMember.role m) (ClubMember.joinedAt m)
               (ClubMember.matchesPlayed m + 1) (ClubMember.matchesWon m))
    /\ (ClubMember.clubId m <> Session.clubId session
        \/ ~ In (ClubMember.userId m) (MatchData.teamA matchData ++ MatchData.teamB matchData) ->
        m' = m).
Proof.
  intros Hf Hn. rewrite (recordMatch_found _ _ _ _ _ Hf).
  exists (mkStore (SESSIONS db) (map (update_stats session matchData) (MEMBERS db))
            (MATCHES db ++ [newMatch matchData suffix now])),
         (update_stats session matchData m).
  simpl. split; [reflexivity |]. split; [apply length_map |].
  split; [now apply map_nth_error |].
  destruct (update_stats_cases session matchData m) as (Hwon & Hlost & Hother).
  split; [| split].
  - intros Hc Hp Hw. apply Hwon; [exact Hc | exact Hp |].
    now apply winningTeam_In.
  - intros Hc Hp Hw. apply Hlost; [exact Hc | exact Hp |].
    intros Hin. apply Hw. now apply winningTeam_In.
  - exact Hother.
Qed.

(** The scenario of the specification: [u1] beats [u2] 21-10, both had 0
    played and 0 won; the row of [u1] in another club is untouched. *)
Example scenario_record_match :
  MEMBERS (fst (recordMatch demo_db "r" demo_now demo_match))
  = [ ClubMember.Build "c1" "u1" member "2024-01-01" 1 1;
      ClubMember.Build "c1" "u2" member "2024-01-01" 1 0;
      ClubMember.Build "c2" "u1" member "2024-01-01" 4 3 ].
Proof. reflexivity. Qed.

(** A win of team A credits [u1], a win of team B credits [u2] and not
    [u1]. *)
Lemma recordMatch_updates_ledger_witness :
  (exists db' m',
     recordMatch demo_db "r" demo_now demo_match
     = (db', Return (newMatch demo_match "r" demo_now))
     /\ nth_error (MEMBERS db') 0 = Some m'
     /\ m' = ClubMember.Build "c1" "u1" member "2024-01-01" (0 + 1) (0 + 1))
  /\ (exists db' m',
        recordMatch demo_db "r" demo_now demo_match_B
        = (db', Return (newMatch demo_match_B "r" demo_now))
        /\ nth_error (MEMBERS db') 1 = Some m'
        /\ m' = ClubMember.Build "c1" "u2" member "2024-01-01" (0 + 1) (0 + 1))
  /\ (exists db' m',
        recordMatch demo_db "r" demo_now demo_match_B
        = (db', Return (newMatch demo_match_B "r" demo_now))
        /\ nth_error (MEMBERS db') 0 = Some m'
        /\ m' = ClubMember.Build "c1" "u1" member "2024-01-01" (0 + 1) 0)
  /\ (exists db' m',
        recordMatch demo_db "r" demo_now demo_match_B
        = (db', Return (newMatch demo_match_B "r" demo_now))
        /\ nth_error (MEMBERS db') 2 = Some m'
        /\ m' = ClubMember.Build "c2" "u1" member "2024-01-01" 4 3).
Proof.
  split; [| split; [| split]].
  - destruct (recordMatch_updates_ledger demo_db "r" demo_now demo_match demo_session 0
                (ClubMember.Build "c1" "u1" member "2024-01-01" 0 0) eq_refl eq_refl)
      as (db' & m' & E & _ & Hn & Hw & _).
    exists db', m'. split; [exact E |]. split; [exact Hn |].
    apply Hw; simpl; auto.
  - destruct (recordMatch_updates_ledger demo_db "r" demo_now demo_match_B demo_session 1
                (ClubMember.Build "c1" "u2" member "2024-01-01" 0 0) eq_refl eq_refl)
      as (db' & m' & E & _ & Hn & Hw & _).
    exists db', m'. split; [exact E |]. split; [exact Hn |].
    apply Hw; simpl; auto.
  - destruct (recordMatch_updates_ledger demo_db "r" demo_now demo_match_B demo_session 0
                (ClubMember.Build "c1" "u1" member "2024-01-01" 0 0) eq_refl eq_refl)
      as (db' & m' & E & _ & Hn & _ & Hl & _).
    exists db', m'. split; [exact E |]. split; [exact Hn |].
    apply Hl; simpl; auto.
    intros [[H _] | [_ [H | []]]]; discriminate.
  - destruct (recordMatch_updates_ledger demo_db "r" demo_now demo_match_B demo_session 2
                (ClubMember.Build "c2" "u1" member "2024-01-01" 4 3) eq_refl eq_refl)
      as (db' & m' & E & _ & Hn & _ & _ & Ho).
    exists db', m'. split; [exact E |]. split; [exact Hn |].
    apply Ho. left. discriminate.
Defined.

Lemma update_stats_keeps_order session matchData m :
  ClubMember.matchesWon m <= ClubMember.matchesPlayed m ->
  ClubMember.clubId (update_stats session matchData m) = ClubMember.clubId m
  /\ ClubMember.userId (update_stats session matchData m) = ClubMember.userId m
  /\ ClubMember.matchesWon (update_stats session matchData m)
     <= ClubMember.matchesPlayed (update_stats session matchData m).
Proof.
  intros H. unfold update_stats.
  destruct (String.eqb _ _ && includes _ _); simpl; [| auto].
  destruct (includes _ (winningTeam matchData)); simpl; repeat split; lia.
Qed.

Lemma record_call_keeps_order db c i m :
  nth_error (MEMBERS db) i = Some m ->
  ClubMember.matchesWon m <= ClubMember.matchesPlayed m ->
  exists m',
    nth_error (MEMBERS (record_call db c)) i = Some m'
    /\ ClubMember.clubId m' = ClubMember.clubId m
    /\ ClubMember.userId m' = ClubMember.userId m
    /\ ClubMember.matchesWon m' <= ClubMember.matchesPlayed m'.
Proof.
  intros Hn Hle. unfold record_call, recordMatch. simpl.
  destruct (find_session _ _) as [session |].
  - exists (update_stats session (rc_data c) m). split.
    + now apply map_nth_error.
    + now apply update_stats_keeps_order.
  - exists m. auto.
Qed.

(** C9.  A Membership row with [matchesWon <= matchesPlayed] still has
    [matchesWon <= matchesPlayed] after every sequence of [recordMatch]
    calls; the row stays where it is in [MEMBERS] and keeps its club and
    user. *)
Theorem ledger_order_kept cs : forall db i m,
  nth_error (MEMBERS db) i = Some m ->
  ClubMember.matchesWon m <= ClubMember.matchesPlayed m ->
  exists m',
    nth_error (MEMBERS (record_calls db cs)) i = Some m'
    /\ ClubMember.clubId m' = ClubMember.clubId m
    /\ ClubMember.userId m' = ClubMember.userId m
    /\ ClubMember.matchesWon m' <= ClubMember.matchesPlayed m'.
Proof.
  induction cs as [| c cs IH]; intros db i m Hn Hle; simpl.
  - exists m. auto.
  - destruct (record_call_keeps_order db c i m Hn Hle) as (m1 & Hn1 & Hc & Hu & Hle1).
    destruct (IH _ _ _ Hn1 Hle1) as (m2 & Hn2 & Hc2 & Hu2 & Hle2).
    exists m2. rewrite Hc2, Hu2. auto.
Qed.

Lemma ledger_order_kept_witness :
  exists m',
    nth_error (MEMBERS (record_calls (initial_store demo_now)
                          [ mkRecordCall "r1" demo_now
                              (MatchData.Build "s1" ["u1"; "u2"] ["u3"; "u4"] 21 19 WinnerA);
                            mkRecordCall "r2" (demo_now + 1)
                              (MatchData.Build "s1" ["u1"] ["u3"] 15 21 WinnerB);
                            mkRecordCall "r3" (demo_now + 2)
                              (MatchData.Build "nowhere" ["u1"] ["u3"] 21 0 WinnerA) ])) 0
    = Some m'
    /\ ClubMember.clubId m' = "c1"
    /\ ClubMember.userId m' = "u1"
    /\ ClubMember.matchesWon m' <= ClubMember.matchesPlayed m'.
Proof.
  apply (ledger_order_kept _ (initial_store demo_now) 0
           (ClubMember.Build "c1" "u1" admin "2023-01-01" 45 30) eq_refl).
  simpl. lia.
Defined.

(** C10 as stated fails: a [recordMatch] whose [sessionId] names no session
    of the store does not fail.  It resolves with the new match, which is
    appended to [MATCHES]. *)
Lemma recordMatch_unknown_session_is_stored :
  find_session "nowhere" (SESSIONS demo_db) = None
  /\ recordMatch demo_db "r" demo_now (MatchData.Build "nowhere" ["u1"] ["u2"] 21 10 WinnerA)
     = (mkStore (SESSIONS demo_db) (MEMBERS demo_db)
          [Match.Build "mr" "nowhere" ["u1"] ["u2"] 21 10 WinnerA "2024-01-01T12:00:00.000Z"],
        Return (Match.Build "mr" "nowhere" ["u1"] ["u2"] 21 10 WinnerA
                  "2024-01-01T12:00:00.000Z")).
Proof. split; reflexivity. Qed.

(** C10, amended.  A [recordMatch] whose [sessionId] names no session of the
    store succeeds: the new match is returned and appended to [MATCHES], and
    [MEMBERS] (every Membership counter) and [SESSIONS] are unchanged. *)
Theorem recordMatch_unknown_session db suffix now matchData :
  find_session (MatchData.sessionId matchData) (SESSIONS db) = None ->
  exists db',
    recordMatch db suffix now matchData = (db', Return (newMatch matchData suffix now))
    /\ MATCHES db' = (MATCHES db ++ [newMatch matchData suffix now])%list
    /\ MEMBERS db' = MEMBERS db
    /\ SESSIONS db' = SESSIONS db.
Proof.
  intros Hf. rewrite (recordMatch_not_found _ _ _ _ Hf).
  eexists. split; [reflexivity |]. simpl. auto.
Qed.

Lemma recordMatch_unknown_session_witness :
  exists db',
    recordMatch demo_db "r" demo_now (MatchData.Build "nowhere" ["u1"] ["u2"] 21 10 WinnerA)
    = (db', Return (newMatch (MatchData.Build "nowhere" ["u1"] ["u2"] 21 10 WinnerA)
                      "r" demo_now))
    /\ MATCHES db'
       = (MATCHES demo_db
          ++ [newMatch (MatchData.Build "nowhere" ["u1"] ["u2"] 21 10 WinnerA) "r" demo_now])%list
    /\ MEMBERS db' = MEMBERS demo_db
    /\ SESSIONS db' = SESSIONS demo_db.
Proof.
  apply (recordMatch_unknown_session demo_db "r" demo_now
           (MatchData.Build "nowhere" ["u1"] ["u2"] 21 10 WinnerA)).
  reflexivity.
Defined.

(** C4 as stated fails: [recordMatch] accepts a tie.  Given a match with
    the scores 15 and 15 it succeeds, appends the match to [MATCHES] and
    updates the counters of both players, with a win for the team that its
    caller named as the winner.  It does not derive the winner either: given
    21-10 and the winner B it stores the winner B. *)
Lemma recordMatch_accepts_tie :
  MatchData.scoreA demo_tie = MatchData.scoreB demo_tie
  /\ recordMatch demo_db "r" demo_now demo_tie
     = (mkStore [demo_session]
          [ ClubMember.Build "c1" "u1" member "2024-01-01" 1 1;
            ClubMember.Build "c1" "u2" member "2024-01-01" 1 0;
            ClubMember.Build "c2" "u1" member "2024-01-01" 4 3 ]
          [Match.Build "mr" "s" ["u1"] ["u2"] 15 15 WinnerA "2024-01-01T12:00:00.000Z"],
        Return (Match.Build "mr" "s" ["u1"] ["u2"] 15 15 WinnerA
                  "2024-01-01T12:00:00.000Z"))
  /\ snd (recordMatch demo_db "r" demo_now
            (MatchData.Build "s" ["u1"] ["u2"] 21 10 WinnerB))
     = Return (Match.Build "mr" "s" ["u1"] ["u2"] 21 10 WinnerB
                 "2024-01-01T12:00:00.000Z").
Proof. repeat split; reflexivity. Qed.

(** C4, amended.  The tie check and the derivation of the winner are in the
    recorder's [submitMatch], not in [recordMatch].  [submitMatch] with equal
    scores stops at the alert "Matches cannot end in a draw": [recordMatch]
    is not called and the store, so [MATCHES] and every Membership counter,
    is unchanged.  With different scores the match is recorded, and the
    recorded match has winner A exactly when [scoreA > scoreB] and winner B
    otherwise.  [recordMatch] itself tests no score: for every pair of
    scores, equal ones included, and every winner that its caller passes, it
    succeeds, appends the match to [MATCHES] with that winner and updates the
    ledger of the session's club. *)
Theorem tie_rejected_by_submitMatch_only db session teamA teamB scoreA scoreB suffix now :
  (scoreA = scoreB ->
   submitMatch db session teamA teamB scoreA scoreB suffix now
   = (db, Alert "Matches cannot end in a draw"))
  /\ (scoreA <> scoreB ->
      exists db' m,
        submitMatch db session teamA teamB scoreA scoreB suffix now
        = (db', Submitted (Return m))
        /\ MATCHES db' = (MATCHES db ++ [m])%list
        /\ Match.sessionId m = Session.id session
        /\ Match.teamA m = teamA /\ Match.teamB m = teamB
        /\ Match.scoreA m = scoreA /\ Match.scoreB m = scoreB
        /\ (Match.winner m = WinnerA <-> scoreA > scoreB)
        /\ (Match.winner m = WinnerB <-> ~ scoreA > scoreB))
  /\ (forall winner,
      exists db' m,
        recordMatch db suffix now
          (MatchData.Build (Session.id session) teamA teamB scoreA scoreB winner)
        = (db', Return m)
        /\ MATCHES db' = (MATCHES db ++ [m])%list
        /\ Match.scoreA m = scoreA /\ Match.scoreB m = scoreB
        /\ Match.winner m = winner
        /\ (forall s, find_session (Session.id session) (SESSIONS db) = Some s ->
              MEMBERS db'
              = map (update_stats s
                       (MatchData.Build (Session.id session) teamA teamB scoreA scoreB winner))
                    (MEMBERS db))).
Proof.
  unfold submitMatch. split; [| split].
  - intros H. apply Z.eqb_eq in H. rewrite H. reflexivity.
  - intros H. apply Z.eqb_neq in H. rewrite H. unfold recordMatch.
    do 2 eexists. split; [reflexivity |]. simpl. repeat split; auto.
    + destruct (Z.ltb_spec scoreB scoreA); [lia | discriminate].
    + destruct (Z.ltb_spec scoreB scoreA); [reflexivity | lia].
    + destruct (Z.ltb_spec scoreB scoreA); [discriminate | lia].
    + destruct (Z.ltb_spec scoreB scoreA); [lia | reflexivity].
  - intros winner. unfold recordMatch. do 2 eexists.
    split; [reflexivity |]. simpl. repeat split.
    intros s ->. reflexivity.
Qed.

Lemma tie_rejected_by_submitMatch_only_witness :
  submitMatch demo_db demo_session ["u1"] ["u2"] 15 15 "r" demo_now
  = (demo_db, Alert "Matches cannot end in a draw")
  /\ (exists db' m,
        submitMatch demo_db demo_session ["u1"] ["u2"] 21 10 "r" demo_now
        = (db', Submitted (Return m))
        /\ MATCHES db' = (MATCHES demo_db ++ [m])%list
        /\ Match.sessionId m = Session.id demo_session
        /\ Match.teamA m = ["u1"] /\ Match.teamB m = ["u2"]
        /\ Match.scoreA m = 21 /\ Match.scoreB m = 10
        /\ (Match.winner m = WinnerA <-> 21 > 10)
        /\ (Match.winner m = WinnerB <-> ~ 21 > 10))
  /\ (exists db' m,
        recordMatch demo_db "r" demo_now
          (MatchData.Build (Session.id demo_session) ["u1"] ["u2"] 15 15 WinnerB)
        = (db', Return m)
        /\ MATCHES db' = (MATCHES demo_db ++ [m])%list
        /\ Match.scoreA m = 15 /\ Match.scoreB m = 15
        /\ Match.winner m = WinnerB
        /\ MEMBERS db'
           = [ ClubMember.Build "c1" "u1" member "2024-01-01" 1 0;
               ClubMember.Build "c1" "u2" member "2024-01-01" 1 1;
               ClubMember.Build "c2" "u1" member "2024-01-01" 4 3 ]).
Proof.
  split; [| split].
  - apply (tie_rejected_by_submitMatch_only demo_db demo_session ["u1"] ["u2"] 15 15
             "r" demo_now).
    reflexivity.
  - apply (tie_rejected_by_submitMatch_only demo_db demo_session ["u1"] ["u2"] 21 10
             "r" demo_now).
    lia.
  - destruct (tie_rejected_by_submitMatch_only demo_db demo_session ["u1"] ["u2"] 15 15
                "r" demo_now) as (_ & _ & H).
    destruct (H WinnerB) as (db' & m & E & HM & HA & HB & HW & HL).
    exists db', m. repeat (split; [assumption |]).
    rewrite (HL demo_session eq_refl). reflexivity.
Defined.

(** ** Creating sessions *)

Lemma with_SESSIONS_twice l l' db :
  with_SESSIONS l (with_SESSIONS l' db) = with_SESSIONS l db.
Proof. reflexivity. Qed.

(** The loop on a template whose date is valid. *)
Lemma createSession_loop_valid tz rnd clubId data t0 n : forall i db created,
  createSession_loop tz rnd clubId data (Some t0) n i db created
  = (with_SESSIONS (SESSIONS db ++ weekly_sessions rnd clubId data t0 i n) db,
     Return (created ++ weekly_sessions rnd clubId data t0 i n)%list).
Proof.
  unfold weekly_sessions.
  induction n as [| n IH]; intros i db created.
  - simpl. rewrite !app_nil_r. destruct db; reflexivity.
  - cbn [createSession_loop dateString_of seq map].
    rewrite setDate_getDate. rewrite IH.
    rewrite with_SESSIONS_twice. cbn [SESSIONS with_SESSIONS].
    rewrite <- !app_assoc. cbn [app].
    replace (t0 + Z.of_nat i * 7 * JSDate.msPerDay)
      with (t0 + 7 * Z.of_nat i * JSDate.msPerDay) by lia.
    reflexivity.
Qed.

(** The loop on a template whose date is invalid: the first iteration throws
    before it stores anything. *)
Lemma createSession_loop_invalid tz rnd clubId data n i db created :
  createSession_loop tz rnd clubId data None (S n) i db created
  = (db, Throw "Invalid time value").
Proof. reflexivity. Qed.

Lemma weekly_sessions_length rnd clubId data t0 i n :
  List.length (weekly_sessions rnd clubId data t0 i n) = n.
Proof. unfold weekly_sessions. now rewrite length_map, length_seq. Qed.

Lemma weekly_sessions_nth rnd clubId data t0 n k :
  (k < n)%nat ->
  nth_error (weekly_sessions rnd clubId data t0 0 n) k
  = Some (newSession clubId data (rnd k)
            (JSDate.isoDate (t0 + 7 * Z.of_nat k * JSDate.msPerDay))).
Proof.
  intros H. unfold weekly_sessions.
  rewrite nth_error_map, nth_error_seq.
  destruct (Nat.ltb_spec k n); [reflexivity | lia].
Qed.

Lemma createSession_valid tz db rnd clubId data w t0 :
  new_Date tz (PartialSession.date data) = Some t0 ->
  createSession tz db rnd clubId data (Some w)
  = (with_SESSIONS (SESSIONS db ++ weekly_sessions rnd clubId data t0 0 (Z.to_nat w)) db,
     Return (weekly_sessions rnd clubId data t0 0 (Z.to_nat w))).
Proof.
  intros H. unfold createSession. rewrite H. now rewrite createSession_loop_valid.
Qed.

(** The scenario of the specification: three weekly sessions from
    2024-01-01, each OPEN with an empty roster, court "TBD", capacity 8. *)
Example scenario_three_weeks :
  createSession demo_tz empty_db (fun k => String (ascii_of_nat (97 + k)) "") "c1"
    demo_template (Some 3)
  = (mkStore
       [ Session.Build "sa" "c1" "2024-01-01" (Some "19:00") (Some "21:00") "TBD" 8 [] OPEN None;
         Session.Build "sb" "c1" "2024-01-08" (Some "19:00") (Some "21:00") "TBD" 8 [] OPEN None;
         Session.Build "sc" "c1" "2024-01-15" (Some "19:00") (Some "21:00") "TBD" 8 [] OPEN None ]
       [] [],
     Return
       [ Session.Build "sa" "c1" "2024-01-01" (Some "19:00") (Some "21:00") "TBD" 8 [] OPEN None;
         Session.Build "sb" "c1" "2024-01-08" (Some "19:00") (Some "21:00") "TBD" 8 [] OPEN None;
         Session.Build "sc" "c1" "2024-01-15" (Some "19:00") (Some "21:00") "TBD" 8 [] OPEN None ]).
Proof. reflexivity. Qed.

(** C7 as stated fails: a template without [startTime] is accepted.  The
    call succeeds and stores a session whose [startTime] is undefined. *)
Lemma createSession_accepts_missing_startTime :
  PartialSession.startTime demo_template_no_start = None
  /\ createSession demo_tz empty_db (fun _ => "r") "c1" demo_template_no_start (Some 1)
     = (mkStore
          [Session.Build "sr" "c1" "2024-01-01" None (Some "21:00") "TBD" 8 [] OPEN None]
          [] [],
        Return
          [Session.Build "sr" "c1" "2024-01-01" None (Some "21:00") "TBD" 8 [] OPEN None]).
Proof. split; reflexivity. Qed.

(** C7, amended.  [createSession] does not validate the template.  For
    [recurrenceWeeks >= 1]: when [date] is missing the call fails before any
    session is created, with the [RangeError] "Invalid time value" that
    [toISOString] throws on an invalid date, and the store is unchanged; when
    [date] is readable the call succeeds and stores [recurrenceWeeks]
    sessions whether or not [startTime] and [endTime] are present: every
    session carries the template's [startTime] and [endTime] as they are,
    undefined when missing. *)
Theorem createSession_unvalidated tz db rnd clubId data w :
  1 <= w ->
  (PartialSession.date data = None ->
   createSession tz db rnd clubId data (Some w) = (db, Throw "Invalid time value"))
  /\ (forall t0, new_Date tz (PartialSession.date data) = Some t0 ->
      exists created,
        createSession tz db rnd clubId data (Some w)
        = (with_SESSIONS (SESSIONS db ++ created) db, Return created)
        /\ Z.of_nat (List.length created) = w
        /\ forall s, In s created ->
             Session.startTime s = PartialSession.startTime data
             /\ Session.endTime s = PartialSession.endTime data).
Proof.
  intros Hw. split.
  - intros H. unfold createSession. rewrite H. cbn [new_Date].
    destruct (Z.to_nat w) as [| n] eqn:E; [lia |].
    apply createSession_loop_invalid.
  - intros t0 H. rewrite (createSession_valid _ _ _ _ _ _ _ H).
    eexists. split; [reflexivity |]. split.
    + rewrite weekly_sessions_length. lia.
    + intros s Hs. unfold weekly_sessions in Hs. apply in_map_iff in Hs.
      destruct Hs as (k & <- & _). split; reflexivity.
Qed.

Lemma createSession_unvalidated_witness :
  createSession demo_tz demo_db (fun _ => "r") "c1"
    (PartialSession.Build None (Some "19:00") (Some "21:00") None None) (Some 2)
  = (demo_db, Throw "Invalid time value")
  /\ exists created,
       createSession demo_tz demo_db (fun _ => "r") "c1" demo_template_no_start (Some 2)
       = (with_SESSIONS (SESSIONS demo_db ++ created) demo_db, Return created)
       /\ Z.of_nat (List.length created) = 2
       /\ forall s, In s created ->
            Session.startTime s = None /\ Session.endTime s = Some "21:00".
Proof.
  split.
  - apply (createSession_unvalidated demo_tz demo_db (fun _ => "r") "c1"
             (PartialSession.Build None (Some "19:00") (Some "21:00") None None) 2);
      [lia | reflexivity].
  - apply (createSession_unvalidated demo_tz demo_db (fun _ => "r") "c1" demo_template_no_start 2
             ltac:(lia)) with (t0 := 1704067200000).
    reflexivity.
Defined.

(** *** Weekly sessions on a host whose offset changes *)

(** On a host with one offset, the functions on a [JSDate.Zone] are the
    functions on that offset. *)
Lemma getDate_in_fixed_zone tz t :
  JSDate.getDate_in (JSDate.fixed_zone tz) t = JSDate.getDate tz t.
Proof.
  unfold JSDate.getDate_in, JSDate.getDate, JSDate.LocalTime_in, JSDate.LocalTime,
    JSDate.fixed_zone.
  cbn [JSDate.offset_at_utc]. reflexivity.
Qed.

Lemma setDate_in_fixed_zone tz t dt :
  JSDate.setDate_in (JSDate.fixed_zone tz) t dt = JSDate.setDate tz t dt.
Proof.
  unfold JSDate.setDate_in, JSDate.setDate, JSDate.LocalTime_in, JSDate.LocalTime,
    JSDate.UTC_in, JSDate.UTC, JSDate.fixed_zone.
  cbn [JSDate.offset_at_utc JSDate.offset_at_local]. reflexivity.
Qed.

Lemma parse_in_fixed_zone tz s :
  JSDate.parse_in (JSDate.fixed_zone tz) s = JSDate.parse tz s.
Proof.
  unfold JSDate.parse_in, JSDate.parse, JSDate.UTC_in, JSDate.UTC, JSDate.fixed_zone.
  cbn [JSDate.offset_at_local]. reflexivity.
Qed.

Lemma createSession_loop_in_fixed_zone tz rnd clubId data baseDate n : forall i db created,
  createSession_loop_in (JSDate.fixed_zone tz) rnd clubId data baseDate n i db created
  = createSession_loop tz rnd clubId data baseDate n i db created.
Proof.
  induction n as [| n IH]; intros i db created; [reflexivity |].
  cbn [createSession_loop_in createSession_loop].
  destruct baseDate as [t |]; [| reflexivity].
  rewrite getDate_in_fixed_zone, setDate_in_fixed_zone.
  cbn [dateString_of]. apply IH.
Qed.

Lemma createSession_in_fixed_zone tz db rnd clubId data recurrenceWeeks :
  createSession_in (JSDate.fixed_zone tz) db rnd clubId data recurrenceWeeks
  = createSession tz db rnd clubId data recurrenceWeeks.
Proof.
  unfold createSession_in, createSession.
  rewrite createSession_loop_in_fixed_zone.
  destruct (PartialSession.date data) as [d |]; cbn [new_Date_in new_Date];
    [rewrite parse_in_fixed_zone |]; reflexivity.
Qed.

(** [d.setDate(d.getDate() + k)] moves a date by [k] days when the offset
    with which the new local time is read is the offset in force at [d]. *)
Lemma setDate_in_getDate_in z t k :
  JSDate.offset_at_local z (JSDate.LocalTime_in z t + k * JSDate.msPerDay)
  = JSDate.offset_at_utc z t ->
  JSDate.setDate_in z t (JSDate.getDate_in z t + k) = t + k * JSDate.msPerDay.
Proof.
  intros Hoff. unfold JSDate.setDate_in, JSDate.getDate_in.
  set (lt := JSDate.LocalTime_in z t) in *.
  pose proof (MakeDay_civil (JSDate.Day lt) k) as H.
  destruct (JSDate.civil_from_days (JSDate.Day lt)) as [[y m] d].
  rewrite H.
  assert (E : JSDate.MakeDate (JSDate.Day lt + k) (JSDate.TimeWithinDay lt)
              = lt + k * JSDate.msPerDay).
  { unfold JSDate.MakeDate, JSDate.Day, JSDate.TimeWithinDay, JSDate.msPerDay.
    pose proof (Z.div_mod lt 86400000 ltac:(lia)). lia. }
  rewrite E. unfold JSDate.UTC_in. rewrite Hoff.
  subst lt. unfold JSDate.LocalTime_in. lia.
Qed.

(** The loop on a template whose date is valid, on every host. *)
Lemma createSession_loop_in_valid z rnd clubId data t0 n : forall i db created,
  createSession_loop_in z rnd clubId data (Some t0) n i db created
  = (with_SESSIONS
       (SESSIONS db
        ++ map (fun k => newSession clubId data (rnd k)
                  (JSDate.isoDate
                     (JSDate.setDate_in z t0 (JSDate.getDate_in z t0 + Z.of_nat k * 7))))
             (seq i n)) db,
     Return (created
             ++ map (fun k => newSession clubId data (rnd k)
                       (JSDate.isoDate
                          (JSDate.setDate_in z t0 (JSDate.getDate_in z t0 + Z.of_nat k * 7))))
                  (seq i n))%list).
Proof.
  induction n as [| n IH]; intros i db created.
  - simpl. rewrite !app_nil_r. destruct db; reflexivity.
  - cbn [createSession_loop_in dateString_of seq map].
    rewrite IH. rewrite with_SESSIONS_twice. cbn [SESSIONS with_SESSIONS].
    rewrite <- !app_assoc. reflexivity.
Qed.

(** A date string written by [toISOString] reads back as midnight UTC of the
    same day on every host. *)
Lemma parse_in_isoDate z t :
  0 <= YearFromTime t <= 9999 ->
  JSDate.parse_in z (JSDate.isoDate t) = Some (JSDate.Day t * JSDate.msPerDay).
Proof.
  intros Hy. rewrite <- (parse_isoDate 0 t Hy).
  unfold YearFromTime, JSDate.isoDate in *.
  destruct (JSDate.civil_from_days (JSDate.Day t)) as [[y m] d].
  replace ((0 <=? y) && (y <=? 9999)) with true
    by (symmetry; apply andb_true_iff; split; apply Z.leb_le; lia).
  destruct (pad4_shape y) as (y1 & y2 & y3 & y4 & ->).
  destruct (pad2_shape m) as (m1 & m2 & ->).
  destruct (pad2_shape d) as (d1 & d2 & ->).
  reflexivity.
Qed.




(** * Further properties of the code *)

(** ** Rosters *)

Lemma includes_app x l1 l2 : includes x (l1 ++ l2) = includes x l1 || includes x l2.
Proof. unfold includes. apply existsb_app. Qed.

Lemma includes_self_last x l : includes x (l ++ [x]) = true.
Proof. rewrite includes_app. simpl. rewrite String.eqb_refl. apply orb_true_iff. auto. Qed.

(** X1.  [joinSession] is idempotent: when a join has succeeded, the same
    join again succeeds with the same session and changes nothing in the
    store. *)
Theorem joinSession_idempotent db sessionId userId db' s' :
  joinSession db sessionId userId = (db', Return s') ->
  joinSession db' sessionId userId = (db', Return s').
Proof.
  intros H.
  destruct (find_session sessionId (SESSIONS db)) as [s |] eqn:Hf.
  2: { rewrite (joinSession_not_found _ _ _ Hf) in H. discriminate. }
  destruct (includes userId (Session.registeredPlayerIds s)) eqn:Hi.
  { rewrite (joinSession_registered _ _ _ _ Hf Hi) in H. inversion H; subst.
    now apply joinSession_registered. }
  destruct (at_capacity s) eqn:Hc.
  { rewrite (joinSession_full _ _ _ _ Hf Hi Hc) in H. discriminate. }
  rewrite (joinSession_joins _ _ _ _ Hf Hi Hc) in H. inversion H; subst.
  apply joinSession_registered.
  - simpl. apply find_assign_session with (s0 := s); [exact Hf |].
    rewrite joined_id. now apply find_session_id with (l := SESSIONS db).
  - rewrite joined_roster. apply includes_self_last.
Qed.

Lemma joinSession_idempotent_witness :
  exists db' s',
    joinSession demo_db "s" "u1" = (db', Return s')
    /\ Session.registeredPlayerIds s' = ["u1"]
    /\ joinSession db' "s" "u1" = (db', Return s').
Proof.
  do 2 eexists. split; [reflexivity |]. split; [reflexivity |].
  apply (joinSession_idempotent demo_db "s" "u1"). reflexivity.
Defined.

(** X2.  A roster without duplicates stays without duplicates under every
    sequence of [joinSession] and [leaveSession] calls. *)
Theorem roster_unique_kept tz cs db i s :
  nth_error (SESSIONS db) i = Some s ->
  NoDup (Session.registeredPlayerIds s) ->
  exists s',
    nth_error (SESSIONS (roster_calls tz db cs)) i = Some s'
    /\ NoDup (Session.registeredPlayerIds s').
Proof.
  intros Hn Hd.
  apply (roster_calls_keep (fun x => NoDup (Session.registeredPlayerIds x))) with (s := s);
    auto.
  - intros u x Hx Hi _. rewrite joined_roster. apply includes_false in Hi.
    apply NoDup_app; [exact Hx | constructor; [simpl; tauto | constructor] |].
    intros a Ha [<- | []]. tauto.
  - intros u x Hx. rewrite departed_roster. now apply NoDup_filter.
Qed.

Lemma roster_unique_kept_witness :
  exists s',
    nth_error (SESSIONS (roster_calls demo_tz demo_db
                           [Join "s" "u1"; Join "s" "u1"; Leave "s" "u2" demo_now;
                            Join "s" "u2"; Leave "s" "u1" demo_now; Join "s" "u1"])) 0
    = Some s'
    /\ NoDup (Session.registeredPlayerIds s').
Proof.
  apply (roster_unique_kept demo_tz _ demo_db 0 demo_session eq_refl). constructor.
Defined.

Lemma roster_call_frame tz db c :
  MEMBERS (roster_call tz db c) = MEMBERS db
  /\ MATCHES (roster_call tz db c) = MATCHES db
  /\ List.length (SESSIONS (roster_call tz db c)) = List.length (SESSIONS db).
Proof.
  destruct c as [sid u | sid u now]; simpl.
  - unfold joinSession. destruct (find_session sid (SESSIONS db)); [| auto].
    destruct (includes u _); [auto |]. destruct (at_capacity _); [auto |].
    simpl. rewrite assign_session_length. auto.
  - unfold leaveSession. destruct (find_session sid (SESSIONS db)); [| auto].
    destruct (is_past _ _); [auto |]. simpl. rewrite assign_session_length. auto.
Qed.

(** X3.  What joining and leaving never touch: every sequence of
    [joinSession] and [leaveSession] calls leaves [MEMBERS] and [MATCHES] as
    they are, keeps the number and the order of the sessions, and keeps each
    session's id, club, date, times, court, capacity and price. *)
Theorem roster_calls_frame tz cs db i s :
  nth_error (SESSIONS db) i = Some s ->
  MEMBERS (roster_calls tz db cs) = MEMBERS db
  /\ MATCHES (roster_calls tz db cs) = MATCHES db
  /\ List.length (SESSIONS (roster_calls tz db cs)) = List.length (SESSIONS db)
  /\ exists s',
       nth_error (SESSIONS (roster_calls tz db cs)) i = Some s'
       /\ Session.id s' = Session.id s
       /\ Session.clubId s' = Session.clubId s
       /\ Session.date s' = Session.date s
       /\ Session.startTime s' = Session.startTime s
       /\ Session.endTime s' = Session.endTime s
       /\ Session.courtNumber s' = Session.courtNumber s
       /\ Session.maxPlayers s' = Session.maxPlayers s
       /\ Session.price s' = Session.price s.
Proof.
  intros Hn.
  assert (F : MEMBERS (roster_calls tz db cs) = MEMBERS db
              /\ MATCHES (roster_calls tz db cs) = MATCHES db
              /\ List.length (SESSIONS (roster_calls tz db cs)) = List.length (SESSIONS db)).
  { clear Hn. revert db. induction cs as [| c cs IH]; intros db; simpl; [auto |].
    destruct (IH (roster_call tz db c)) as (A & B & C).
    destruct (roster_call_frame tz db c) as (A' & B' & C').
    unfold roster_calls in *. rewrite A, B, C. auto. }
  destruct F as (A & B & C). repeat (split; [assumption |]).
  apply (roster_calls_keep
           (fun x => Session.id x = Session.id s
                     /\ Session.clubId x = Session.clubId s
                     /\ Session.date x = Session.date s
                     /\ Session.startTime x = Session.startTime s
                     /\ Session.endTime x = Session.endTime s
                     /\ Session.courtNumber x = Session.courtNumber s
                     /\ Session.maxPlayers x = Session.maxPlayers s
                     /\ Session.price x = Session.price s)) with (s := s); auto.
  - intros u x Hx _ _. unfold joined. destruct (at_capacity _); exact Hx.
  - intros u x Hx. unfold departed. destruct (status_eqb _ _); exact Hx.
  - repeat split.
Qed.

Lemma roster_calls_frame_witness :
  MEMBERS (roster_calls demo_tz (initial_store demo_now)
             [Join "s1" "u9"; Leave "s1" "u1" demo_now; Join "s2" "u4"])
  = MEMBERS_init
  /\ exists s',
       nth_error (SESSIONS (roster_calls demo_tz (initial_store demo_now)
                              [Join "s1" "u9"; Leave "s1" "u1" demo_now; Join "s2" "u4"])) 0
       = Some s'
       /\ Session.id s' = "s1" /\ Session.maxPlayers s' = 8.
Proof.
  destruct (roster_calls_frame demo_tz
              [Join "s1" "u9"; Leave "s1" "u1" demo_now; Join "s2" "u4"]
              (initial_store demo_now) 0
              (Session.Build "s1" "c1" "2024-01-02" (Some "19:00") (Some "21:00") "1 & 2" 8
                 ["u1"; "u2"; "u3"; "u4"; "u5"] OPEN None) eq_refl)
    as (A & _ & _ & s' & Hn & Hid & _ & _ & _ & _ & _ & Hm & _).
  split; [exact A |]. exists s'. auto.
Defined.

(** X4.  The status stays the one derived from the roster (FULL exactly at
    capacity, OPEN below it) under every [joinSession], whatever its outcome,
    and under every [leaveSession] by a user who is on the roster or on a
    session that is OPEN. *)
Theorem status_derived_kept tz db sessionId userId now s :
  find_session sessionId (SESSIONS db) = Some s ->
  status_derived s ->
  (exists s',
      find_session sessionId (SESSIONS (fst (joinSession db sessionId userId))) = Some s'
      /\ status_derived s')
  /\ (In userId (Session.registeredPlayerIds s) \/ Session.status s = OPEN ->
      exists s',
        find_session sessionId (SESSIONS (fst (leaveSession tz db sessionId userId now)))
        = Some s'
        /\ status_derived s').
Proof.
  intros Hf Hs. split.
  - destruct (includes userId (Session.registeredPlayerIds s)) eqn:Hi.
    { rewrite (joinSession_registered _ _ _ _ Hf Hi). eauto. }
    destruct (at_capacity s) eqn:Hc.
    { rewrite (joinSession_full _ _ _ _ Hf Hi Hc). eauto. }
    rewrite (joinSession_joins _ _ _ _ Hf Hi Hc). simpl.
    exists (joined userId s). split.
    + apply find_assign_session with (s0 := s); [exact Hf |].
      rewrite joined_id. now apply find_session_id with (l := SESSIONS db).
    + now apply joined_status_derived.
  - intros Hu. destruct (is_past (sessionDate tz s) now) eqn:Hp.
    { rewrite (leaveSession_locked _ _ _ _ _ _ Hf Hp). eauto. }
    rewrite (leaveSession_leaves _ _ _ _ _ _ Hf Hp). simpl.
    exists (departed userId s). split.
    + apply find_assign_session with (s0 := s); [exact Hf |].
      rewrite departed_id. now apply find_session_id with (l := SESSIONS db).
    + now apply departed_status_derived.
Qed.

Lemma status_derived_kept_witness :
  (exists s',
      find_session "s" (SESSIONS (fst (joinSession demo_db "s" "u1"))) = Some s'
      /\ status_derived s')
  /\ exists s',
       find_session "s" (SESSIONS (fst (leaveSession demo_tz demo_db "s" "u1" demo_now)))
       = Some s'
       /\ status_derived s'.
Proof.
  assert (D : status_derived demo_session).
  { unfold status_derived. simpl. repeat split; try lia; try discriminate; auto. }
  destruct (status_derived_kept demo_tz demo_db "s" "u1" demo_now demo_session eq_refl D)
    as [H1 H2].
  split; [exact H1 | apply H2; right; reflexivity].
Defined.

(** ** Created sessions *)

(** X5.  With [recurrenceWeeks <= 0] the loop of [createSession] does not
    run: the call succeeds with an empty list and an unchanged store, whatever
    the template, a template without a date included. *)
Theorem createSession_no_weeks tz db rnd clubId data w :
  w <= 0 ->
  createSession tz db rnd clubId data (Some w) = (db, Return []).
Proof.
  intros H. unfold createSession.
  replace (Z.to_nat w) with O by lia. reflexivity.
Qed.

Lemma createSession_no_weeks_witness :
  createSession demo_tz demo_db (fun _ => "r") "c1"
    (PartialSession.Build None None None None None) (Some 0)
  = (demo_db, Return []).
Proof. apply createSession_no_weeks. lia. Defined.

Lemma find_session_app_skip sessionId l1 l2 :
  (forall x, In x l1 -> Session.id x <> sessionId) ->
  find_session sessionId (l1 ++ l2) = find_session sessionId l2.
Proof.
  unfold find_session. induction l1 as [| x l1 IH]; intros H; simpl; [reflexivity |].
  destruct (String.eqb_spec (Session.id x) sessionId) as [E | _].
  - exfalso. apply (H x); simpl; auto.
  - apply IH. intros y Hy. apply H. simpl. auto.
Qed.

Lemma append_s_inj a b : ("s" ++ a)%string = ("s" ++ b)%string -> a = b.
Proof. simpl. now intros [=]. Qed.

Lemma find_weekly_session rnd clubId data t0 k : forall n i,
  (i <= k < i + n)%nat ->
  (forall j, (i <= j < k)%nat -> rnd j <> rnd k) ->
  find_session ("s" ++ rnd k) (weekly_sessions rnd clubId data t0 i n)
  = Some (newSession clubId data (rnd k)
            (JSDate.isoDate (t0 + 7 * Z.of_nat k * JSDate.msPerDay))).
Proof.
  unfold weekly_sessions, find_session.
  induction n as [| n IH]; intros i Hk Hfresh; [lia |].
  cbn [seq map find newSession Session.id].
  destruct (String.eqb_spec ("s" ++ rnd i) ("s" ++ rnd k)) as [E | Hn].
  - apply append_s_inj in E.
    destruct (Nat.eq_dec i k) as [-> | Hne]; [reflexivity |].
    exfalso. apply (Hfresh i); [lia | exact E].
  - destruct (Nat.eq_dec i k) as [-> | Hne].
    + exfalso. apply Hn. reflexivity.
    + apply IH; [lia |]. intros j Hj. apply Hfresh. lia.
Qed.

(** X6.  A created session can be fetched by its id: when the id drawn for
    session [k] is used neither by a session already in the store nor by an
    earlier session of the same call, [getSessionDetails] on it returns
    session [k] of the list that [createSession] returned. *)
Theorem createSession_then_getSessionDetails tz db rnd clubId data w t0 k :
  new_Date tz (PartialSession.date data) = Some t0 ->
  Z.of_nat k < w ->
  (forall x, In x (SESSIONS db) -> Session.id x <> "s" ++ rnd k) ->
  (forall j, (j < k)%nat -> rnd j <> rnd k) ->
  exists db' created s,
    createSession tz db rnd clubId data (Some w) = (db', Return created)
    /\ nth_error created k = Some s
    /\ Session.id s = "s" ++ rnd k
    /\ getSessionDetails db' ("s" ++ rnd k) = Some s.
Proof.
  intros Hd Hk Hdb Hrnd. rewrite (createSession_valid _ _ _ _ _ _ _ Hd).
  do 3 eexists. split; [reflexivity |]. split.
  { apply weekly_sessions_nth. lia. }
  split; [reflexivity |].
  unfold getSessionDetails. simpl.
  rewrite find_session_app_skip by exact Hdb.
  apply find_weekly_session; [lia |]. intros j Hj. apply Hrnd. lia.
Qed.

Lemma createSession_then_getSessionDetails_witness :
  exists db' created s,
    createSession demo_tz demo_db (fun k => String (ascii_of_nat (97 + k)) "") "c1"
      demo_template (Some 3)
    = (db', Return created)
    /\ nth_error created 2 = Some s
    /\ Session.id s = "sc"
    /\ getSessionDetails db' "sc" = Some s.
Proof.
  apply (createSession_then_getSessionDetails demo_tz demo_db
           (fun k => String (ascii_of_nat (97 + k)) "") "c1" demo_template 3
           1704067200000 2 eq_refl ltac:(lia)).
  - simpl. intros x [<- | []]. discriminate.
  - intros j Hj.
    assert (C : (j = 0 \/ j = 1)%nat) by lia.
    destruct C as [-> | ->]; discriminate.
Defined.

(** ** Matches and statistics *)

(** X7.  After [recordMatch], [getUserMatches] of a player of either team
    is the former result followed by the new match, and [getUserMatches] of
    anybody else is the former result. *)
Theorem recordMatch_then_getUserMatches db suffix now matchData userId :
  (In userId (MatchData.teamA matchData ++ MatchData.teamB matchData) ->
   getUserMatches (fst (recordMatch db suffix now matchData)) userId
   = (getUserMatches db userId ++ [newMatch matchData suffix now])%list)
  /\ (~ In userId (MatchData.teamA matchData ++ MatchData.teamB matchData) ->
      getUserMatches (fst (recordMatch db suffix now matchData)) userId
      = getUserMatches db userId).
Proof.
  unfold getUserMatches, recordMatch. cbn [fst MATCHES].
  rewrite filter_app. cbn [filter newMatch Match.teamA Match.teamB].
  rewrite <- includes_app. split; intros H.
  - apply includes_In in H. rewrite H. reflexivity.
  - apply includes_false in H. rewrite H. apply app_nil_r.
Qed.

Lemma recordMatch_then_getUserMatches_witness :
  getUserMatches (fst (recordMatch (initial_store demo_now) "r" demo_now
                         (MatchData.Build "s1" ["u4"] ["u2"] 21 10 WinnerA))) "u4"
  = [newMatch (MatchData.Build "s1" ["u4"] ["u2"] 21 10 WinnerA) "r" demo_now]
  /\ List.length
       (getUserMatches (fst (recordMatch (initial_store demo_now) "r" demo_now
                               (MatchData.Build "s1" ["u4"] ["u2"] 21 10 WinnerA))) "u1")
     = 2%nat.
Proof.
  destruct (recordMatch_then_getUserMatches (initial_store demo_now) "r" demo_now
              (MatchData.Build "s1" ["u4"] ["u2"] 21 10 WinnerA) "u4") as [H1 _].
  destruct (recordMatch_then_getUserMatches (initial_store demo_now) "r" demo_now
              (MatchData.Build "s1" ["u4"] ["u2"] 21 10 WinnerA) "u1") as [_ H2].
  split.
  - rewrite H1; [reflexivity | simpl; auto].
  - rewrite H2; [reflexivity |]. simpl. intros [H | [H | []]]; discriminate.
Defined.

(** X8.  The profile page and the ledger agree on who won: for a player
    who is on one team and not on both, [isWinner] of the recorded match holds
    exactly when [recordMatch] finds the player on the winning team, which is
    when it increments [matchesWon]. *)
Theorem isWinner_agrees_with_ledger matchData suffix now userId :
  In userId (MatchData.teamA matchData ++ MatchData.teamB matchData) ->
  ~ (In userId (MatchData.teamA matchData) /\ In userId (MatchData.teamB matchData)) ->
  isWinner userId (newMatch matchData suffix now)
  = includes userId (winningTeam matchData).
Proof.
  intros Hin Hdis. unfold isWinner, winningTeam. cbn [newMatch Match.teamA Match.winner].
  apply in_app_or in Hin.
  destruct (includes userId (MatchData.teamA matchData)) eqn:Ea;
    destruct (includes userId (MatchData.teamB matchData)) eqn:Eb;
    destruct (MatchData.winner matchData); simpl; rewrite ?Ea, ?Eb;
    try reflexivity; exfalso;
    first [ apply Hdis; split; apply includes_In; assumption
          | apply includes_false in Ea; apply includes_false in Eb; tauto ].
Qed.

Lemma isWinner_agrees_with_ledger_witness :
  isWinner "u2" (newMatch (MatchData.Build "s" ["u1"] ["u2"; "u3"] 10 21 WinnerB) "r" demo_now)
  = includes "u2" (winningTeam (MatchData.Build "s" ["u1"] ["u2"; "u3"] 10 21 WinnerB)).
Proof.
  apply isWinner_agrees_with_ledger.
  - simpl. auto.
  - simpl. intros [[H | []] _]. discriminate.
Defined.

Lemma stats_fold userId l : forall won form,
  fold_left (stats_step userId) l (won, form)
  = (won + Z.of_nat (List.length (filter (isWinner userId) l)),
     (form ++ firstn (5 - List.length form) (map (form_letter userId) l))%list).
Proof.
  induction l as [| m l IH]; intros won form.
  - simpl. rewrite firstn_nil, app_nil_r. f_equal. lia.
  - cbn [fold_left stats_step]. rewrite IH. unfold form_letter. cbn [filter map].
    f_equal.
    + destruct (isWinner userId m); cbn [List.length]; lia.
    + destruct (Nat.ltb_spec (List.length form) 5) as [Hlt | Hge].
      * rewrite length_app. cbn [List.length].
        replace (5 - List.length form)%nat with (S (5 - (List.length form + 1)))%nat by lia.
        cbn [firstn]. rewrite <- app_assoc. reflexivity.
      * replace (5 - List.length form)%nat with O by lia. reflexivity.
Qed.

Lemma filter_length_perm {T : Type} (f : T -> bool) l l' :
  Permutation l l' -> List.length (filter f l) = List.length (filter f l').
Proof.
  induction 1 as [| x l l' _ IH | x y l | l l' l'' _ IH1 _ IH2]; simpl.
  - reflexivity.
  - destruct (f x); simpl; congruence.
  - destruct (f x), (f y); reflexivity.
  - congruence.
Qed.

(** X9.  The statistics of the profile page, for every host sort that
    returns a permutation of its input: [played] is the number of matches,
    [won] is the number of matches in which [isWinner] holds, so
    [0 <= won <= played]; [form] has [min 5 played] letters, the letters of
    the first five matches of the sorted list, in reverse order. *)
Theorem profile_stats_summary sort user matches :
  (forall l, Permutation (sort l) l) ->
  stats_played (profile_stats sort (Some user) matches) = Z.of_nat (List.length matches)
  /\ stats_won (profile_stats sort (Some user) matches)
     = Z.of_nat (List.length (filter (isWinner (User.id user)) matches))
  /\ 0 <= stats_won (profile_stats sort (Some user) matches)
       <= stats_played (profile_stats sort (Some user) matches)
  /\ stats_form (profile_stats sort (Some user) matches)
     = rev (firstn 5 (map (form_letter (User.id user)) (sort matches)))
  /\ List.length (stats_form (profile_stats sort (Some user) matches))
     = Nat.min 5 (List.length matches).
Proof.
  intros Hs. unfold profile_stats. rewrite stats_fold.
  cbn [stats_played stats_won stats_form app List.length Nat.sub].
  rewrite (filter_length_perm _ _ _ (Hs matches)).
  pose proof (filter_length_le (isWinner (User.id user)) matches).
  repeat split; try lia.
  rewrite length_rev, length_firstn, length_map.
  now rewrite (Permutation_length (Hs matches)).
Qed.

Lemma profile_stats_summary_witness :
  stats_played (profile_stats sort_sorted (Some (User.Build "u1" "alex@demo.com" "Alex Chen" 7 None))
                  (rev (MATCHES_init demo_now))) = 2
  /\ stats_won (profile_stats sort_sorted (Some (User.Build "u1" "alex@demo.com" "Alex Chen" 7 None))
                  (rev (MATCHES_init demo_now))) = 1
  /\ stats_form (profile_stats sort_sorted (Some (User.Build "u1" "alex@demo.com" "Alex Chen" 7 None))
                   (rev (MATCHES_init demo_now))) = ["W"; "L"].
Proof.
  destruct (profile_stats_summary sort_sorted
              (User.Build "u1" "alex@demo.com" "Alex Chen" 7 None)
              (rev (MATCHES_init demo_now)) (fun l => Permutation_refl l))
    as (Hp & Hw & _ & Hf & _).
  rewrite Hp, Hw, Hf. repeat split; reflexivity.
Defined.

(** ** The match recorder *)

Lemma recorder_step_ok st e : recorder_ok st -> recorder_ok (recorder_step st e).
Proof.
  unfold recorder_ok. intros (Na & Nb & Hd & La & Lb & Sa & Sb).
  destruct e as [id [|] | | | | |]; cbn [recorder_step togglePlayer swapSides].
  - destruct (includes id (rs_teamA st)) eqn:Ia; cbn -[Nat.ltb].
    + pose proof (filter_length_le (fun p => negb (String.eqb p id)) (rs_teamA st)).
      repeat split; auto; try lia.
      * now apply NoDup_filter.
      * intros p Hp. apply filter_In in Hp. apply Hd. tauto.
    + destruct (Nat.ltb_spec (List.length (rs_teamA st)) 2) as [Hl | Hl]; cbn -[Nat.ltb].
      2: { repeat split; auto. }
      destruct (includes id (rs_teamB st)) eqn:Ib; cbn -[Nat.ltb].
      { repeat split; auto. }
      apply includes_false in Ia, Ib. repeat split; auto.
      * apply NoDup_app; [exact Na | constructor; [simpl; tauto | constructor] |].
        intros a Ha [<- | []]. tauto.
      * intros p Hp. apply in_app_or in Hp. destruct Hp as [Hp | [<- | []]]; auto.
      * rewrite length_app. simpl. lia.
  - destruct (includes id (rs_teamB st)) eqn:Ib; cbn -[Nat.ltb].
    + pose proof (filter_length_le (fun p => negb (String.eqb p id)) (rs_teamB st)).
      repeat split; auto; try lia.
      * now apply NoDup_filter.
      * intros p Hp Hq. apply filter_In in Hq. apply (Hd p); tauto.
    + destruct (Nat.ltb_spec (List.length (rs_teamB st)) 2) as [Hl | Hl]; cbn -[Nat.ltb].
      2: { repeat split; auto. }
      destruct (includes id (rs_teamA st)) eqn:Ia; cbn -[Nat.ltb].
      { repeat split; auto. }
      apply includes_false in Ia, Ib. repeat split; auto.
      * apply NoDup_app; [exact Nb | constructor; [simpl; tauto | constructor] |].
        intros a Ha [<- | []]. tauto.
      * intros p Hp Hq. apply in_app_or in Hq.
        destruct Hq as [Hq | [<- | []]]; [now apply (Hd p) | tauto].
      * rewrite length_app. simpl. lia.
  - cbn -[Nat.ltb]. repeat split; auto. intros p Hp Hq. now apply (Hd p).
  - cbn -[Nat.ltb]. repeat split; auto. lia.
  - cbn -[Nat.ltb]. repeat split; auto. lia.
  - cbn -[Nat.ltb]. repeat split; auto. lia.
  - cbn -[Nat.ltb]. repeat split; auto. lia.
Qed.

Lemma recorder_steps_ok es : forall st,
  recorder_ok st -> recorder_ok (recorder_steps st es).
Proof.
  induction es as [| e es IH]; intros st H; simpl; [exact H |].
  apply IH. now apply recorder_step_ok.
Qed.

Lemma recorder_init_ok : recorder_ok recorder_init.
Proof.
  unfold recorder_ok, recorder_init. simpl.
  repeat split; try constructor; try lia; intros p [].
Qed.

(** X10.  Whatever the user clicks in the match recorder (player buttons,
    swap, score buttons, in any order), the two teams stay duplicate-free,
    share no player and have at most two players each, and no score becomes
    negative. *)
Theorem recorder_always_ok es : recorder_ok (recorder_steps recorder_init es).
Proof. apply recorder_steps_ok, recorder_init_ok. Qed.

(** X11.  A match recorded through the UI is well formed.  Starting from
    the initial recorder state, after any clicks: the "Record Result" button
    does nothing while a team is empty (or a submission is running); and when
    a click on it records a match, both teams of the match are non-empty,
    duplicate-free, of at most two players and share no player, the scores
    are different and not negative, and the match belongs to the session of
    the recorder. *)
Theorem click_record_well_formed es db session isSubmitting suffix now :
  (record_disabled (recorder_steps recorder_init es) isSubmitting = true ->
   click_record db session (recorder_steps recorder_init es) isSubmitting suffix now = None)
  /\ (forall db' m,
        click_record db session (recorder_steps recorder_init es) isSubmitting suffix now
        = Some (db', Submitted (Return m)) ->
        Match.teamA m <> [] /\ Match.teamB m <> []
        /\ NoDup (Match.teamA m) /\ NoDup (Match.teamB m)
        /\ (forall p, In p (Match.teamA m) -> ~ In p (Match.teamB m))
        /\ (List.length (Match.teamA m) <= 2)%nat /\ (List.length (Match.teamB m) <= 2)%nat
        /\ 0 <= Match.scoreA m /\ 0 <= Match.scoreB m
        /\ Match.scoreA m <> Match.scoreB m
        /\ Match.sessionId m = Session.id session
        /\ MATCHES db' = (MATCHES db ++ [m])%list).
Proof.
  pose proof (recorder_steps_ok es _ recorder_init_ok) as Hok.
  set (st := recorder_steps recorder_init es) in *.
  unfold click_record. split.
  - now intros ->.
  - intros db' m H.
    destruct (record_disabled st isSubmitting) eqn:Hd; [discriminate |].
    unfold record_disabled in Hd.
    apply orb_false_iff in Hd. destruct Hd as [Hd _].
    apply orb_false_iff in Hd. destruct Hd as [Ha Hb].
    apply Nat.eqb_neq in Ha, Hb.
    unfold submitMatch in H.
    destruct (Z.eqb_spec (rs_scoreA st) (rs_scoreB st)) as [E | Hne]; [discriminate |].
    unfold recordMatch in H. inversion H; subst; clear H.
    destruct Hok as (Na & Nb & Hdis & La & Lb & Sa & Sb).
    cbn [newMatch Match.teamA Match.teamB Match.scoreA Match.scoreB Match.sessionId
         MatchData.teamA MatchData.teamB MatchData.scoreA MatchData.scoreB
         MatchData.sessionId MATCHES].
    repeat split; auto.
    + intros E. apply Ha. now rewrite E.
    + intros E. apply Hb. now rewrite E.
Qed.

Lemma click_record_well_formed_witness :
  click_record demo_db demo_session (recorder_steps recorder_init [Toggle "u1" WinnerA; PlusA])
    false "r" demo_now = None
  /\ exists db' m,
       click_record demo_db demo_session
         (recorder_steps recorder_init
            [Toggle "u1" WinnerA; Toggle "u1" WinnerB; Toggle "u2" WinnerB; PlusA; MinusB])
         false "r" demo_now
       = Some (db', Submitted (Return m))
       /\ Match.teamA m = ["u1"] /\ Match.teamB m = ["u2"]
       /\ Match.scoreA m <> Match.scoreB m.
Proof.
  split.
  - apply (click_record_well_formed [Toggle "u1" WinnerA; PlusA]). reflexivity.
  - do 2 eexists. split; [reflexivity |]. split; [reflexivity |]. split; [reflexivity |].
    destruct (proj2 (click_record_well_formed
                       [Toggle "u1" WinnerA; Toggle "u1" WinnerB; Toggle "u2" WinnerB;
                        PlusA; MinusB]
                       demo_db demo_session false "r" demo_now) _ _ eq_refl)
      as (_ & _ & _ & _ & _ & _ & _ & _ & _ & Hne & _).
    exact Hne.
Defined.

Lemma update_stats_ext session md1 md2 m :
  (forall u, includes u (allPlayers md1) = includes u (allPlayers md2)) ->
  winningTeam md1 = winningTeam md2 ->
  update_stats session md1 m = update_stats session md2 m.
Proof. intros Hp Hw. unfold update_stats. now rewrite Hp, Hw. Qed.

(** X12.  Swapping sides before recording changes the labels and not the
    outcome: with different scores, the match recorded after [swapSides] has
    the two teams and the two scores exchanged and the other winner letter,
    the same players win, and every Membership row gets the same counters as
    it would without the swap. *)
Theorem swapSides_same_outcome db session st suffix now :
  rs_scoreA st <> rs_scoreB st ->
  exists db1 m1 db2 m2,
    submitMatch db session (rs_teamA st) (rs_teamB st) (rs_scoreA st) (rs_scoreB st)
      suffix now = (db1, Submitted (Return m1))
    /\ submitMatch db session (rs_teamA (swapSides st)) (rs_teamB (swapSides st))
         (rs_scoreA (swapSides st)) (rs_scoreB (swapSides st)) suffix now
       = (db2, Submitted (Return m2))
    /\ Match.teamA m2 = Match.teamB m1 /\ Match.teamB m2 = Match.teamA m1
    /\ Match.scoreA m2 = Match.scoreB m1 /\ Match.scoreB m2 = Match.scoreA m1
    /\ Match.winner m2 <> Match.winner m1
    /\ (match Match.winner m2 with WinnerA => Match.teamA m2 | WinnerB => Match.teamB m2 end)
       = (match Match.winner m1 with WinnerA => Match.teamA m1 | WinnerB => Match.teamB m1 end)
    /\ MEMBERS db2 = MEMBERS db1.
Proof.
  intros Hne. unfold submitMatch, swapSides.
  cbn [rs_teamA rs_teamB rs_scoreA rs_scoreB].
  destruct (Z.eqb_spec (rs_scoreA st) (rs_scoreB st)) as [E | _]; [contradiction |].
  destruct (Z.eqb_spec (rs_scoreB st) (rs_scoreA st)) as [E | _]; [congruence |].
  unfold recordMatch. do 4 eexists. split; [reflexivity |]. split; [reflexivity |].
  cbn [newMatch Match.teamA Match.teamB Match.scoreA Match.scoreB Match.winner
       MatchData.teamA MatchData.teamB MatchData.scoreA MatchData.scoreB
       MatchData.winner MatchData.sessionId MEMBERS].
  assert (W : (rs_scoreB st <? rs_scoreA st) = negb (rs_scoreA st <? rs_scoreB st)).
  { destruct (Z.ltb_spec (rs_scoreB st) (rs_scoreA st));
      destruct (Z.ltb_spec (rs_scoreA st) (rs_scoreB st)); simpl; auto; lia. }
  rewrite W. repeat split.
  - destruct (rs_scoreA st <? rs_scoreB st); simpl; discriminate.
  - destruct (rs_scoreA st <? rs_scoreB st); reflexivity.
  - destruct (find_session (Session.id session) (SESSIONS db)) as [s |]; [| reflexivity].
    apply map_ext. intros m. apply update_stats_ext.
    + intros u. unfold allPlayers. cbn [MatchData.teamA MatchData.teamB].
      rewrite !includes_app. apply orb_comm.
    + unfold winningTeam. cbn [MatchData.winner MatchData.teamA MatchData.teamB].
      destruct (rs_scoreA st <? rs_scoreB st); reflexivity.
Qed.

Lemma swapSides_same_outcome_witness :
  exists db1 m1 db2 m2,
    submitMatch demo_db demo_session ["u1"] ["u2"] 21 10 "r" demo_now
    = (db1, Submitted (Return m1))
    /\ submitMatch demo_db demo_session ["u2"] ["u1"] 10 21 "r" demo_now
       = (db2, Submitted (Return m2))
    /\ Match.winner m1 = WinnerA /\ Match.winner m2 = WinnerB
    /\ MEMBERS db2 = MEMBERS db1.
Proof.
  destruct (swapSides_same_outcome demo_db demo_session
              (mkRecorderState ["u1"] ["u2"] 21 10) "r" demo_now ltac:(simpl; lia))
    as (db1 & m1 & db2 & m2 & E1 & E2 & _ & _ & _ & _ & _ & _ & HM).
  exists db1, m1, db2, m2. simpl in E1, E2.
  split; [exact E1 |]. split; [exact E2 |].
  inversion E1; subst. inversion E2; subst. simpl. auto.
Defined.

(** ** Memberships *)

Lemma filter_all {T : Type} (f : T -> bool) l :
  (forall x, In x l -> f x = true) -> filter f l = l.
Proof.
  induction l as [| x l IH]; intros H; simpl; [reflexivity |].
  rewrite (H x (or_introl eq_refl)). f_equal. apply IH. intros y Hy. apply H. simpl. auto.
Qed.

Lemma is_membership_key clubId userId m :
  is_membership clubId userId m = true <-> member_key m = (clubId, userId).
Proof.
  unfold is_membership, member_key. rewrite andb_true_iff, !String.eqb_eq.
  split; [intros [-> ->]; reflexivity | intros [= -> ->]; auto].
Qed.

Lemma findIndex_none {T : Type} (f : T -> bool) l :
  findIndex f l = None <-> (forall x, In x l -> f x = false).
Proof.
  induction l as [| x l IH]; simpl.
  - split; [intros _ y [] | reflexivity].
  - destruct (f x) eqn:E.
    + split; [discriminate |]. intros H. specialize (H x (or_introl eq_refl)). congruence.
    + destruct (findIndex f l).
      * split; [discriminate |]. intros H.
        assert (A : Some n = None :> option nat); [| discriminate].
        apply (proj2 IH). intros y Hy. apply H. auto.
      * split; [| reflexivity]. intros _ y [<- | Hy]; [exact E |].
        now apply (proj1 IH eq_refl).
Qed.

Lemma findIndex_some {T : Type} (f : T -> bool) l : forall i,
  findIndex f l = Some i ->
  exists l1 x l2,
    l = (l1 ++ x :: l2)%list /\ List.length l1 = i /\ f x = true
    /\ (forall y, In y l1 -> f y = false).
Proof.
  induction l as [| x l IH]; intros i H; simpl in H; [discriminate |].
  destruct (f x) eqn:E.
  - inversion H; subst. exists [], x, l. repeat split; auto. intros y [].
  - destruct (findIndex f l) as [j |]; [| discriminate]. inversion H; subst.
    destruct (IH j eq_refl) as (l1 & y & l2 & -> & Hl & Hy & Hb).
    exists (x :: l1), y, l2. simpl. repeat split; auto.
    intros z [<- | Hz]; auto.
Qed.

Lemma splice1_middle {T : Type} (l1 : list T) x l2 :
  splice1 (List.length l1) (l1 ++ x :: l2) = (l1 ++ l2)%list.
Proof.
  unfold splice1. induction l1 as [| a l1 IH]; simpl; [reflexivity |].
  f_equal. exact IH.
Qed.

(** The two outcomes of [kickMember]: nothing matches and nothing changes,
    or the first matching row is cut out. *)
Lemma kickMember_cases db clubId userId :
  ((forall m, In m (MEMBERS db) -> member_key m <> (clubId, userId))
   /\ kickMember db clubId userId = db)
  \/ (exists l1 m l2,
        MEMBERS db = (l1 ++ m :: l2)%list
        /\ member_key m = (clubId, userId)
        /\ (forall y, In y l1 -> member_key y <> (clubId, userId))
        /\ kickMember db clubId userId = with_MEMBERS (l1 ++ l2) db).
Proof.
  unfold kickMember.
  destruct (findIndex (is_membership clubId userId) (MEMBERS db)) as [i |] eqn:E.
  - right. destruct (findIndex_some _ _ _ E) as (l1 & m & l2 & Hl & Hi & Hm & Hb).
    exists l1, m, l2. split; [exact Hl |]. split; [now apply is_membership_key |].
    split.
    + intros y Hy Hk. apply is_membership_key in Hk. rewrite (Hb y Hy) in Hk. discriminate.
    + rewrite Hl, <- Hi, splice1_middle. reflexivity.
  - left. split; [| reflexivity]. intros m Hm Hk.
    apply is_membership_key in Hk.
    rewrite (proj1 (findIndex_none _ _) E m Hm) in Hk. discriminate.
Qed.

Lemma kickMember_filter db clubId userId :
  NoDup (map member_key (MEMBERS db)) ->
  MEMBERS (kickMember db clubId userId)
  = filter (fun m => negb (is_membership clubId userId m)) (MEMBERS db).
Proof.
  intros Hnd.
  destruct (kickMember_cases db clubId userId)
    as [[Hno E] | (l1 & m & l2 & Hl & Hk & Hb & E)]; rewrite E.
  - symmetry. apply filter_all. intros y Hy. apply negb_true_iff.
    destruct (is_membership clubId userId y) eqn:F; [| reflexivity].
    apply is_membership_key in F. now apply Hno in Hy.
  - rewrite Hl, map_app in Hnd. simpl in Hnd.
    apply NoDup_remove_2 in Hnd. rewrite Hk in Hnd.
    assert (Hkeep : forall l,
               (forall y, In y l -> member_key y <> (clubId, userId)) ->
               filter (fun m => negb (is_membership clubId userId m)) l = l).
    { intros l H. apply filter_all. intros y Hy. apply negb_true_iff.
      destruct (is_membership clubId userId y) eqn:F; [| reflexivity].
      apply is_membership_key in F. now apply H in Hy. }
    simpl. rewrite Hl, filter_app. simpl.
    apply is_membership_key in Hk. rewrite Hk. simpl.
    rewrite (Hkeep l1 Hb). rewrite Hkeep; [reflexivity |].
    intros y Hy Hky. apply Hnd. apply in_or_app. right.
    rewrite <- Hky. now apply in_map.
Qed.

(** X13.  When no two Membership rows have the same club and user,
    [kickMember] removes the membership: afterwards no row has that club and
    user, every other row is still there, in the same order, and [SESSIONS]
    and [MATCHES] are untouched.  Without such a row the store is
    unchanged. *)
Theorem kickMember_removes db clubId userId :
  NoDup (map member_key (MEMBERS db)) ->
  (forall m, In m (MEMBERS (kickMember db clubId userId)) ->
             member_key m <> (clubId, userId))
  /\ MEMBERS (kickMember db clubId userId)
     = filter (fun m => negb (is_membership clubId userId m)) (MEMBERS db)
  /\ SESSIONS (kickMember db clubId userId) = SESSIONS db
  /\ MATCHES (kickMember db clubId userId) = MATCHES db
  /\ ((forall m, In m (MEMBERS db) -> member_key m <> (clubId, userId)) ->
      kickMember db clubId userId = db).
Proof.
  intros Hnd.
  assert (Hfilter : forall l,
             (forall y, In y l -> member_key y <> (clubId, userId)) ->
             filter (fun m => negb (is_membership clubId userId m)) l = l).
  { induction l as [| y l IH]; intros H; simpl; [reflexivity |].
    destruct (is_membership clubId userId y) eqn:E.
    - apply is_membership_key in E. exfalso. apply (H y); simpl; auto.
    - simpl. f_equal. apply IH. intros z Hz. apply H. simpl. auto. }
  destruct (kickMember_cases db clubId userId)
    as [[Hno E] | (l1 & m & l2 & Hl & Hk & Hb & E)]; rewrite E.
  - repeat split; auto. now rewrite Hfilter.
  - rewrite Hl, map_app in Hnd. simpl in Hnd.
    apply NoDup_remove_2 in Hnd. rewrite Hk in Hnd.
    assert (H2 : forall y, In y l2 -> member_key y <> (clubId, userId)).
    { intros y Hy Hky. apply Hnd. apply in_or_app. right.
      rewrite <- Hky. now apply in_map. }
    simpl. repeat split.
    + intros y Hy. apply in_app_or in Hy. destruct Hy; auto.
    + rewrite Hl, filter_app. simpl.
      apply is_membership_key in Hk. rewrite Hk. simpl.
      rewrite (Hfilter l1 Hb). rewrite (Hfilter l2 H2). reflexivity.
    + intros Hno. exfalso. apply (Hno m).
      * rewrite Hl. apply in_or_app. right. simpl. auto.
      * exact Hk.
Qed.

Lemma kickMember_removes_witness :
  (forall m, In m (MEMBERS (kickMember (initial_store demo_now) "c1" "u1")) ->
             member_key m <> ("c1", "u1"))
  /\ MEMBERS (kickMember (initial_store demo_now) "c1" "u1")
     = [ ClubMember.Build "c1" "u2" member "2023-02-15" 20 8;
         ClubMember.Build "c1" "u3" member "2023-03-10" 40 35;
         ClubMember.Build "c1" "u4" member "2023-04-05" 10 2;
         ClubMember.Build "c1" "u5" member "2023-05-20" 15 7;
         ClubMember.Build "c2" "u1" member "2023-06-01" 5 5 ].
Proof.
  assert (Hnd : NoDup (map member_key (MEMBERS (initial_store demo_now)))).
  { simpl. repeat constructor; simpl; intuition discriminate. }
  destruct (kickMember_removes (initial_store demo_now) "c1" "u1" Hnd)
    as (H1 & H2 & _).
  split; [exact H1 |]. rewrite H2. reflexivity.
Defined.

Lemma existsb_is_membership clubId userId l :
  existsb (is_membership clubId userId) l = true
  <-> In (clubId, userId) (map member_key l).
Proof.
  rewrite existsb_exists, in_map_iff. split.
  - intros (m & Hm & Hk). exists m. split; [now apply is_membership_key | exact Hm].
  - intros (m & Hk & Hm). exists m. split; [exact Hm | now apply is_membership_key].
Qed.

Lemma with_MEMBERS_same db : with_MEMBERS (MEMBERS db) db = db.
Proof. destruct db; reflexivity. Qed.

(** What a successful [inviteMember] that names a user has done. *)
Lemma inviteMember_added toLowerCase users db clubId email now db' r user :
  inviteMember toLowerCase users db clubId email now = (db', Return r) ->
  invite_user r = Some user ->
  find (same_email toLowerCase email) users = Some user
  /\ ~ In (clubId, User.id user) (map member_key (MEMBERS db))
  /\ db' = with_MEMBERS
             (MEMBERS db
              ++ [ClubMember.Build clubId (User.id user) member (JSDate.toISOString now) 0 0])
             db.
Proof.
  unfold inviteMember. intros H Hu.
  destruct (find (same_email toLowerCase email) users) as [u |].
  2: { inversion H; subst. discriminate. }
  destruct (existsb (is_membership clubId (User.id u)) (MEMBERS db)) eqn:E;
    [discriminate |].
  inversion H; subst. simpl in Hu. inversion Hu; subst.
  repeat split. intros Hin. apply existsb_is_membership in Hin. congruence.
Qed.

(** X14.  An invitation cannot be repeated: after [inviteMember] has added
    a user to a club, the same invitation fails with "User is already a
    member of this club" and leaves the store as it is. *)
Theorem inviteMember_twice toLowerCase users db clubId email now now' db' r user :
  inviteMember toLowerCase users db clubId email now = (db', Return r) ->
  invite_user r = Some user ->
  inviteMember toLowerCase users db' clubId email now'
  = (db', Throw "User is already a member of this club").
Proof.
  intros H Hu.
  destruct (inviteMember_added _ _ _ _ _ _ _ _ _ H Hu) as (Hf & _ & ->).
  unfold inviteMember. rewrite Hf. cbn [MEMBERS with_MEMBERS].
  rewrite existsb_app. cbn [existsb].
  unfold is_membership at 2. cbn [ClubMember.clubId ClubMember.userId].
  rewrite !String.eqb_refl. cbn [andb orb]. rewrite orb_true_r. reflexivity.
Qed.

Lemma inviteMember_twice_witness :
  exists db' r,
    inviteMember lower_ascii USERS_init (initial_store demo_now) "c2" "Sarah@Demo.com" demo_now
    = (db', Return r)
    /\ invite_message r = "Sarah Jones added to club"
    /\ inviteMember lower_ascii USERS_init db' "c2" "Sarah@Demo.com" (demo_now + 1)
       = (db', Throw "User is already a member of this club").
Proof.
  do 2 eexists. split; [reflexivity |]. split; [reflexivity |].
  eapply (inviteMember_twice lower_ascii USERS_init (initial_store demo_now) "c2"
            "Sarah@Demo.com" demo_now (demo_now + 1));
    reflexivity.
Defined.

Lemma findIndex_app_last {T : Type} (f : T -> bool) l x :
  (forall y, In y l -> f y = false) -> f x = true ->
  findIndex f (l ++ [x]) = Some (List.length l).
Proof.
  induction l as [| y l IH]; intros Hl Hx; simpl.
  - now rewrite Hx.
  - rewrite (Hl y (or_introl eq_refl)).
    rewrite IH; [reflexivity | | exact Hx]. intros z Hz. apply Hl. simpl. auto.
Qed.

(** X15.  Kicking undoes an invitation: when [inviteMember] has added a
    user to a club, [kickMember] of that user from that club gives back the
    store from before the invitation. *)
Theorem inviteMember_then_kickMember toLowerCase users db clubId email now db' r user :
  inviteMember toLowerCase users db clubId email now = (db', Return r) ->
  invite_user r = Some user ->
  kickMember db' clubId (User.id user) = db.
Proof.
  intros H Hu.
  destruct (inviteMember_added _ _ _ _ _ _ _ _ _ H Hu) as (_ & Hno & ->).
  unfold kickMember. cbn [MEMBERS with_MEMBERS].
  rewrite findIndex_app_last.
  - replace (MEMBERS db
             ++ [ClubMember.Build clubId (User.id user) member (JSDate.toISOString now) 0 0])%list
      with (MEMBERS db
            ++ ClubMember.Build clubId (User.id user) member (JSDate.toISOString now) 0 0
               :: [])%list by reflexivity.
    rewrite splice1_middle, app_nil_r. unfold with_MEMBERS. simpl.
    destruct db; reflexivity.
  - intros y Hy. destruct (is_membership clubId (User.id user) y) eqn:E; [| reflexivity].
    exfalso. apply Hno. apply is_membership_key in E. rewrite <- E. now apply in_map.
  - unfold is_membership. simpl. now rewrite !String.eqb_refl.
Qed.

Lemma inviteMember_then_kickMember_witness :
  exists db' r,
    inviteMember lower_ascii USERS_init (initial_store demo_now) "c2" "MIKE@demo.com" demo_now
    = (db', Return r)
    /\ List.length (MEMBERS db') = 7%nat
    /\ kickMember db' "c2" "u3" = initial_store demo_now.
Proof.
  do 2 eexists. split; [reflexivity |]. split; [reflexivity |].
  apply (inviteMember_then_kickMember lower_ascii USERS_init (initial_store demo_now) "c2"
           "MIKE@demo.com" demo_now
           (fst (inviteMember lower_ascii USERS_init (initial_store demo_now) "c2"
                   "MIKE@demo.com" demo_now))
           (mkInviteResult true "Mike Ross added to club"
              (Some (User.Build "u3" "mike@demo.com" "Mike Ross" 8
                       (Some "https://picsum.photos/id/91/150/150"))))
           (User.Build "u3" "mike@demo.com" "Mike Ross" 8
              (Some "https://picsum.photos/id/91/150/150")));
    reflexivity.
Defined.

Lemma update_stats_key session matchData m :
  member_key (update_stats session matchData m) = member_key m.
Proof.
  unfold update_stats.
  destruct (String.eqb _ _ && includes _ _); [| reflexivity].
  simpl. destruct (includes _ (winningTeam matchData)); reflexivity.
Qed.

Lemma member_call_keeps_keys toLowerCase users db c :
  NoDup (map member_key (MEMBERS db)) ->
  NoDup (map member_key (MEMBERS (member_call toLowerCase users db c))).
Proof.
  intros Hnd. destruct c as [clubId email now | clubId userId | c]; simpl.
  - unfold inviteMember.
    destruct (find (same_email toLowerCase email) users) as [u |]; [| exact Hnd].
    destruct (existsb (is_membership clubId (User.id u)) (MEMBERS db)) eqn:E;
      [exact Hnd |].
    simpl. rewrite map_app. simpl.
    apply NoDup_app; [exact Hnd | constructor; [simpl; tauto | constructor] |].
    intros k Hk [<- | []]. apply existsb_is_membership in Hk.
    unfold member_key in Hk. simpl in Hk. congruence.
  - rewrite (kickMember_filter db clubId userId Hnd).
    clear - Hnd. induction (MEMBERS db) as [| m l IH]; simpl; [constructor |].
    simpl in Hnd. inversion Hnd as [| k ks Hk Hks]; subst.
    destruct (negb (is_membership clubId userId m)); simpl; [| now apply IH].
    constructor; [| now apply IH].
    intros Hin. apply Hk. apply in_map_iff in Hin. destruct Hin as (y & Hy & Hf).
    apply filter_In in Hf. rewrite <- Hy. apply in_map. tauto.
  - unfold record_call, recordMatch. simpl.
    destruct (find_session _ _); [| exact Hnd].
    rewrite map_map.
    rewrite (map_ext _ member_key); [exact Hnd |].
    intros m. apply update_stats_key.
Qed.

(** X16.  No sequence of [inviteMember], [kickMember] and [recordMatch]
    calls gives a user two Membership rows in one club: when the rows of
    [MEMBERS] have pairwise different (club, user) pairs, they still have
    after the calls. *)
Theorem membership_keys_unique_kept toLowerCase users cs : forall db,
  NoDup (map member_key (MEMBERS db)) ->
  NoDup (map member_key (MEMBERS (member_calls toLowerCase users db cs))).
Proof.
  induction cs as [| c cs IH]; intros db H; simpl; [exact H |].
  apply IH. now apply member_call_keeps_keys.
Qed.

Lemma membership_keys_unique_kept_witness :
  NoDup (map member_key
           (MEMBERS (member_calls lower_ascii USERS_init (initial_store demo_now)
                       [ Invite "c2" "sarah@demo.com" demo_now;
                         Invite "c2" "SARAH@DEMO.COM" demo_now;
                         Kick "c1" "u1";
                         Record_ (mkRecordCall "r" demo_now
                                    (MatchData.Build "s1" ["u2"] ["u3"] 21 5 WinnerA));
                         Invite "c1" "alex@demo.com" demo_now ]))).
Proof.
  apply membership_keys_unique_kept.
  simpl. repeat constructor; simpl; intuition discriminate.
Defined.

(** ** Users and clubs *)

Lemma find_app_left {T : Type} (f : T -> bool) l1 l2 x :
  find f l1 = Some x -> find f (l1 ++ l2) = Some x.
Proof.
  induction l1 as [| y l1 IH]; simpl; [discriminate |].
  destruct (f y); [auto | exact IH].
Qed.

Lemma find_same {T : Type} (f g : T -> bool) l :
  (forall x, f x = g x) -> find f l = find g l.
Proof.
  intros H. induction l as [| y l IH]; simpl; [reflexivity |].
  rewrite H, IH. reflexivity.
Qed.

Lemma find_app_right {T : Type} (f : T -> bool) l1 l2 :
  find f l1 = None -> find f (l1 ++ l2) = find f l2.
Proof.
  induction l1 as [| y l1 IH]; simpl; [reflexivity |].
  destruct (f y); [discriminate | exact IH].
Qed.

(** X17.  Registration and login fit together: after a successful
    [createUser], [login] with the registered address returns the new user; a
    further [createUser] with an address that differs at most in case is
    rejected with "Email already registered" and changes nothing; and every
    login that worked before still returns the same user. *)
Theorem createUser_then_login toLowerCase users suffix name email skillLevel users' u :
  createUser toLowerCase users suffix name email skillLevel = (users', Return u) ->
  login toLowerCase users' email = Return u
  /\ (forall suffix2 name2 email2 skillLevel2,
        toLowerCase email2 = toLowerCase email ->
        createUser toLowerCase users' suffix2 name2 email2 skillLevel2
        = (users', Throw "Email already registered"))
  /\ (forall e v, login toLowerCase users e = Return v ->
                  login toLowerCase users' e = Return v).
Proof.
  unfold createUser. intros H.
  destruct (find (same_email toLowerCase email) users) eqn:Hf; [discriminate |].
  set (nu := User.Build _ _ _ _ _) in H. injection H as <- <-.
  assert (Hnew : find (same_email toLowerCase email) (users ++ [nu]) = Some nu).
  { rewrite find_app_right by exact Hf. simpl. unfold same_email at 1. simpl.
    now rewrite String.eqb_refl. }
  split; [| split].
  - unfold login. now rewrite Hnew.
  - intros suffix2 name2 email2 skillLevel2 He.
    assert (Hsame : forall x, same_email toLowerCase email2 x
                              = same_email toLowerCase email x).
    { intros x. unfold same_email. now rewrite He. }
    rewrite (find_same _ _ _ Hsame), Hnew. reflexivity.
  - intros e v. unfold login.
    destruct (find (same_email toLowerCase e) users) as [w |] eqn:Hw; [| discriminate].
    intros [= ->]. now rewrite (find_app_left _ _ _ _ Hw).
Qed.

Lemma createUser_then_login_witness :
  exists users' u,
    createUser lower_ascii USERS_init "x1" "Kim Lee" "Kim@Demo.com" 3 = (users', Return u)
    /\ login lower_ascii users' "Kim@Demo.com" = Return u
    /\ createUser lower_ascii users' "x2" "Other" "kim@demo.COM" 9
       = (users', Throw "Email already registered")
    /\ login lower_ascii users' "ALEX@demo.com"
       = Return (User.Build "u1" "alex@demo.com" "Alex Chen" 7
                   (Some "https://picsum.photos/id/64/150/150")).
Proof.
  do 2 eexists. split; [reflexivity |].
  destruct (createUser_then_login lower_ascii USERS_init "x1" "Kim Lee" "Kim@Demo.com" 3
              _ _ eq_refl) as (H1 & H2 & H3).
  split; [exact H1 |]. split; [apply H2; reflexivity | apply H3; reflexivity].
Defined.

(** X18.  [createUser] keeps the addresses unique up to case: when no two
    users have the same lower-cased e-mail address, no two have after the
    call, whether it succeeds or is rejected. *)
Theorem createUser_keeps_emails_unique toLowerCase users suffix name email skillLevel :
  NoDup (map (fun u => toLowerCase (User.email u)) users) ->
  NoDup (map (fun u => toLowerCase (User.email u))
             (fst (createUser toLowerCase users suffix name email skillLevel))).
Proof.
  intros Hnd. unfold createUser.
  destruct (find (same_email toLowerCase email) users) eqn:Hf; [exact Hnd |].
  simpl. rewrite map_app. simpl.
  apply NoDup_app; [exact Hnd | constructor; [simpl; tauto | constructor] |].
  intros a Ha [<- | []]. apply in_map_iff in Ha. destruct Ha as (x & Hx & Hin).
  pose proof (find_none _ _ Hf x Hin) as Hn. unfold same_email in Hn.
  rewrite Hx, String.eqb_refl in Hn. discriminate.
Qed.

Lemma createUser_keeps_emails_unique_witness :
  NoDup (map (fun u => lower_ascii (User.email u))
             (fst (createUser lower_ascii USERS_init "x1" "Kim Lee" "Kim@Demo.com" 3)))
  /\ NoDup (map (fun u => lower_ascii (User.email u))
                (fst (createUser lower_ascii USERS_init "x1" "Al" "ALEX@DEMO.COM" 3))).
Proof.
  assert (H : NoDup (map (fun u => lower_ascii (User.email u)) USERS_init)).
  { simpl. repeat constructor; simpl; intuition discriminate. }
  split; apply createUser_keeps_emails_unique; exact H.
Defined.

(** X19.  A new club shows up for its creator and for nobody else: after
    [createClub], [getUserClubs] of the creator contains the new club, the
    creator has an [admin] row with 0 played and 0 won at the end of
    [MEMBERS], and for every other user [getUserClubs] is what it was,
    provided that no Membership row already carried the new club's id. *)
Theorem createClub_then_getUserClubs clubs db suffix now data userId :
  exists clubs' db' c,
    createClub clubs db suffix now data userId = (clubs', db', Return c)
    /\ Club.id c = "c" ++ suffix
    /\ In c (getUserClubs clubs' db' userId)
    /\ MEMBERS db'
       = (MEMBERS db
          ++ [ClubMember.Build (Club.id c) userId admin (JSDate.toISOString now) 0 0])%list
    /\ ((forall m, In m (MEMBERS db) -> ClubMember.clubId m <> "c" ++ suffix) ->
        forall v, v <> userId -> getUserClubs clubs' db' v = getUserClubs clubs db v).
Proof.
  unfold createClub. do 3 eexists. split; [reflexivity |].
  split; [reflexivity |]. split; [| split; [reflexivity |]].
  - unfold getUserClubs. cbn [MEMBERS with_MEMBERS Club.id].
    apply filter_In. split; [apply in_or_app; right; simpl; auto |].
    cbn [Club.id]. apply includes_In. rewrite filter_app, map_app.
    apply in_or_app. right. cbn [filter ClubMember.userId].
    rewrite String.eqb_refl. simpl. auto.
  - intros Hfresh v Hv. unfold getUserClubs. cbn [MEMBERS with_MEMBERS Club.id].
    apply String.eqb_neq in Hv. rewrite String.eqb_sym in Hv.
    assert (Hids : forall row,
               ClubMember.userId row = userId ->
               filter (fun m => String.eqb (ClubMember.userId m) v) (MEMBERS db ++ [row])
               = filter (fun m => String.eqb (ClubMember.userId m) v) (MEMBERS db)).
    { intros row Hrow. rewrite filter_app. simpl. rewrite Hrow, Hv. apply app_nil_r. }
    rewrite Hids by reflexivity.
    rewrite filter_app. cbn [filter Club.id].
    replace (includes ("c" ++ suffix)
               (map ClubMember.clubId
                  (filter (fun m => String.eqb (ClubMember.userId m) v) (MEMBERS db))))
      with false; [apply app_nil_r |].
    symmetry. apply includes_false. intros Hin. apply in_map_iff in Hin.
    destruct Hin as (m & Hm & Hf). apply filter_In in Hf.
    apply (Hfresh m); tauto.
Qed.

Lemma createClub_then_getUserClubs_witness :
  exists clubs' db' c,
    createClub CLUBS_init (initial_store demo_now) "x9" demo_now
      (PartialClub.Build (Some "Net Gain") (Some "Evening games") (Some "Hall 2") None) "u2"
    = (clubs', db', Return c)
    /\ In c (getUserClubs clubs' db' "u2")
    /\ getUserClubs clubs' db' "u1" = getUserClubs CLUBS_init (initial_store demo_now) "u1".
Proof.
  destruct (createClub_then_getUserClubs CLUBS_init (initial_store demo_now) "x9" demo_now
              (PartialClub.Build (Some "Net Gain") (Some "Evening games") (Some "Hall 2") None)
              "u2") as (clubs' & db' & c & E & _ & Hin & _ & Hothers).
  exists clubs', db', c. split; [exact E |]. split; [exact Hin |].
  apply Hothers; [| discriminate].
  simpl. intuition (subst; discriminate).
Defined.

(** ** The upcoming/past split *)

Lemma split_count tz now l :
  (List.length (upcomingSessions tz l now) + List.length (pastSessions tz l now)
   = List.length (filter (fun s => match session_end tz s with
                                   | Some _ => true | None => false end) l))%nat.
Proof.
  unfold upcomingSessions, pastSessions. rewrite length_rev.
  induction l as [| s l IH]; simpl; [reflexivity |].
  destruct (session_end tz s) as [t |]; [| exact IH].
  destruct (Z.ltb_spec now t); destruct (Z.leb_spec t now); simpl; lia.
Qed.

Lemma unreadable_end_unlisted tz sessions now s :
  session_end tz s = None ->
  ~ In s (upcomingSessions tz sessions now) /\ ~ In s (pastSessions tz sessions now).
Proof.
  intros E. unfold upcomingSessions, pastSessions.
  rewrite <- in_rev, !filter_In, E. split; intros [_ F]; discriminate.
Qed.

Lemma isoDate_undefined_time tz t :
  0 <= YearFromTime t <= 9999 ->
  JSDate.parse tz (JSDate.isoDate t ++ "T" ++ "undefined") = None.
Proof.
  unfold YearFromTime, JSDate.isoDate. intros Hy.
  destruct (JSDate.civil_from_days (JSDate.Day t)) as [[y m] d].
  replace ((0 <=? y) && (y <=? 9999)) with true
    by (symmetry; apply andb_true_iff; split; apply Z.leb_le; lia).
  destruct (pad4_shape y) as (y1 & y2 & y3 & y4 & ->).
  destruct (pad2_shape m) as (m1 & m2 & ->).
  destruct (pad2_shape d) as (d1 & d2 & ->).
  reflexivity.
Qed.

Lemma filter_readable_all tz l :
  (forall x, In x l -> exists t, session_end tz x = Some t) ->
  filter (fun s => match session_end tz s with Some _ => true | None => false end) l = l.
Proof.
  induction l as [| x l IH]; intros Hall; [reflexivity |].
  cbn [filter]. destruct (Hall x (or_introl eq_refl)) as (t & ->).
  f_equal. apply IH. intros y Hy. apply Hall. now right.
Qed.

(** X20.  The club page splits the sessions by their end instant
    ([date] + 'T' + [endTime]).  A session of the list whose end instant is
    readable is listed as upcoming exactly when that instant is after the
    current one, and as past exactly when it is not after it.  No session is
    in both lists.  A session without an end time, whose date is one that
    [toISOString] prints (with a four-digit year), is in neither list.  When
    every session of the list has a readable end instant, the two lists
    together have as many entries as the list. *)
Theorem sessions_split tz sessions now s :
  In s sessions ->
  (forall t, session_end tz s = Some t ->
     (In s (upcomingSessions tz sessions now) <-> now < t)
     /\ (In s (pastSessions tz sessions now) <-> t <= now))
  /\ ~ (In s (upcomingSessions tz sessions now) /\ In s (pastSessions tz sessions now))
  /\ (forall t, Session.endTime s = None ->
        Session.date s = JSDate.isoDate t -> 0 <= YearFromTime t <= 9999 ->
        ~ In s (upcomingSessions tz sessions now)
        /\ ~ In s (pastSessions tz sessions now))
  /\ ((forall x, In x sessions -> exists t, session_end tz x = Some t) ->
      (List.length (upcomingSessions tz sessions now)
       + List.length (pastSessions tz sessions now)
       = List.length sessions)%nat).
Proof.
  intros Hin.
  assert (U : forall t, session_end tz s = Some t ->
                (In s (upcomingSessions tz sessions now) <-> now < t)).
  { intros t E. unfold upcomingSessions. rewrite filter_In, E, Z.ltb_lt. tauto. }
  assert (P : forall t, session_end tz s = Some t ->
                (In s (pastSessions tz sessions now) <-> t <= now)).
  { intros t E. unfold pastSessions. rewrite <- in_rev, filter_In, E, Z.leb_le. tauto. }
  split; [| split; [| split]].
  - intros t E. split; [now apply U | now apply P].
  - intros [Hu Hp].
    destruct (session_end tz s) as [t |] eqn:E.
    + apply (U t eq_refl) in Hu. apply (P t eq_refl) in Hp. lia.
    + now apply (unreadable_end_unlisted tz sessions now s E).
  - intros t He Hd Hy. apply unreadable_end_unlisted.
    unfold session_end. rewrite He, Hd. cbn [js_string].
    now apply isoDate_undefined_time.
  - intros Hall. rewrite split_count. now rewrite filter_readable_all.
Qed.

(** Of two sessions, one without an end time and [demo_session], which ends
    on 2024-01-08 at 21:00: a week earlier the first is in neither list and
    the second is upcoming and not past. *)
Lemma sessions_split_witness :
  (In demo_session
      (upcomingSessions demo_tz
         [Session.Build "sr" "c1" "2024-01-01" (Some "19:00") None "TBD" 8 [] OPEN None;
          demo_session] demo_now)
   <-> demo_now < 1704718800000)
  /\ (In demo_session
         (pastSessions demo_tz
            [Session.Build "sr" "c1" "2024-01-01" (Some "19:00") None "TBD" 8 [] OPEN None;
             demo_session] demo_now)
      <-> 1704718800000 <= demo_now)
  /\ ~ In (Session.Build "sr" "c1" "2024-01-01" (Some "19:00") None "TBD" 8 [] OPEN None)
          (upcomingSessions demo_tz
             [Session.Build "sr" "c1" "2024-01-01" (Some "19:00") None "TBD" 8 [] OPEN None;
              demo_session] demo_now)
  /\ ~ In (Session.Build "sr" "c1" "2024-01-01" (Some "19:00") None "TBD" 8 [] OPEN None)
          (pastSessions demo_tz
             [Session.Build "sr" "c1" "2024-01-01" (Some "19:00") None "TBD" 8 [] OPEN None;
              demo_session] demo_now)
  /\ (List.length (upcomingSessions demo_tz [demo_session] demo_now)
      + List.length (pastSessions demo_tz [demo_session] demo_now)
      = List.length [demo_session])%nat.
Proof.
  destruct (sessions_split demo_tz
              [Session.Build "sr" "c1" "2024-01-01" (Some "19:00") None "TBD" 8 [] OPEN None;
               demo_session] demo_now demo_session ltac:(simpl; auto))
    as (H1 & _ & _ & _).
  destruct (sessions_split demo_tz
              [Session.Build "sr" "c1" "2024-01-01" (Some "19:00") None "TBD" 8 [] OPEN None;
               demo_session] demo_now
              (Session.Build "sr" "c1" "2024-01-01" (Some "19:00") None "TBD" 8 [] OPEN None)
              ltac:(simpl; auto))
    as (_ & _ & H3 & _).
  destruct (sessions_split demo_tz [demo_session] demo_now demo_session ltac:(simpl; auto))
    as (_ & _ & _ & H4).
  destruct (H1 1704718800000 eq_refl) as [Hu Hp].
  destruct (H3 1704067200000 eq_refl eq_refl ltac:(vm_compute; split; discriminate))
    as [Hn1 Hn2].
  split; [exact Hu |]. split; [exact Hp |]. split; [exact Hn1 |]. split; [exact Hn2 |].
  apply H4. intros x [<- | []]. exists 1704718800000. reflexivity.
Defined.

(** X21.  A session that [createSession] made from a template without an
    end time disappears from the club page: its end instant cannot be read,
    so it is listed neither as upcoming nor as past, at any time (for dates
    whose year prints with four digits). *)
Theorem session_without_endTime_unlisted tz db rnd clubId data w t0 k :
  new_Date tz (PartialSession.date data) = Some t0 ->
  PartialSession.endTime data = None ->
  Z.of_nat k < w ->
  0 <= YearFromTime (t0 + 7 * Z.of_nat k * JSDate.msPerDay) <= 9999 ->
  exists db' created s,
    createSession tz db rnd clubId data (Some w) = (db', Return created)
    /\ nth_error created k = Some s
    /\ In s (SESSIONS db')
    /\ forall sessions now,
         ~ In s (upcomingSessions tz sessions now)
         /\ ~ In s (pastSessions tz sessions now).
Proof.
  intros Hd He Hk Hy. rewrite (createSession_valid _ _ _ _ _ _ _ Hd).
  do 3 eexists. split; [reflexivity |]. split.
  { apply weekly_sessions_nth. lia. }
  split.
  { simpl. apply in_or_app. right.
    apply nth_error_In with (n := k). apply weekly_sessions_nth. lia. }
  intros sessions now.
  apply unreadable_end_unlisted.
  unfold session_end. cbn [newSession Session.date Session.endTime].
  rewrite He. cbn [js_string]. now apply isoDate_undefined_time.
Qed.

Lemma session_without_endTime_unlisted_witness :
  exists db' created s,
    createSession demo_tz demo_db (fun _ => "r") "c1"
      (PartialSession.Build (Some "2024-01-01") (Some "19:00") None None None) (Some 1)
    = (db', Return created)
    /\ nth_error created 0 = Some s
    /\ In s (SESSIONS db')
    /\ forall sessions now,
         ~ In s (upcomingSessions demo_tz sessions now)
         /\ ~ In s (pastSessions demo_tz sessions now).
Proof.
  apply (session_without_endTime_unlisted demo_tz demo_db (fun _ => "r") "c1"
           (PartialSession.Build (Some "2024-01-01") (Some "19:00") None None None)
           1 1704067200000 0 eq_refl eq_refl ltac:(lia)).
  vm_compute. split; discriminate.
Defined.

(** ** The match log and the counters over time *)

Lemma record_call_counters db c i m :
  nth_error (MEMBERS db) i = Some m ->
  exists m',
    nth_error (MEMBERS (record_call db c)) i = Some m'
    /\ ClubMember.matchesPlayed m <= ClubMember.matchesPlayed m'
       <= ClubMember.matchesPlayed m + 1
    /\ ClubMember.matchesWon m <= ClubMember.matchesWon m'
    /\ ClubMember.matchesWon m' - ClubMember.matchesWon m
       <= ClubMember.matchesPlayed m' - ClubMember.matchesPlayed m.
Proof.
  intros Hn. unfold record_call, recordMatch. simpl.
  destruct (find_session _ _) as [session |].
  - exists (update_stats session (rc_data c) m). split; [now apply map_nth_error |].
    unfold update_stats.
    destruct (String.eqb _ _ && includes _ _); simpl; [| lia].
    destruct (includes _ (winningTeam (rc_data c))); simpl; lia.
  - exists m. split; [exact Hn | lia].
Qed.

(** X22.  The counters only grow: over every sequence of [recordMatch]
    calls a Membership row's [matchesPlayed] and [matchesWon] never decrease,
    [matchesPlayed] grows by at most one per call, and the row gains at most
    as many wins as matches. *)
Theorem ledger_counters_monotone cs : forall db i m,
  nth_error (MEMBERS db) i = Some m ->
  exists m',
    nth_error (MEMBERS (record_calls db cs)) i = Some m'
    /\ ClubMember.matchesPlayed m <= ClubMember.matchesPlayed m'
       <= ClubMember.matchesPlayed m + Z.of_nat (List.length cs)
    /\ ClubMember.matchesWon m <= ClubMember.matchesWon m'
    /\ ClubMember.matchesWon m' - ClubMember.matchesWon m
       <= ClubMember.matchesPlayed m' - ClubMember.matchesPlayed m.
Proof.
  induction cs as [| c cs IH]; intros db i m Hn.
  - exists m. simpl. split; [exact Hn | lia].
  - destruct (record_call_counters db c i m Hn) as (m1 & Hn1 & Hp1 & Hw1 & Hd1).
    destruct (IH _ _ _ Hn1) as (m2 & Hn2 & Hp2 & Hw2 & Hd2).
    exists m2. split; [exact Hn2 |].
    cbn [List.length]. rewrite Nat2Z.inj_succ. lia.
Qed.

Lemma ledger_counters_monotone_witness :
  exists m',
    nth_error (MEMBERS (record_calls (initial_store demo_now)
                          [ mkRecordCall "r1" demo_now
                              (MatchData.Build "s1" ["u1"; "u2"] ["u3"; "u4"] 21 19 WinnerA);
                            mkRecordCall "r2" (demo_now + 1)
                              (MatchData.Build "s1" ["u1"] ["u3"] 15 21 WinnerB) ])) 0
    = Some m'
    /\ 45 <= ClubMember.matchesPlayed m' <= 45 + 2
    /\ 30 <= ClubMember.matchesWon m'
    /\ ClubMember.matchesWon m' - 30 <= ClubMember.matchesPlayed m' - 45.
Proof.
  apply (ledger_counters_monotone
           [ mkRecordCall "r1" demo_now
               (MatchData.Build "s1" ["u1"; "u2"] ["u3"; "u4"] 21 19 WinnerA);
             mkRecordCall "r2" (demo_now + 1)
               (MatchData.Build "s1" ["u1"] ["u3"] 15 21 WinnerB) ]
           (initial_store demo_now) 0
           (ClubMember.Build "c1" "u1" admin "2023-01-01" 45 30) eq_refl).
Defined.

(** X23.  The match log is append-only: a sequence of [recordMatch] calls
    leaves the matches that were in [MATCHES] unchanged and in place, and
    appends one new match per call, in call order; the sessions are
    untouched. *)
Theorem match_log_append_only cs : forall db,
  MATCHES (record_calls db cs)
  = (MATCHES db
     ++ map (fun c => newMatch (rc_data c) (rc_suffix c) (rc_now c)) cs)%list
  /\ SESSIONS (record_calls db cs) = SESSIONS db.
Proof.
  induction cs as [| c cs IH]; intros db; simpl.
  - now rewrite app_nil_r.
  - destruct (IH (record_call db c)) as [HM HS].
    unfold record_calls in *. rewrite HM, HS.
    unfold record_call, recordMatch. simpl. rewrite <- app_assoc. auto.
Qed.

(** ** Announcements and session players *)

Lemma find_assign_club clubId c' clubs c0 :
  find_club clubId clubs = Some c0 ->
  Club.id c' = clubId ->
  find_club clubId (assign_club clubId c' clubs) = Some c'.
Proof.
  unfold find_club. intros Hf Hid.
  induction clubs as [| x l IH]; [discriminate |].
  simpl in *. destruct (String.eqb (Club.id x) clubId) eqn:E; simpl.
  - rewrite Hid, String.eqb_refl. reflexivity.
  - rewrite E. now apply IH.
Qed.

Lemma assign_club_back clubId c1 clubs c0 :
  find_club clubId clubs = Some c0 ->
  Club.id c1 = clubId ->
  assign_club clubId c0 (assign_club clubId c1 clubs) = clubs.
Proof.
  unfold find_club. intros Hf Hid.
  induction clubs as [| x l IH]; [reflexivity |].
  simpl in *. destruct (String.eqb (Club.id x) clubId) eqn:E; simpl.
  - inversion Hf; subst. now rewrite String.eqb_refl.
  - rewrite E. f_equal. now apply IH.
Qed.

Lemma with_announcements_same c : with_announcements (Club.announcements c) c = c.
Proof. destruct c; reflexivity. Qed.

(** X24.  Deleting undoes adding: when the id drawn for a new announcement
    is not the id of an announcement the club already has,
    [deleteAnnouncement] of that id after [addAnnouncement] gives back the
    clubs as they were; on a club id that no club has, both calls change
    nothing. *)
Theorem addAnnouncement_then_delete clubs suffix now clubId type content :
  (forall club a, find_club clubId clubs = Some club ->
                  In a (Club.announcements club) -> Announcement.id a <> "a" ++ suffix) ->
  deleteAnnouncement (addAnnouncement clubs suffix now clubId type content)
    clubId ("a" ++ suffix)
  = clubs
  /\ (find_club clubId clubs = None ->
      addAnnouncement clubs suffix now clubId type content = clubs).
Proof.
  intros Hfresh. unfold addAnnouncement.
  destruct (find_club clubId clubs) as [club |] eqn:Hf.
  2: { split; [| reflexivity]. unfold deleteAnnouncement. now rewrite Hf. }
  split; [| discriminate].
  assert (Hid : Club.id club = clubId).
  { unfold find_club in Hf. apply find_some in Hf. now apply String.eqb_eq. }
  unfold deleteAnnouncement.
  rewrite (find_assign_club _ _ _ _ Hf) by exact Hid.
  cbn [with_announcements Club.announcements Club.id Club.name Club.description
       Club.location Club.memberCount Club.bannerUrl filter Announcement.id].
  rewrite String.eqb_refl. cbn [negb].
  assert (Hkeep : filter (fun a => negb (String.eqb (Announcement.id a) ("a" ++ suffix)))
                         (Club.announcements club)
                  = Club.announcements club).
  { apply filter_all. intros a Ha. apply negb_true_iff, String.eqb_neq.
    now apply (Hfresh club a). }
  rewrite Hkeep.
  replace (with_announcements (Club.announcements club) (with_announcements _ club))
    with club by (destruct club; reflexivity).
  apply assign_club_back; [exact Hf | exact Hid].
Qed.

Lemma addAnnouncement_then_delete_witness :
  deleteAnnouncement (addAnnouncement CLUBS_init "x7" demo_now "c1" info "Courts open at 6")
    "c1" "ax7"
  = CLUBS_init
  /\ List.length
       (match find_club "c1" (addAnnouncement CLUBS_init "x7" demo_now "c1" info
                                "Courts open at 6") with
        | Some c => Club.announcements c
        | None => []
        end) = 3%nat.
Proof.
  split; [| reflexivity].
  apply (addAnnouncement_then_delete CLUBS_init "x7" demo_now "c1" info "Courts open at 6").
  intros club a Hf. inversion Hf; subst. simpl.
  intros [<- | [<- | []]]; discriminate.
Defined.

Lemma joinSession_returned db sessionId userId db' s :
  joinSession db sessionId userId = (db', Return s) ->
  find_session sessionId (SESSIONS db') = Some s
  /\ includes userId (Session.registeredPlayerIds s) = true.
Proof.
  intros H.
  destruct (find_session sessionId (SESSIONS db)) as [x |] eqn:Hf.
  2: { rewrite (joinSession_not_found _ _ _ Hf) in H. discriminate. }
  destruct (includes userId (Session.registeredPlayerIds x)) eqn:Hi.
  { rewrite (joinSession_registered _ _ _ _ Hf Hi) in H. injection H as <- <-. auto. }
  destruct (at_capacity x) eqn:Hc.
  { rewrite (joinSession_full _ _ _ _ Hf Hi Hc) in H. discriminate. }
  rewrite (joinSession_joins _ _ _ _ Hf Hi Hc) in H. injection H as <- <-.
  split.
  - simpl. apply find_assign_session with (s0 := x); [exact Hf |].
    rewrite joined_id. now apply find_session_id with (l := SESSIONS db).
  - rewrite joined_roster. apply includes_self_last.
Qed.

Lemma leaveSession_returned tz db sessionId userId now db' s :
  leaveSession tz db sessionId userId now = (db', Return s) ->
  find_session sessionId (SESSIONS db') = Some s
  /\ includes userId (Session.registeredPlayerIds s) = false.
Proof.
  intros H.
  destruct (find_session sessionId (SESSIONS db)) as [x |] eqn:Hf.
  2: { rewrite (leaveSession_not_found _ _ _ _ _ Hf) in H. discriminate. }
  destruct (is_past (sessionDate tz x) now) eqn:Hp.
  { rewrite (leaveSession_locked _ _ _ _ _ _ Hf Hp) in H. discriminate. }
  rewrite (leaveSession_leaves _ _ _ _ _ _ Hf Hp) in H. injection H as <- <-.
  split.
  - simpl. apply find_assign_session with (s0 := x); [exact Hf |].
    rewrite departed_id. now apply find_session_id with (l := SESSIONS db).
  - rewrite departed_roster. apply includes_false.
    apply (filter_other_In userId (Session.registeredPlayerIds x)).
Qed.

(** X25.  The players of a session follow the roster: after a successful
    [joinSession] of a user who has a record in [USERS], [getSessionPlayers]
    contains that user; after a successful [leaveSession] it contains no user
    with that id; and for a session id that no session has it is empty. *)
Theorem getSessionPlayers_follows_roster tz users db sessionId userId now :
  (forall db' s u,
      joinSession db sessionId userId = (db', Return s) ->
      In u users -> User.id u = userId ->
      In u (getSessionPlayers users db' sessionId))
  /\ (forall db' s u,
        leaveSession tz db sessionId userId now = (db', Return s) ->
        User.id u = userId ->
        ~ In u (getSessionPlayers users db' sessionId))
  /\ (find_session sessionId (SESSIONS db) = None ->
      getSessionPlayers users db sessionId = []).
Proof.
  unfold getSessionPlayers. split; [| split].
  - intros db' s u H Hu Hid.
    destruct (joinSession_returned _ _ _ _ _ H) as [-> Hi].
    apply filter_In. split; [exact Hu | now rewrite Hid].
  - intros db' s u H Hid.
    destruct (leaveSession_returned _ _ _ _ _ _ _ H) as [-> Hi].
    rewrite filter_In, Hid, Hi. intros [_ F]. discriminate.
  - now intros ->.
Qed.

Lemma getSessionPlayers_follows_roster_witness :
  In (User.Build "u1" "alex@demo.com" "Alex Chen" 7 (Some "https://picsum.photos/id/64/150/150"))
     (getSessionPlayers USERS_init (fst (joinSession demo_db "s" "u1")) "s")
  /\ ~ In (User.Build "u1" "alex@demo.com" "Alex Chen" 7
             (Some "https://picsum.photos/id/64/150/150"))
          (getSessionPlayers USERS_init
             (fst (leaveSession demo_tz demo_full_db "s" "u1" demo_now)) "s")
  /\ getSessionPlayers USERS_init demo_db "nowhere" = [].
Proof.
  destruct (getSessionPlayers_follows_roster demo_tz USERS_init demo_db "s" "u1" demo_now)
    as (H1 & _ & _).
  destruct (getSessionPlayers_follows_roster demo_tz USERS_init demo_full_db "s" "u1" demo_now)
    as (_ & H2 & _).
  destruct (getSessionPlayers_follows_roster demo_tz USERS_init demo_db "nowhere" "u1" demo_now)
    as (_ & _ & H3).
  split; [| split].
  - eapply H1; [reflexivity | simpl; auto | reflexivity].
  - eapply H2; reflexivity.
  - apply H3. reflexivity.
Defined.
